(** * pypanrestv2.Panorama: templates, template stacks and device groups

    A shallow embedding of [src/pypanrestv2/Panorama.py].  The classes of
    that module keep their configuration as nested Python dicts and lists
    mirroring the JSON of the Panorama REST API; the methods read and
    mutate those containers in place and raise Python exceptions.

    - Python values are the inductive [pyval]; a dict is an association
      list in insertion order (the order [next(iter(d))] observes).
    - A method that can raise returns an [outcome]; a method that mutates
      [self] is a function from the object to an outcome paired with the
      object as the call left it, so that a mutation made before a raise
      stays visible.
    - [self.entry] shares the objects held by [self._devices],
      [self._variable] and [self._templates]; the sharing is modelled by
      reference slots.
    - A dict handed in by a caller is taken by value: the objects described
      are those whose device blocks and stack-level variables are separate
      Python objects.  The statements on a mutation speak of the device or
      block the call addresses. *)

From Stdlib Require Import String Ascii List ZArith Bool Arith Lia.
Import ListNotations.
Open Scope string_scope.
Open Scope list_scope.

(** ** Python values *)

#[local] Set Warnings "-register-all".

Inductive pyval : Type :=
| VNone
| VBool (b : bool)
| VInt (z : Z)
| VStr (s : string)
| VList (l : list pyval)
| VDict (d : list (string * pyval)).

(** The built-in exceptions the module can raise. *)
Inductive exn : Type := ValueError | TypeError | AttributeError | KeyError.

Inductive outcome (A : Type) : Type :=
| Ok (a : A)
| Raise (e : exn).
Arguments Ok {A} a.
Arguments Raise {A} e.

Definition obind {A B} (o : outcome A) (k : A -> outcome B) : outcome B :=
  match o with
  | Ok a => k a
  | Raise e => Raise e
  end.

Notation "'let?' x ':=' e 'in' k" := (obind e (fun x => k))
  (at level 10, x name, e at level 100, k at level 200).

(** ** Dict and built-in operations *)

Module Py.

Section Dict.
Context {V : Type}.

(** [d.get(k)], as an option. *)
Fixpoint dict_get (k : string) (d : list (string * V)) : option V :=
  match d with
  | [] => None
  | (k', v) :: rest => if String.eqb k' k then Some v else dict_get k rest
  end.

(** [k in d]. *)
Definition dict_mem (k : string) (d : list (string * V)) : bool :=
  match dict_get k d with Some _ => true | None => false end.

(** [d[k] = v]: an existing key keeps its position, a new key goes last. *)
Fixpoint dict_set (k : string) (v : V) (d : list (string * V)) : list (string * V) :=
  match d with
  | [] => [(k, v)]
  | (k', v') :: rest =>
      if String.eqb k' k then (k, v) :: rest else (k', v') :: dict_set k v rest
  end.
End Dict.

Definition is_dict (v : pyval) : bool := match v with VDict _ => true | _ => false end.
Definition is_list (v : pyval) : bool := match v with VList _ => true | _ => false end.
Definition is_str (v : pyval) : bool := match v with VStr _ => true | _ => false end.

(** [bool(v)]. *)
Definition truthy (v : pyval) : bool :=
  match v with
  | VNone => false
  | VBool b => b
  | VInt z => negb (Z.eqb z 0)
  | VStr s => negb (String.eqb s "")
  | VList l => match l with [] => false | _ => true end
  | VDict d => match d with [] => false | _ => true end
  end.

(** [v == s] for a string [s]. *)
Definition eq_str (v : pyval) (s : string) : bool :=
  match v with VStr s' => String.eqb s' s | _ => false end.

(** [v.get(k, default)]: only dicts have the method. *)
Definition get_default (v : pyval) (k : string) (default : pyval) : outcome pyval :=
  match v with
  | VDict d => Ok (match dict_get k d with Some x => x | None => default end)
  | _ => Raise AttributeError
  end.

(** [v.get(k)]. *)
Definition get (v : pyval) (k : string) : outcome pyval := get_default v k VNone.

(** [v[k]] for a string key [k]. *)
Definition getitem (v : pyval) (k : string) : outcome pyval :=
  match v with
  | VDict d => match dict_get k d with Some x => Ok x | None => Raise KeyError end
  | _ => Raise TypeError
  end.

(** [s in v] for a string [s]: key of a dict, element of a list,
    substring of a string. *)
Definition contains_str (s : string) (v : pyval) : outcome bool :=
  match v with
  | VDict d => Ok (dict_mem s d)
  | VList l => Ok (existsb (fun x => eq_str x s) l)
  | VStr t => Ok (match String.index 0 s t with Some _ => true | None => false end)
  | _ => Raise TypeError
  end.

(** The elements a [for] loop visits. *)
Definition iter (v : pyval) : outcome (list pyval) :=
  match v with
  | VList l => Ok l
  | VStr s => Ok (map (fun c => VStr (String c "")) (list_ascii_of_string s))
  | VDict d => Ok (map (fun kv => VStr (fst kv)) d)
  | _ => Raise TypeError
  end.

(** [v.append(x)]: the list after the call. *)
Definition append (v x : pyval) : outcome pyval :=
  match v with
  | VList l => Ok (VList (l ++ [x]))
  | _ => Raise AttributeError
  end.

(** [del l[idx]] on a list. *)
Fixpoint remove_nth {A} (idx : nat) (l : list A) : list A :=
  match l, idx with
  | [], _ => []
  | _ :: rest, O => rest
  | x :: rest, S i => x :: remove_nth i rest
  end.

(** [l[idx] = x] on a list. *)
Fixpoint set_nth {A} (idx : nat) (x : A) (l : list A) : list A :=
  match l, idx with
  | [], _ => []
  | _ :: rest, O => x :: rest
  | y :: rest, S i => y :: set_nth i x rest
  end.

(** [del v[idx]] for an integer index. *)
Definition delitem (v : pyval) (idx : nat) : outcome pyval :=
  match v with
  | VList l => Ok (VList (remove_nth idx l))
  | VDict _ => Raise KeyError
  | _ => Raise TypeError
  end.

(** [x[k] = v] on a dict held by another container. *)
Definition set_item_key (x : pyval) (k : string) (v : pyval) : pyval :=
  match x with
  | VDict d => VDict (dict_set k v d)
  | _ => x
  end.

(** [entry_list in (None, '')] replaced by [[]]. *)
Definition none_or_empty_as_list (v : pyval) : pyval :=
  match v with
  | VNone => VList []
  | VStr "" => VList []
  | _ => v
  end.

End Py.
Import Py.

(** ** Methods

    A method on an object of type [S]: the outcome, and [self] as the call
    left it (also when it raised). *)

Definition M (S A : Type) : Type := S -> outcome A * S.

Section Method.
Context {S : Type}.

Definition ret {A} (a : A) : M S A := fun self => (Ok a, self).

Definition raise {A} (e : exn) : M S A := fun self => (Raise e, self).

Definition bind {A B} (m : M S A) (k : A -> M S B) : M S B :=
  fun self =>
    match m self with
    | (Ok a, self') => k a self'
    | (Raise e, self') => (Raise e, self')
    end.

(** An expression that reads no attribute. *)
Definition lift {A} (o : outcome A) : M S A := fun self => (o, self).

Definition read {A} (f : S -> A) : M S A := fun self => (Ok (f self), self).

Definition modify (f : S -> S) : M S unit := fun self => (Ok tt, f self).
End Method.

Notation "x <- e ;; k" := (bind e (fun x => k))
  (at level 61, e at next level, right associativity).
Notation "e ;; k" := (bind e (fun _ => k))
  (at level 61, right associativity).

(** ** Structural validators of [TemplateStacks]

    The validators are pure: they return a boolean and write debug
    diagnostics to the logger, which no caller reads. *)

Definition variable_types : list string :=
  ["ip-netmask"; "ip-range"; "hostname"; "ipv4-subnet"; "ipv6-subnet"; "pre-shared-key";
   "fqdn"; "group-id"; "device-priority"; "device-id"; "interface";
   "as-number"; "qos-profile"; "egress-max"; "link-tag"].

(** [t in self.variable_types]. *)
Definition in_variable_types (t : string) : bool :=
  existsb (String.eqb t) variable_types.

(** The checks on a [pre-shared-key] value: a dict, with ['key'] or
    ['value'], each present field a string. *)
Definition check_pre_shared_key (type_val : pyval) : bool :=
  match type_val with
  | VDict tv =>
      if negb (existsb (fun k => dict_mem k tv) ["key"; "value"]) then false
      else
        forallb
          (fun k => match dict_get k tv with
                    | Some x => is_str x
                    | None => true
                    end)
          ["key"; "value"]
  | _ => false
  end.

(** The body of the loop of [validate_variable_structure] for one item:
    [false] where the source returns [False]. *)
Definition validate_variable_item (item : pyval) : bool :=
  match item with
  | VDict it =>
      if negb (dict_mem "@name" it) || negb (dict_mem "type" it) then false
      else
        match dict_get "type" it with
        | Some (VDict ty) =>
            if negb (Nat.eqb (List.length ty) 1) then false
            else
              match ty with
              | (type_key, type_val) :: _ =>
                  if negb (in_variable_types type_key) then false
                  else if String.eqb type_key "pre-shared-key"
                       then check_pre_shared_key type_val
                       else is_str type_val
              | [] => false
              end
        | _ => false
        end
  | _ => false
  end.

(** [for item in entry_list: ... return False ...; return True]. *)
Fixpoint validate_variable_items (entry_list : list pyval) : bool :=
  match entry_list with
  | [] => true
  | item :: rest =>
      if validate_variable_item item then validate_variable_items rest else false
  end.

Definition validate_variable_structure (variable : pyval) : bool :=
  match variable with
  | VDict var =>
      let entry_list :=
        none_or_empty_as_list
          (match dict_get "entry" var with Some x => x | None => VList [] end) in
      match entry_list with
      | VList l =>
          match l with
          | [] => true
          | _ => validate_variable_items l
          end
      | _ => false
      end
  | _ => false
  end.

(** The body of the loop of [validate_devices_structure] for one item. *)
Definition validate_devices_item (item : pyval) : bool :=
  match item with
  | VDict it =>
      if negb (dict_mem "@name" it) then false
      else
        match dict_get "variable" it with
        | Some var_block =>
            match var_block with
            | VDict vb =>
                let entry_list :=
                  none_or_empty_as_list
                    (match dict_get "entry" vb with Some x => x | None => VList [] end) in
                if truthy entry_list then validate_variable_structure var_block else true
            | _ => false
            end
        | None => true
        end
  | _ => false
  end.

Fixpoint validate_devices_items (entry_list : list pyval) : bool :=
  match entry_list with
  | [] => true
  | item :: rest =>
      if validate_devices_item item then validate_devices_items rest else false
  end.

Definition validate_devices_structure (devices : pyval) : bool :=
  match devices with
  | VDict dv =>
      match dict_get "entry" dv with
      | Some (VList l) => validate_devices_items l
      | _ => false
      end
  | _ => false
  end.

Definition validate_templates_structure (templates : pyval) : bool :=
  match templates with
  | VDict tp =>
      match dict_get "member" tp with
      | Some (VList _) => true
      | _ => false
      end
  | _ => false
  end.

(** ** Template stacks *)

Module TemplateStacks.

(** A value of [self.entry]: an object of its own, or the very object
    held by one of the attributes ([self.entry['devices'] = self.devices]
    stores a reference, it does not copy). *)
Inductive slot : Type :=
| Own (v : pyval)
| RefTemplates
| RefDevices
| RefVariable.

(** The attributes of a [TemplateStacks] object the methods touch.
    [entry] is the dict inherited from the base class. *)
Record obj : Type := mkObj {
  _templates : pyval;
  _devices : pyval;
  _variable : pyval;
  entry : list (string * slot)
}.

(** What [self.entry[k]] evaluates to. *)
Definition resolve (self : obj) (s : slot) : pyval :=
  match s with
  | Own v => v
  | RefTemplates => _templates self
  | RefDevices => _devices self
  | RefVariable => _variable self
  end.

Definition entry_view (self : obj) : list (string * pyval) :=
  map (fun kv => (fst kv, resolve self (snd kv))) (entry self).

Definition set_devices_obj (v : pyval) (self : obj) : obj :=
  mkObj (_templates self) v (_variable self) (entry self).

Definition set_entry_key (k : string) (s : slot) (self : obj) : obj :=
  mkObj (_templates self) (_devices self) (_variable self) (dict_set k s (entry self)).

(** The setter of the [devices] property. *)
Definition devices_setter (value : pyval) : M obj unit :=
  if validate_devices_structure value
  then modify (set_devices_obj value) ;; modify (set_entry_key "devices" RefDevices)
  else raise ValueError.

Definition _ensure_devices_container : M obj unit :=
  devices <- read _devices ;;
  (if negb (is_dict devices)
      || negb (match devices with VDict d => dict_mem "entry" d | _ => false end)
   then devices_setter (VDict [("entry", VList [])])
   else ret tt) ;;
  e <- read entry ;;
  if negb (dict_mem "devices" e)
  then modify (set_entry_key "devices" RefDevices)
  else ret tt.

(** [_ensure_device_variables_container(device_entry)]: the device entry
    after the in-place normalisation. *)
Definition _ensure_device_variables_container
    (device_entry : list (string * pyval)) : list (string * pyval) :=
  match dict_get "variable" device_entry with
  | Some (VDict var_block) =>
      let e := match dict_get "entry" var_block with Some x => x | None => VNone end in
      if negb (is_list e)
      then dict_set "variable" (VDict (dict_set "entry" (VList []) var_block)) device_entry
      else device_entry
  | _ => dict_set "variable" (VDict [("entry", VList [])]) device_entry
  end.

(** [self.devices['entry'] = v], the in-place effect of a mutation of the
    list held under ['entry']. *)
Definition store_devices_entry (v : pyval) : M obj unit :=
  modify (fun self =>
    match _devices self with
    | VDict d => set_devices_obj (VDict (dict_set "entry" v d)) self
    | _ => self
    end).

Definition add_device (name : string) (variables : pyval) : M obj bool :=
  _ensure_devices_container ;;
  let append_entry (device_entry : pyval) : M obj bool :=
    devices <- read _devices ;;
    l <- lift (getitem devices "entry") ;;
    l' <- lift (append l device_entry) ;;
    store_devices_entry l' ;;
    modify (set_entry_key "devices" RefDevices) ;;
    ret true in
  match variables with
  | VNone => append_entry (VDict [("@name", VStr name)])
  | _ =>
      if negb (validate_variable_structure variables) then ret false
      else append_entry (VDict [("@name", VStr name); ("variable", variables)])
  end.

(** The first item [x] of a loop with [x.get('@name') == name], with its
    index; an item before it that is no dict raises [AttributeError]. *)
Fixpoint find_named (name : string) (l : list pyval) (idx : nat)
    : outcome (option (nat * list (string * pyval))) :=
  match l with
  | [] => Ok None
  | x :: rest =>
      match x with
      | VDict d =>
          if eq_str (match dict_get "@name" d with Some n => n | None => VNone end) name
          then Ok (Some (idx, d))
          else find_named name rest (S idx)
      | _ => Raise AttributeError
      end
  end.

Definition remove_device (name : string) : M obj bool :=
  _ensure_devices_container ;;
  devices <- read _devices ;;
  l <- lift (getitem devices "entry") ;;
  items <- lift (iter l) ;;
  found <- lift (find_named name items 0) ;;
  match found with
  | Some (idx, _) =>
      l' <- lift (delitem l idx) ;;
      store_devices_entry l' ;;
      modify (set_entry_key "devices" RefDevices) ;;
      ret true
  | None => ret false
  end.

(** [next(iter(t))] for the first item of the loop whose ['@name'] is
    [name] and whose ['type'] is a non-empty dict. *)
Fixpoint first_type_tag (name : string) (l : list pyval) : outcome (option string) :=
  match l with
  | [] => Ok None
  | var_def :: rest =>
      let? n := get var_def "@name" in
      if eq_str n name
      then
        let? t := get var_def "type" in
        match t with
        | VDict ((type_key, _) :: _) => Ok (Some type_key)
        | _ => first_type_tag name rest
        end
      else first_type_tag name rest
  end.

(** The fallback loop of [_infer_variable_type] over the devices. *)
Fixpoint first_device_type_tag (name : string) (devs : list pyval) : outcome (option string) :=
  match devs with
  | [] => Ok None
  | dev :: rest =>
      match dev with
      | VDict d =>
          match dict_get "variable" d with
          | Some (VDict dev_var) =>
              let? items :=
                iter (match dict_get "entry" dev_var with Some x => x | None => VList [] end) in
              let? r := first_type_tag name items in
              match r with
              | Some type_key => Ok (Some type_key)
              | None => first_device_type_tag name rest
              end
          | _ => first_device_type_tag name rest
          end
      | _ => first_device_type_tag name rest
      end
  end.

Definition _infer_variable_type (self : obj) (variable_name : string)
    : outcome (option string) :=
  let? r :=
    match _variable self with
    | VDict var =>
        if truthy (_variable self) && dict_mem "entry" var
        then
          let? items :=
            iter (match dict_get "entry" var with Some x => x | None => VList [] end) in
          first_type_tag variable_name items
        else Ok None
    | _ => Ok None
    end in
  match r with
  | Some type_key => Ok (Some type_key)
  | None =>
      match _devices self with
      | VDict dv =>
          if truthy (_devices self)
          then
            let? devs :=
              iter (match dict_get "entry" dv with Some x => x | None => VList [] end) in
            first_device_type_tag variable_name devs
          else Ok None
      | _ => Ok None
      end
  end.

Definition set_variable_obj (v : pyval) (self : obj) : obj :=
  mkObj (_templates self) (_devices self) v (entry self).

Definition update_variable (name variable_type : string) (variable_value : pyval) : M obj unit :=
  if in_variable_types variable_type
  then
    let variable_entry :=
      VDict [("@name", VStr name); ("type", VDict [(variable_type, variable_value)])] in
    variable <- read _variable ;;
    l <- lift (getitem variable "entry") ;;
    l' <- lift (append l variable_entry) ;;
    modify (fun self =>
      match _variable self with
      | VDict d => set_variable_obj (VDict (dict_set "entry" l' d)) self
      | _ => self
      end) ;;
    modify (set_entry_key "variable" RefVariable)
  else ret tt.

(** The body of the loop of [update_device_variable] for the device entry
    whose name matched: the outcome and the device entry as mutated. *)
Definition update_variable_in_device
    (variable_name variable_type : string) (variable_value : pyval)
    (device_entry0 : list (string * pyval)) : outcome unit * list (string * pyval) :=
  let device_entry := _ensure_device_variables_container device_entry0 in
  let is_psk := String.eqb variable_type "pre-shared-key" in
  let normalized_value :=
    if is_psk && is_str variable_value
    then VDict [("value", variable_value)] else variable_value in
  let payload := VDict [(variable_type, normalized_value)] in
  let var_block :=
    match dict_get "variable" device_entry with Some x => x | None => VDict [] end in
  let scan :=
    let? e := get_default var_block "entry" (VList []) in
    let? items := iter e in
    let? found := find_named variable_name items 0 in
    Ok (items, found) in
  match scan with
  | Raise e => (Raise e, device_entry)
  | Ok (items, Some (idx, var_entry)) =>
      if is_psk && negb (is_dict normalized_value)
      then (Raise ValueError, device_entry)
      else
        let items' := set_nth idx (VDict (dict_set "type" payload var_entry)) items in
        (Ok tt, dict_set "variable" (set_item_key var_block "entry" (VList items')) device_entry)
  | Ok (_, None) =>
      let '(device_entry1, var_block1) :=
        match dict_get "variable" device_entry with
        | Some (VDict vb) => (device_entry, vb)
        | _ => (dict_set "variable" (VDict [("entry", VList [])]) device_entry,
                [("entry", VList [])])
        end in
      let '(device_entry2, var_block2, l) :=
        match dict_get "entry" var_block1 with
        | Some (VList l) => (device_entry1, var_block1, l)
        | _ => (dict_set "variable" (VDict (dict_set "entry" (VList []) var_block1)) device_entry1,
                dict_set "entry" (VList []) var_block1, [])
        end in
      if is_psk && negb (is_dict normalized_value)
      then (Raise ValueError, device_entry2)
      else
        let new_entry := VDict [("@name", VStr variable_name); ("type", payload)] in
        (Ok tt,
         dict_set "variable" (VDict (dict_set "entry" (VList (l ++ [new_entry])) var_block2))
           device_entry2)
  end.

Definition update_device_variable
    (device_name variable_name variable_type : string) (variable_value : pyval) : M obj unit :=
  if negb (in_variable_types variable_type) then ret tt
  else
    _ensure_devices_container ;;
    devices <- read _devices ;;
    l <- lift (getitem devices "entry") ;;
    items <- lift (iter l) ;;
    found <- lift (find_named device_name items 0) ;;
    match found with
    | Some (idx, device_entry) =>
        let '(r, device_entry') :=
          update_variable_in_device variable_name variable_type variable_value device_entry in
        store_devices_entry (VList (set_nth idx (VDict device_entry') items)) ;;
        lift r ;;
        modify (set_entry_key "devices" RefDevices)
    | None => ret tt
    end.

Definition remove_device_variable (device_name variable_name : string) : M obj bool :=
  _ensure_devices_container ;;
  devices <- read _devices ;;
  l <- lift (getitem devices "entry") ;;
  items <- lift (iter l) ;;
  found <- lift (find_named device_name items 0) ;;
  match found with
  | Some (idx, device_entry) =>
      match dict_get "variable" device_entry with
      | None => ret false
      | Some var_block =>
          has_entry <- lift (contains_str "entry" var_block) ;;
          if negb has_entry then ret false
          else
            e <- lift (getitem var_block "entry") ;;
            var_items <- lift (iter e) ;;
            var_found <- lift (find_named variable_name var_items 0) ;;
            match var_found with
            | Some (var_idx, _) =>
                e' <- lift (delitem e var_idx) ;;
                let device_entry' :=
                  dict_set "variable" (set_item_key var_block "entry" e') device_entry in
                store_devices_entry (VList (set_nth idx (VDict device_entry') items)) ;;
                modify (set_entry_key "devices" RefDevices) ;;
                ret true
            | None => ret false
            end
      end
  | None => ret false
  end.

Definition set_device_variable_value
    (device_serial variable_name : string) (value : pyval)
    (create_device_if_missing : bool) : M obj unit :=
  self <- read (fun self => self) ;;
  var_type <- lift (_infer_variable_type self variable_name) ;;
  match var_type with
  | None => raise ValueError
  | Some var_type_key =>
      if negb (truthy (VStr var_type_key)) then raise ValueError
      else
        devices <- read _devices ;;
        e <- lift (get_default devices "entry" (VList [])) ;;
        items <- lift (iter e) ;;
        let device_exists :=
          existsb
            (fun d => is_dict d
                      && match get d "@name" with Ok n => eq_str n device_serial | Raise _ => false end)
            items in
        (if negb device_exists && create_device_if_missing
         then add_device device_serial VNone ;; ret tt
         else ret tt) ;;
        let prepared_value :=
          if String.eqb var_type_key "pre-shared-key" && is_str value
          then VDict [("value", value)] else value in
        update_device_variable device_serial variable_name var_type_key prepared_value
  end.

End TemplateStacks.

(** ** Templates *)

Module Templates.

(** [_settings] is [None] while the attribute has not been assigned. *)
Record obj : Type := mkObj {
  _settings : option pyval;
  entry : list (string * pyval)
}.

(** [self._settings = v; self.entry.update({'settings': w})]. *)
Definition assign (v w : pyval) : M obj unit :=
  modify (fun self => mkObj (Some v) (dict_set "settings" w (entry self))).

(** The setter of the [settings] property. *)
Definition settings_setter (value : pyval) : M obj unit :=
  match value with
  | VDict d =>
      if dict_mem "default-vsys" d
      then assign value value
      else ret tt
  | VStr s =>
      if negb (String.prefix "vsys" s) then raise ValueError
      else assign (VDict [("default-vsys", value)]) (VDict [("default-vsys", value)])
  | _ => raise TypeError
  end.

End Templates.

(** ** Device groups *)

Module DeviceGroups.

Inductive level : Type := Warning | Error.

(** [entry] is the dict inherited from the base class; [log] collects the
    records the method hands to the module's logger, oldest first. *)
Record obj : Type := mkObj {
  entry : list (string * pyval);
  log : list (level * string)
}.

Definition set_entry_key (k : string) (v : pyval) : M obj unit :=
  modify (fun self => mkObj (dict_set k v (entry self)) (log self)).

Definition logger_warning (msg : string) : M obj unit :=
  modify (fun self => mkObj (entry self) (log self ++ [(Warning, msg)])).

Definition add_reference_template (template_name : pyval) : M obj unit :=
  match template_name with
  | VStr name =>
      if negb (truthy template_name) then raise ValueError
      else
        e <- read entry ;;
        (if negb (dict_mem "reference-templates" e)
         then set_entry_key "reference-templates" (VDict [("member", VList [])])
         else ret tt) ;;
        e <- read entry ;;
        rt <- lift (getitem (VDict e) "reference-templates") ;;
        members <- lift (getitem rt "member") ;;
        present <- lift (contains_str name members) ;;
        if negb present
        then
          members' <- lift (append members template_name) ;;
          set_entry_key "reference-templates" (set_item_key rt "member" members')
        else
          logger_warning
            ("Template '" ++ name ++ "' already exists in the reference templates.")
  | _ => raise TypeError
  end.

End DeviceGroups.

(** ** Further methods *)

Module TemplateStacksMore.
Import TemplateStacks.

Definition set_templates_obj (v : pyval) (self : obj) : obj :=
  mkObj v (_devices self) (_variable self) (entry self).

Definition add_template_member (member : pyval) : M obj unit :=
  templates <- read _templates ;;
  l <- lift (getitem templates "member") ;;
  l' <- lift (append l member) ;;
  modify (fun self =>
    match _templates self with
    | VDict d => set_templates_obj (VDict (dict_set "member" l' d)) self
    | _ => self
    end) ;;
  modify (set_entry_key "templates" RefTemplates).

End TemplateStacksMore.

Module DeviceGroupsMore.
Import DeviceGroups.

Definition logger_error (msg : string) : M obj unit :=
  modify (fun self => mkObj (entry self) (log self ++ [(Error, msg)])).

(** The record the [except AttributeError] handler of [add_device] logs. *)
Definition add_device_failure : string :=
  "Failed to add device: 'entry' dictionary is not properly initialized.".

(** [DeviceGroups.add_device]: the [AttributeError] raised inside the
    [try] is caught and logged; an exception of another kind raised by the
    test itself propagates. *)
Definition add_device (serial : pyval) : M obj unit :=
  if negb (truthy serial) then raise ValueError
  else
    e <- read entry ;;
    match dict_get "devices" e with
    | None => logger_error add_device_failure
    | Some devices =>
        has_entry <- lift (contains_str "entry" devices) ;;
        if negb has_entry then logger_error add_device_failure
        else
          l <- lift (getitem devices "entry") ;;
          if negb (is_list l) then logger_error add_device_failure
          else
            l' <- lift (append l (VDict [("@name", serial)])) ;;
            set_entry_key "devices" (set_item_key devices "entry" l')
    end.

(** The attribute and the dict the [to_sw_version] property works on. *)
Record versioned : Type := mkVersioned {
  _to_sw_version : pyval;
  v_entry : list (string * pyval)
}.

(** The setter of the [to_sw_version] property. *)
Definition to_sw_version_setter (val : pyval) : M versioned unit :=
  if truthy val
  then
    if negb (is_str val) then raise TypeError
    else modify (fun self => mkVersioned val (dict_set "to-sw-version" val (v_entry self)))
  else modify (fun self => mkVersioned (VStr "None") (v_entry self)).

End DeviceGroupsMore.

(** ** Views used by the statements *)

(** The list under [self.devices['entry']]; empty when there is none. *)
Definition devices_entries (self : TemplateStacks.obj) : list pyval :=
  match TemplateStacks._devices self with
  | VDict d => match dict_get "entry" d with Some (VList l) => l | _ => [] end
  | _ => []
  end.

(** [isinstance(d, dict) and d.get('@name') == name]. *)
Definition named (name : string) (d : pyval) : bool :=
  match d with
  | VDict it => eq_str (match dict_get "@name" it with Some n => n | None => VNone end) name
  | _ => false
  end.

(** The number of items of a list equal to the string [name]. *)
Definition occurrences (name : string) (l : list pyval) : nat :=
  List.length (filter (fun x => eq_str x name) l).

(** The list under [self.entry['reference-templates']['member']]; empty
    when there is none. *)
Definition reference_members (self : DeviceGroups.obj) : list pyval :=
  match dict_get "reference-templates" (DeviceGroups.entry self) with
  | Some (VDict rt) => match dict_get "member" rt with Some (VList l) => l | _ => [] end
  | _ => []
  end.

(** [self.entry] has no ['reference-templates'], or has one of the shape
    [{'member': [...]}] that the constructor and [add_reference_template]
    store. *)
Definition reference_templates_wf (self : DeviceGroups.obj) : bool :=
  match dict_get "reference-templates" (DeviceGroups.entry self) with
  | None => true
  | Some (VDict rt) => match dict_get "member" rt with Some (VList _) => true | _ => false end
  | Some _ => false
  end.

(** The record [add_reference_template] logs for a duplicate. *)
Definition duplicate_warning (name : string) : DeviceGroups.level * string :=
  (DeviceGroups.Warning,
   ("Template '" ++ name ++ "' already exists in the reference templates.")%string).

(** [self.devices['entry']], when there is one, is a list. *)
Definition devices_entry_listlike (self : TemplateStacks.obj) : bool :=
  match TemplateStacks._devices self with
  | VDict d =>
      match dict_get "entry" d with
      | Some (VList _) | None => true
      | Some _ => false
      end
  | _ => true
  end.

(** The device entry [add_device(name)] builds. *)
Definition bare_device (name : string) : pyval := VDict [("@name", VStr name)].

(** *** Type inference, in the words of the specification

    "Given a variable name, search stack-level definitions first, then
    fall back to scanning existing device-level variable entries,
    returning the first matching type-tag or not found." *)

(** The type-tag an entry gives for [name]: the first key of its ['type']
    when the entry is named [name] and ['type'] is a non-empty dict. *)
Definition entry_type_tag (name : string) (x : pyval) : option string :=
  match x with
  | VDict d =>
      if eq_str (match dict_get "@name" d with Some n => n | None => VNone end) name
      then match dict_get "type" d with
           | Some (VDict ((type_key, _) :: _)) => Some type_key
           | _ => None
           end
      else None
  | _ => None
  end.

(** The tag of the first entry of [l] that gives one. *)
Fixpoint first_match (name : string) (l : list pyval) : option string :=
  match l with
  | [] => None
  | x :: rest =>
      match entry_type_tag name x with
      | Some type_key => Some type_key
      | None => first_match name rest
      end
  end.

(** The stack-level definitions, [self.variable['entry']]. *)
Definition stack_definitions (self : TemplateStacks.obj) : list pyval :=
  match TemplateStacks._variable self with
  | VDict var => match dict_get "entry" var with Some (VList l) => l | _ => [] end
  | _ => []
  end.

(** The variable entries of one device, [dev['variable']['entry']]. *)
Definition device_variable_entries (dev : pyval) : list pyval :=
  match dev with
  | VDict d =>
      match dict_get "variable" d with
      | Some (VDict dev_var) =>
          match dict_get "entry" dev_var with Some (VList l) => l | _ => [] end
      | _ => []
      end
  | _ => []
  end.

Definition spec_infer_variable_type (self : TemplateStacks.obj) (name : string)
    : option string :=
  match first_match name (stack_definitions self) with
  | Some type_key => Some type_key
  | None => first_match name (flat_map device_variable_entries (devices_entries self))
  end.

(** An ['entry'] that is absent or a list of dicts. *)
Definition entries_shape_ok (e : option pyval) : bool :=
  match e with
  | None => true
  | Some (VList l) => forallb is_dict l
  | Some _ => false
  end.

Definition variable_shape_ok (self : TemplateStacks.obj) : bool :=
  match TemplateStacks._variable self with
  | VDict var => entries_shape_ok (dict_get "entry" var)
  | _ => true
  end.

Definition device_shape_ok (dev : pyval) : bool :=
  match dev with
  | VDict d =>
      match dict_get "variable" d with
      | Some (VDict dev_var) => entries_shape_ok (dict_get "entry" dev_var)
      | _ => true
      end
  | _ => true
  end.

Definition devices_shape_ok (self : TemplateStacks.obj) : bool :=
  match TemplateStacks._devices self with
  | VDict d =>
      match dict_get "entry" d with
      | None => true
      | Some (VList devs) => forallb device_shape_ok devs
      | Some _ => false
      end
  | _ => true
  end.

(** [self.devices] is a dict whose ['entry'], when there is one, is a list
    of dicts: what [validate_devices_structure] accepts, and the dict
    without ['entry'] that [_ensure_devices_container] repairs. *)
Definition devices_list_of_dicts (self : TemplateStacks.obj) : bool :=
  match TemplateStacks._devices self with
  | VDict d =>
      match dict_get "entry" d with
      | None => true
      | Some (VList l) => forallb is_dict l
      | Some _ => false
      end
  | _ => false
  end.

(** *** Normal shape of the containers *)

(** [self.devices] is a dict that has ['entry']. *)
Definition devices_has_entry (self : TemplateStacks.obj) : bool :=
  match TemplateStacks._devices self with
  | VDict d => dict_mem "entry" d
  | _ => false
  end.

(** [self] after [_ensure_devices_container()]. *)
Definition ensured (self : TemplateStacks.obj) : TemplateStacks.obj :=
  snd (TemplateStacks._ensure_devices_container self).

(** The ['variable'] block of a device entry is a dict whose ['entry'] is
    a list. *)
Definition variable_block_normalised (device_entry : list (string * pyval)) : bool :=
  match dict_get "variable" device_entry with
  | Some (VDict var_block) =>
      match dict_get "entry" var_block with
      | Some (VList _) => true
      | _ => false
      end
  | _ => false
  end.

(** A stack with one device that has no ['variable'] block, as
    [add_device('0123456789')] leaves it. *)
Definition stack_with_bare_device : TemplateStacks.obj :=
  TemplateStacks.mkObj
    (VDict [("member", VList [])])
    (VDict [("entry", VList [bare_device "0123456789"])])
    (VDict [("entry", VList [VDict [("@name", VStr "$mgmt_ip");
                                    ("type", VDict [("ip-netmask", VStr "0.0.0.0/0")])]])])
    [("templates", TemplateStacks.RefTemplates);
     ("devices", TemplateStacks.RefDevices);
     ("variable", TemplateStacks.RefVariable)].

(** A property of [self] that a method keeps, whether it returns or
    raises. *)
Definition keeps {S A : Type} (P : S -> Prop) (m : M S A) : Prop :=
  forall self, P self -> P (snd (m self)).

(** *** Views for the further properties *)

(** The first dict of [l] named [name]. *)
Fixpoint first_named (name : string) (l : list pyval) : option (list (string * pyval)) :=
  match l with
  | [] => None
  | x :: rest =>
      match x with
      | VDict d => if named name x then Some d else first_named name rest
      | _ => first_named name rest
      end
  end.

(** The ['type'] dict that the first device named [serial] holds for the
    variable [name]. *)
Definition device_variable (self : TemplateStacks.obj) (serial name : string)
    : option pyval :=
  match first_named serial (devices_entries self) with
  | Some dev =>
      match first_named name (device_variable_entries (VDict dev)) with
      | Some var_entry => dict_get "type" var_entry
      | None => None
      end
  | None => None
  end.

(** The entry list after the entry named [name] got [payload] as its
    ['type'], or after a new entry was appended when none was named so. *)
Fixpoint upsert_type (name : string) (payload : pyval) (l : list pyval) : list pyval :=
  match l with
  | [] => [VDict [("@name", VStr name); ("type", payload)]]
  | x :: rest =>
      match x with
      | VDict d =>
          if named name x then VDict (dict_set "type" payload d) :: rest
          else x :: upsert_type name payload rest
      | _ => x :: upsert_type name payload rest
      end
  end.

(** The value [update_device_variable] stores under the type-tag. *)
Definition normalized_value (variable_type : string) (value : pyval) : pyval :=
  if String.eqb variable_type "pre-shared-key" && is_str value
  then VDict [("value", value)] else value.

(** The value fits the type-tag as [validate_variable_structure] asks. *)
Definition value_fits (variable_type : string) (value : pyval) : bool :=
  if String.eqb variable_type "pre-shared-key"
  then check_pre_shared_key value else is_str value.

(** The list under [self.templates['member']]; empty when there is none. *)
Definition template_members (self : TemplateStacks.obj) : list pyval :=
  match TemplateStacks._templates self with
  | VDict d => match dict_get "member" d with Some (VList l) => l | _ => [] end
  | _ => []
  end.

(** The list under [self.entry['devices']['entry']] of a device group. *)
Definition group_devices (self : DeviceGroups.obj) : list pyval :=
  match dict_get "devices" (DeviceGroups.entry self) with
  | Some (VDict d) => match dict_get "entry" d with Some (VList l) => l | _ => [] end
  | _ => []
  end.

(** The variable entries of the first device named [serial]. *)
Definition device_variables (self : TemplateStacks.obj) (serial : string) : list pyval :=
  match first_named serial (devices_entries self) with
  | Some dev => device_variable_entries (VDict dev)
  | None => []
  end.

(** A value [update_device_variable] takes for the type: anything, but for
    ['pre-shared-key'] a string or a dict. *)
Definition value_accepted (variable_type : string) (value : pyval) : bool :=
  negb (String.eqb variable_type "pre-shared-key") || is_str value || is_dict value.

(** What holds of the result and of [self] whenever a method returns
    (nothing is asked when it raises). *)
Definition on_return {S A : Type} (m : M S A) (R : A -> S -> Prop) : Prop :=
  forall self,
    match m self with
    | (Ok a, self') => R a self'
    | (Raise _, _) => True
    end.

(** [self.entry[k]] is the very object held by the attribute. *)
Definition entry_shares (k : string) (s : TemplateStacks.slot) (self : TemplateStacks.obj)
    : Prop :=
  dict_get k (TemplateStacks.entry self) = Some s
  /\ dict_get k (TemplateStacks.entry_view self) = Some (TemplateStacks.resolve self s).

(** [self.entry['devices']] of a device group is a dict whose ['entry']
    is a list, as [__init__] leaves it. *)
Definition group_devices_ready (self : DeviceGroups.obj) : bool :=
  match dict_get "devices" (DeviceGroups.entry self) with
  | Some (VDict d) => match dict_get "entry" d with Some (VList _) => true | _ => false end
  | _ => false
  end.

(** *** Stacks the validators accept whose entries are not lists *)

(** Stack-level variables [{'entry': None}], no devices. *)
Definition stack_with_none_entry : TemplateStacks.obj :=
  TemplateStacks.mkObj
    (VDict [("member", VList [])])
    (VDict [("entry", VList [])])
    (VDict [("entry", VNone)])
    [("templates", TemplateStacks.RefTemplates);
     ("devices", TemplateStacks.RefDevices);
     ("variable", TemplateStacks.RefVariable)].

(** Two devices: the first with the variable block [block], the second
    with a definition of [$hostname]; no stack-level definitions. *)
Definition stack_with_first_block (block : pyval) : TemplateStacks.obj :=
  TemplateStacks.mkObj
    (VDict [("member", VList [])])
    (VDict [("entry",
             VList [VDict [("@name", VStr "0001"); ("variable", block)];
                    VDict [("@name", VStr "0002");
                           ("variable",
                            VDict [("entry",
                                    VList [VDict [("@name", VStr "$hostname");
                                                  ("type", VDict [("hostname", VStr "fw2")])]])])]])])
    (VDict [("entry", VList [])])
    [("templates", TemplateStacks.RefTemplates);
     ("devices", TemplateStacks.RefDevices);
     ("variable", TemplateStacks.RefVariable)].

(** The first device holds [{'entry': None}]. *)
Definition stack_with_none_block : TemplateStacks.obj :=
  stack_with_first_block (VDict [("entry", VNone)]).


(** * Properties *)

(** ** Dicts *)

Section DictFacts.
Context {V : Type}.
Implicit Types (d : list (string * V)) (k : string).

Lemma dict_get_set_same k (v : V) d : dict_get k (dict_set k v d) = Some v.
Proof.
  induction d as [|[k' v'] d IH]; simpl.
  - now rewrite String.eqb_refl.
  - destruct (String.eqb k' k) eqn:E; simpl.
    + now rewrite String.eqb_refl.
    + now rewrite E.
Qed.

Lemma dict_get_set_other k k' (v : V) d :
  k <> k' -> dict_get k (dict_set k' v d) = dict_get k d.
Proof.
  intros Hk. induction d as [|[k0 v0] d IH]; simpl.
  - destruct (String.eqb_spec k' k); [congruence | reflexivity].
  - destruct (String.eqb_spec k0 k') as [->|Hne]; simpl.
    + destruct (String.eqb_spec k' k); [congruence | reflexivity].
    + destruct (String.eqb_spec k0 k); [reflexivity | exact IH].
Qed.

Lemma dict_mem_set_same k (v : V) d : dict_mem k (dict_set k v d) = true.
Proof. unfold dict_mem. now rewrite dict_get_set_same. Qed.

Lemma dict_set_id k (v : V) d : dict_get k d = Some v -> dict_set k v d = d.
Proof.
  induction d as [|[k' v'] d IH]; simpl; [discriminate|].
  destruct (String.eqb_spec k' k) as [->|Hne]; intros H.
  - now inversion H.
  - now rewrite IH.
Qed.
Lemma dict_set_set k (v v' : V) d : dict_set k v (dict_set k v' d) = dict_set k v d.
Proof.
  induction d as [|[k0 v0] d IH]; simpl.
  - now rewrite String.eqb_refl.
  - destruct (String.eqb k0 k) eqn:E; simpl.
    + now rewrite String.eqb_refl.
    + now rewrite E, IH.
Qed.
End DictFacts.

Lemma in_variable_types_In (t : string) :
  in_variable_types t = true <-> In t variable_types.
Proof.
  unfold in_variable_types. rewrite existsb_exists. split.
  - intros [x [Hin Heq]]. apply String.eqb_eq in Heq. now subst.
  - intros Hin. exists t. split; [assumption | apply String.eqb_refl].
Qed.

(** ** Variable structure validation *)

Lemma validate_variable_items_forall (l : list pyval) :
  validate_variable_items l = true <->
  forall item, In item l -> validate_variable_item item = true.
Proof.
  induction l as [|x l IH]; simpl.
  - split; [intros _ item [] | reflexivity].
  - destruct (validate_variable_item x) eqn:Hx.
    + rewrite IH. split.
      * intros H item [<-|Hin]; auto.
      * intros H item Hin. apply H. now right.
    + split; [discriminate|]. intros H. rewrite <- Hx. apply H. now left.
Qed.

Lemma validate_variable_structure_list (var : list (string * pyval)) (l : list pyval) :
  dict_get "entry" var = Some (VList l) ->
  validate_variable_structure (VDict var) = validate_variable_items l.
Proof.
  intros H. unfold validate_variable_structure. rewrite H. simpl.
  now destruct l.
Qed.

(** C3: [validate_variable_structure] accepts [{'entry': []}], and rejects
    every variable dict whose entry list holds an item without ['@name'],
    without ['type'], or whose ['type'] is a dict that does not have
    exactly one key. *)
Theorem validate_variable_structure_accepts_empty_rejects_malformed :
  validate_variable_structure (VDict [("entry", VList [])]) = true /\
  forall (var : list (string * pyval)) (l : list pyval) (item : list (string * pyval)),
    dict_get "entry" var = Some (VList l) ->
    In (VDict item) l ->
    (dict_mem "@name" item = false
     \/ dict_mem "type" item = false
     \/ exists ty, dict_get "type" item = Some (VDict ty) /\ List.length ty <> 1) ->
    validate_variable_structure (VDict var) = false.
Proof.
  split; [reflexivity|].
  intros var l item Hentry Hin Hbad.
  rewrite (validate_variable_structure_list _ _ Hentry).
  destruct (validate_variable_items l) eqn:Hall; [|reflexivity].
  rewrite validate_variable_items_forall in Hall.
  specialize (Hall _ Hin). simpl in Hall.
  destruct Hbad as [Hn | [Ht | [ty [Hty Hlen]]]].
  - rewrite Hn in Hall. discriminate.
  - rewrite Ht in Hall. rewrite orb_true_r in Hall. discriminate.
  - rewrite Hty in Hall.
    destruct (negb (dict_mem "@name" item) || negb (dict_mem "type" item));
      [discriminate|].
    destruct (Nat.eqb_spec (List.length ty) 1); [contradiction | discriminate].
Qed.

Lemma validate_variable_structure_rejects_multi_key_witness :
  validate_variable_structure
    (VDict [("entry",
             VList [VDict [("@name", VStr "$mgmt_ip");
                           ("type", VDict [("ip-netmask", VStr "10.0.0.1/32");
                                           ("fqdn", VStr "fw.example.com")])]])])
  = false.
Proof.
  apply (proj2 validate_variable_structure_accepts_empty_rejects_malformed
           [("entry",
             VList [VDict [("@name", VStr "$mgmt_ip");
                           ("type", VDict [("ip-netmask", VStr "10.0.0.1/32");
                                           ("fqdn", VStr "fw.example.com")])]])]
           [VDict [("@name", VStr "$mgmt_ip");
                   ("type", VDict [("ip-netmask", VStr "10.0.0.1/32");
                                   ("fqdn", VStr "fw.example.com")])]]
           [("@name", VStr "$mgmt_ip");
            ("type", VDict [("ip-netmask", VStr "10.0.0.1/32");
                            ("fqdn", VStr "fw.example.com")])]).
  - reflexivity.
  - left. reflexivity.
  - right. right. eexists. split; [reflexivity | simpl; lia].
Defined.

Lemma check_pre_shared_key_spec (type_val : pyval) :
  check_pre_shared_key type_val = true ->
  exists tv,
    type_val = VDict tv
    /\ (dict_mem "key" tv = true \/ dict_mem "value" tv = true)
    /\ (forall k x, k = "key" \/ k = "value" ->
                    dict_get k tv = Some x -> exists s, x = VStr s).
Proof.
  destruct type_val as [| | | | |tv]; try discriminate.
  unfold check_pre_shared_key. cbn [existsb forallb].
  rewrite orb_false_r, andb_true_r.
  destruct (dict_mem "key" tv || dict_mem "value" tv) eqn:Hmem;
    cbn [negb]; [|discriminate].
  intros Hstr. apply andb_prop in Hstr as [Hk Hv].
  exists tv. split; [reflexivity|]. split.
  - now apply orb_prop in Hmem.
  - intros k x [-> | ->] Hget.
    + rewrite Hget in Hk. destruct x; try discriminate. now eexists.
    + rewrite Hget in Hv. destruct x; try discriminate. now eexists.
Qed.

Lemma validate_variable_item_spec (item : pyval) :
  validate_variable_item item = true ->
  exists it tag val,
    item = VDict it
    /\ dict_mem "@name" it = true
    /\ dict_get "type" it = Some (VDict [(tag, val)])
    /\ In tag variable_types
    /\ (tag = "pre-shared-key" -> check_pre_shared_key val = true)
    /\ (tag <> "pre-shared-key" -> exists s, val = VStr s).
Proof.
  destruct item as [| | | | |it]; try discriminate.
  unfold validate_variable_item.
  destruct (dict_mem "@name" it) eqn:Hn; cbn [negb orb]; [|discriminate].
  destruct (dict_mem "type" it) eqn:Ht; cbn [negb]; [|discriminate].
  destruct (dict_get "type" it) as [[| | | | |ty]|] eqn:Hty; try discriminate.
  destruct ty as [|[tag val] [|? ?]]; try discriminate.
  cbn [List.length Nat.eqb negb].
  destruct (in_variable_types tag) eqn:Hin; cbn [negb]; [|discriminate].
  apply in_variable_types_In in Hin.
  intros H. exists it, tag, val. repeat split; auto.
  - intros ->. exact H.
  - intros Hne. destruct (String.eqb_spec tag "pre-shared-key"); [contradiction|].
    destruct val; try discriminate. now eexists.
Qed.

(** C4: in a variable dict that [validate_variable_structure] accepts,
    every entry is a dict whose ['type'] has one allowed type-tag; under
    the tag ['pre-shared-key'] the value is a dict that has ['key'] or
    ['value'], each present one a string; under every other tag the value
    is a string. *)
Theorem validate_variable_structure_type_values :
  forall (var : list (string * pyval)) (l : list pyval) (item : pyval),
    validate_variable_structure (VDict var) = true ->
    dict_get "entry" var = Some (VList l) ->
    In item l ->
    exists it tag val,
      item = VDict it
      /\ dict_get "type" it = Some (VDict [(tag, val)])
      /\ In tag variable_types
      /\ (tag = "pre-shared-key" ->
          exists tv,
            val = VDict tv
            /\ (dict_mem "key" tv = true \/ dict_mem "value" tv = true)
            /\ (forall k x, k = "key" \/ k = "value" ->
                            dict_get k tv = Some x -> exists s, x = VStr s))
      /\ (tag <> "pre-shared-key" -> exists s, val = VStr s).
Proof.
  intros var l item Hvalid Hentry Hin.
  rewrite (validate_variable_structure_list _ _ Hentry) in Hvalid.
  rewrite validate_variable_items_forall in Hvalid.
  destruct (validate_variable_item_spec _ (Hvalid _ Hin))
    as (it & tag & val & -> & _ & Hty & Htag & Hpsk & Hstr).
  exists it, tag, val. repeat split; auto.
  intros Heq. apply check_pre_shared_key_spec. auto.
Qed.

Lemma validate_variable_structure_type_values_witness :
  let psk := VDict [("@name", VStr "$psk");
                    ("type", VDict [("pre-shared-key", VDict [("value", VStr "s3cret")])])] in
  exists it tag val,
    psk = VDict it
    /\ dict_get "type" it = Some (VDict [(tag, val)])
    /\ In tag variable_types
    /\ (tag = "pre-shared-key" ->
        exists tv,
          val = VDict tv
          /\ (dict_mem "key" tv = true \/ dict_mem "value" tv = true)
          /\ (forall k x, k = "key" \/ k = "value" ->
                          dict_get k tv = Some x -> exists s, x = VStr s))
    /\ (tag <> "pre-shared-key" -> exists s, val = VStr s).
Proof.
  intros psk.
  apply (validate_variable_structure_type_values
           [("entry", VList [VDict [("@name", VStr "$hostname");
                                    ("type", VDict [("hostname", VStr "fw1")])];
                             psk])]
           [VDict [("@name", VStr "$hostname");
                   ("type", VDict [("hostname", VStr "fw1")])];
            psk]
           psk).
  - reflexivity.
  - reflexivity.
  - right. left. reflexivity.
Defined.

(** ** The [settings] property of [Templates] *)

Lemma settings_setter_rejects_other_types (value : pyval) (self : Templates.obj) :
  is_dict value = false -> is_str value = false ->
  Templates.settings_setter value self = (Raise TypeError, self).
Proof. destruct value; simpl; intros; try discriminate; reflexivity. Qed.

Lemma settings_setter_rejects_non_vsys (s : string) (self : Templates.obj) :
  String.prefix "vsys" s = false ->
  Templates.settings_setter (VStr s) self = (Raise ValueError, self).
Proof. intros H. simpl. now rewrite H. Qed.

Lemma settings_setter_ignores_dict_without_default_vsys
    (d : list (string * pyval)) (self : Templates.obj) :
  dict_mem "default-vsys" d = false ->
  Templates.settings_setter (VDict d) self = (Ok tt, self).
Proof. intros H. simpl. now rewrite H. Qed.

(** C5: assigning a value that is no valid settings value should raise.
    Assigning the dict [{'hostname': 'fw1'}], which has no ['default-vsys'],
    returns without raising and leaves [_settings] and [entry] as they
    were. *)
Theorem settings_setter_dict_without_default_vsys_returns :
  forall self : Templates.obj,
    Templates.settings_setter (VDict [("hostname", VStr "fw1")]) self = (Ok tt, self).
Proof. intros self. reflexivity. Qed.

(** ** Variable types that are not allowed *)

(** C9: with a [variable_type] outside [variable_types],
    [update_device_variable] and [update_variable] return without raising
    and leave the object as it was. *)
Theorem disallowed_variable_type_is_noop :
  forall (variable_type : string),
    ~ In variable_type variable_types ->
    (forall device_name variable_name variable_value self,
        TemplateStacks.update_device_variable
          device_name variable_name variable_type variable_value self
        = (Ok tt, self))
    /\ (forall name variable_value self,
          TemplateStacks.update_variable name variable_type variable_value self
          = (Ok tt, self)).
Proof.
  intros vt Hnot.
  assert (Hf : in_variable_types vt = false).
  { destruct (in_variable_types vt) eqn:E; [|reflexivity].
    apply in_variable_types_In in E. contradiction. }
  split; intros.
  - unfold TemplateStacks.update_device_variable. now rewrite Hf.
  - unfold TemplateStacks.update_variable. now rewrite Hf.
Qed.

Lemma disallowed_variable_type_is_noop_witness :
  let self :=
    TemplateStacks.mkObj
      (VDict [("member", VList [])])
      (VDict [("entry", VList [VDict [("@name", VStr "0123456789")]])])
      (VDict [("entry", VList [])])
      [("templates", TemplateStacks.RefTemplates);
       ("devices", TemplateStacks.RefDevices);
       ("variable", TemplateStacks.RefVariable)] in
  TemplateStacks.update_device_variable "0123456789" "$mgmt_ip" "ip-address" (VStr "10.0.0.1") self
  = (Ok tt, self)
  /\ TemplateStacks.update_variable "$mgmt_ip" "ip-address" (VStr "0.0.0.0") self
     = (Ok tt, self).
Proof.
  intros self.
  assert (Hnot : ~ In "ip-address" variable_types).
  { simpl. intros H.
    repeat (destruct H as [H | H]; [discriminate H|]). exact H. }
  split.
  - apply (proj1 (disallowed_variable_type_is_noop "ip-address" Hnot)).
  - apply (proj2 (disallowed_variable_type_is_noop "ip-address" Hnot)).
Defined.

(** ** Reference templates of a device group *)

Lemma occurrences_app (name : string) (l l' : list pyval) :
  occurrences name (l ++ l') = occurrences name l + occurrences name l'.
Proof. unfold occurrences. now rewrite filter_app, length_app. Qed.

Lemma existsb_occurrences (name : string) (l : list pyval) :
  existsb (fun x => eq_str x name) l = negb (Nat.eqb (occurrences name l) 0).
Proof.
  unfold occurrences. induction l as [|x l IH]; simpl; [reflexivity|].
  destruct (eq_str x name); simpl; [reflexivity | exact IH].
Qed.

Lemma occurrences_self (name : string) : occurrences name [VStr name] = 1.
Proof. unfold occurrences. simpl. now rewrite String.eqb_refl. Qed.

(** A call with a name that is already a member: nothing but the log
    changes. *)
Lemma add_reference_template_present (name : string) (self : DeviceGroups.obj)
    (rt : list (string * pyval)) (l : list pyval) :
  name <> "" ->
  dict_get "reference-templates" (DeviceGroups.entry self) = Some (VDict rt) ->
  dict_get "member" rt = Some (VList l) ->
  existsb (fun x => eq_str x name) l = true ->
  DeviceGroups.add_reference_template (VStr name) self
  = (Ok tt,
     DeviceGroups.mkObj (DeviceGroups.entry self)
       (DeviceGroups.log self ++ [duplicate_warning name])).
Proof.
  intros Hne Hrt Hmem Hin.
  unfold DeviceGroups.add_reference_template. cbn [truthy].
  destruct (String.eqb_spec name ""); [contradiction|]. cbn [negb].
  unfold bind, read, lift, ret, DeviceGroups.set_entry_key,
    DeviceGroups.logger_warning, modify, dict_mem.
  rewrite Hrt. cbn. rewrite Hrt. cbn. rewrite Hmem. cbn. rewrite Hin. cbn.
  reflexivity.
Qed.

(** A call with a name that is no member yet appends it. *)
Lemma add_reference_template_absent (name : string) (self : DeviceGroups.obj) :
  name <> "" ->
  reference_templates_wf self = true ->
  existsb (fun x => eq_str x name) (reference_members self) = false ->
  exists rt,
    DeviceGroups.add_reference_template (VStr name) self
    = (Ok tt,
       DeviceGroups.mkObj
         (dict_set "reference-templates" (VDict rt) (DeviceGroups.entry self))
         (DeviceGroups.log self))
    /\ dict_get "member" rt = Some (VList (reference_members self ++ [VStr name])).
Proof.
  intros Hne Hwf Hin.
  unfold reference_templates_wf in Hwf. unfold reference_members in Hin |- *.
  unfold DeviceGroups.add_reference_template. cbn [truthy].
  destruct (String.eqb_spec name ""); [contradiction|]. cbn [negb].
  unfold bind, read, lift, ret, DeviceGroups.set_entry_key, modify, dict_mem.
  destruct (dict_get "reference-templates" (DeviceGroups.entry self))
    as [[| | | | |rt]|] eqn:Hrt; try discriminate.
  - destruct (dict_get "member" rt) as [[| | | |l|]|] eqn:Hmem; try discriminate.
    cbn. rewrite Hrt. cbn. rewrite Hmem. cbn. rewrite Hin. cbn.
    eexists. split; [reflexivity|]. apply dict_get_set_same.
  - cbn. rewrite dict_get_set_same. cbn.
    eexists. split.
    + now rewrite dict_set_set.
    + reflexivity.
Qed.

Lemma reference_members_present (self : DeviceGroups.obj) (name : string) :
  reference_templates_wf self = true ->
  existsb (fun x => eq_str x name) (reference_members self) = true ->
  exists rt,
    dict_get "reference-templates" (DeviceGroups.entry self) = Some (VDict rt)
    /\ dict_get "member" rt = Some (VList (reference_members self)).
Proof.
  unfold reference_templates_wf, reference_members.
  destruct (dict_get "reference-templates" (DeviceGroups.entry self))
    as [[| | | | |rt]|]; try discriminate.
  destruct (dict_get "member" rt) as [[| | | |l|]|] eqn:Hmem; try discriminate.
  intros _ _. now exists rt.
Qed.

(** Two calls in a row, whatever the members were: the first one appends
    the name unless it is a member already, the second one only logs. *)
Lemma add_reference_template_twice_general (name : string) (self : DeviceGroups.obj) :
  name <> "" ->
  reference_templates_wf self = true ->
  exists self1 self2,
    DeviceGroups.add_reference_template (VStr name) self = (Ok tt, self1)
    /\ DeviceGroups.add_reference_template (VStr name) self1 = (Ok tt, self2)
    /\ reference_members self1
       = (if existsb (fun x => eq_str x name) (reference_members self)
          then reference_members self
          else reference_members self ++ [VStr name])
    /\ DeviceGroups.entry self2 = DeviceGroups.entry self1
    /\ DeviceGroups.log self2 = DeviceGroups.log self1 ++ [duplicate_warning name].
Proof.
  intros Hne Hwf.
  destruct (existsb (fun x => eq_str x name) (reference_members self)) eqn:Hin.
  - destruct (reference_members_present _ _ Hwf Hin) as (rt & Hrt & Hmem).
    eexists. eexists. split; [|split].
    + apply (add_reference_template_present _ _ _ _ Hne Hrt Hmem Hin).
    + apply (add_reference_template_present name _ rt (reference_members self) Hne);
        assumption.
    + split; [|split; reflexivity].
      unfold reference_members. simpl. rewrite Hrt, Hmem. reflexivity.
  - destruct (add_reference_template_absent _ _ Hne Hwf Hin) as (rt & Hcall & Hmem).
    eexists. eexists. split; [exact Hcall|]. split.
    + apply (add_reference_template_present name _ rt
               (reference_members self ++ [VStr name]) Hne).
      * simpl. apply dict_get_set_same.
      * exact Hmem.
      * rewrite existsb_app. simpl. rewrite String.eqb_refl.
        now rewrite orb_true_r.
    + split; [|split; reflexivity].
      unfold reference_members at 1. simpl.
      rewrite dict_get_set_same, Hmem. reflexivity.
Qed.

(** C6: [add_reference_template] is idempotent.  For a non-empty name
    that the member list holds at most once (as in a device group that has
    no reference templates yet), two calls in a row both return, leave the
    name in [entry['reference-templates']['member']] exactly once, and the
    second call changes nothing in [entry]: it only logs the warning. *)
Theorem add_reference_template_idempotent :
  forall (name : string) (self : DeviceGroups.obj),
    name <> "" ->
    reference_templates_wf self = true ->
    occurrences name (reference_members self) <= 1 ->
    exists self1 self2,
      DeviceGroups.add_reference_template (VStr name) self = (Ok tt, self1)
      /\ DeviceGroups.add_reference_template (VStr name) self1 = (Ok tt, self2)
      /\ occurrences name (reference_members self2) = 1
      /\ DeviceGroups.entry self2 = DeviceGroups.entry self1
      /\ DeviceGroups.log self2 = DeviceGroups.log self1 ++ [duplicate_warning name].
Proof.
  intros name self Hne Hwf Hocc.
  destruct (add_reference_template_twice_general name self Hne Hwf)
    as (self1 & self2 & H1 & H2 & Hmem & Hentry & Hlog).
  exists self1, self2. repeat split; try assumption.
  assert (Hsame : reference_members self2 = reference_members self1).
  { unfold reference_members. now rewrite Hentry. }
  rewrite Hsame, Hmem.
  rewrite existsb_occurrences.
  destruct (Nat.eqb_spec (occurrences name (reference_members self)) 0) as [Hz|Hnz];
    cbn [negb].
  - rewrite occurrences_app, occurrences_self. lia.
  - lia.
Qed.

Lemma add_reference_template_idempotent_witness :
  let self := DeviceGroups.mkObj [("devices", VDict [("entry", VList [])])] [] in
  exists self1 self2,
    DeviceGroups.add_reference_template (VStr "Branch-Template") self = (Ok tt, self1)
    /\ DeviceGroups.add_reference_template (VStr "Branch-Template") self1 = (Ok tt, self2)
    /\ occurrences "Branch-Template" (reference_members self2) = 1
    /\ DeviceGroups.entry self2 = DeviceGroups.entry self1
    /\ DeviceGroups.log self2
       = DeviceGroups.log self1 ++ [duplicate_warning "Branch-Template"].
Proof.
  intros self.
  apply (add_reference_template_idempotent "Branch-Template" self).
  - discriminate.
  - reflexivity.
  - vm_compute. lia.
Defined.

(** ** Devices of a template stack *)

Import TemplateStacks.

(** [_ensure_devices_container] on a devices dict that has ['entry']. *)
Lemma ensure_devices_container_kept (self : obj) (d : list (string * pyval)) :
  _devices self = VDict d ->
  dict_mem "entry" d = true ->
  _ensure_devices_container self
  = (Ok tt,
     mkObj (_templates self) (VDict d) (_variable self)
       (if dict_mem "devices" (entry self) then entry self
        else dict_set "devices" RefDevices (entry self))).
Proof.
  destruct self as [t dv v e]. simpl. intros -> Hmem.
  unfold _ensure_devices_container, bind, read, ret, modify. simpl.
  rewrite Hmem. simpl.
  destruct (dict_mem "devices" e); reflexivity.
Qed.

(** [_ensure_devices_container] on anything else. *)
Lemma ensure_devices_container_replaced (self : obj) :
  match _devices self with VDict d => dict_mem "entry" d | _ => false end = false ->
  _ensure_devices_container self
  = (Ok tt,
     mkObj (_templates self) (VDict [("entry", VList [])]) (_variable self)
       (dict_set "devices" RefDevices (entry self))).
Proof.
  destruct self as [t dv v e]. simpl. intros Hno.
  unfold _ensure_devices_container, bind, read, ret. simpl.
  rewrite Hno. rewrite orb_comm. simpl.
  unfold devices_setter, bind, modify, set_devices_obj, set_entry_key. simpl.
  rewrite dict_mem_set_same. reflexivity.
Qed.

Lemma add_device_to_list (name : string) (self : obj)
    (d : list (string * pyval)) (l : list pyval) :
  _devices self = VDict d ->
  dict_get "entry" d = Some (VList l) ->
  add_device name VNone self
  = (Ok true,
     mkObj (_templates self)
       (VDict (dict_set "entry" (VList (l ++ [bare_device name])) d))
       (_variable self)
       (dict_set "devices" RefDevices (entry self))).
Proof.
  intros Hd He.
  unfold add_device, bind at 1.
  rewrite (ensure_devices_container_kept self d Hd)
    by (unfold dict_mem; now rewrite He).
  unfold bind, read, lift, ret, store_devices_entry, modify. simpl.
  rewrite He. simpl. unfold set_entry_key, set_devices_obj. simpl.
  destruct (dict_mem "devices" (entry self)) eqn:Hm.
  - reflexivity.
  - now rewrite dict_set_set.
Qed.

Lemma add_device_to_fresh (name : string) (self : obj) :
  match _devices self with VDict d => dict_mem "entry" d | _ => false end = false ->
  add_device name VNone self
  = (Ok true,
     mkObj (_templates self) (VDict [("entry", VList [bare_device name])])
       (_variable self)
       (dict_set "devices" RefDevices (entry self))).
Proof.
  intros Hno.
  unfold add_device, bind at 1.
  rewrite (ensure_devices_container_replaced self Hno).
  unfold bind, read, lift, ret, store_devices_entry, modify. simpl.
  unfold set_entry_key, set_devices_obj. simpl.
  now rewrite dict_set_set.
Qed.

(** One call of [add_device(name)] where the entry list can take it. *)
Lemma add_device_appends (name : string) (self : obj) :
  devices_entry_listlike self = true ->
  exists self1 d1,
    add_device name VNone self = (Ok true, self1)
    /\ _devices self1 = VDict d1
    /\ dict_get "entry" d1 = Some (VList (devices_entries self ++ [bare_device name]))
    /\ _variable self1 = _variable self.
Proof.
  unfold devices_entry_listlike, devices_entries. intros Hl.
  destruct (_devices self) as [| | | | |d] eqn:Hd.
  1-5: eexists; eexists; split;
    [apply add_device_to_fresh; now rewrite Hd | repeat split].
  destruct (dict_get "entry" d) as [[| | | |l|]|] eqn:He; try discriminate.
  - eexists. eexists. split; [apply (add_device_to_list _ _ _ _ Hd He)|].
    simpl. split; [reflexivity|]. split; [apply dict_get_set_same | reflexivity].
  - eexists. eexists. split.
    + apply add_device_to_fresh. rewrite Hd. unfold dict_mem. now rewrite He.
    + repeat split.
Qed.

(** C7: [add_device] is not idempotent.  Two calls in a row with the same
    name (and no variables) both return [True] and leave two more entries
    [{'@name': name}] at the end of [devices['entry']]. *)
Theorem add_device_twice_appends_two :
  forall (name : string) (self : obj),
    devices_entry_listlike self = true ->
    exists self1 self2,
      add_device name VNone self = (Ok true, self1)
      /\ add_device name VNone self1 = (Ok true, self2)
      /\ devices_entries self2
         = devices_entries self ++ [bare_device name; bare_device name]
      /\ List.length (filter (named name) (devices_entries self2))
         = List.length (filter (named name) (devices_entries self)) + 2.
Proof.
  intros name self Hl.
  destruct (add_device_appends name self Hl) as (self1 & d1 & H1 & Hd1 & He1 & _).
  assert (Hl1 : devices_entry_listlike self1 = true).
  { unfold devices_entry_listlike. now rewrite Hd1, He1. }
  destruct (add_device_appends name self1 Hl1) as (self2 & d2 & H2 & Hd2 & He2 & _).
  assert (Hent1 : devices_entries self1 = devices_entries self ++ [bare_device name]).
  { unfold devices_entries at 1. now rewrite Hd1, He1. }
  assert (Hent2 : devices_entries self2
                  = devices_entries self ++ [bare_device name; bare_device name]).
  { unfold devices_entries at 1. rewrite Hd2, He2, Hent1, <- app_assoc. reflexivity. }
  exists self1, self2. repeat split; try assumption.
  rewrite Hent2, filter_app, length_app. simpl.
  now rewrite String.eqb_refl.
Qed.

Lemma add_device_twice_appends_two_witness :
  let self :=
    mkObj (VDict [("member", VList [])])
      (VDict [("entry", VList [bare_device "0123456789"])])
      (VDict [("entry", VList [])])
      [("templates", RefTemplates); ("devices", RefDevices); ("variable", RefVariable)] in
  exists self1 self2,
    add_device "0123456789" VNone self = (Ok true, self1)
    /\ add_device "0123456789" VNone self1 = (Ok true, self2)
    /\ devices_entries self2
       = devices_entries self ++ [bare_device "0123456789"; bare_device "0123456789"]
    /\ List.length (filter (named "0123456789") (devices_entries self2))
       = List.length (filter (named "0123456789") (devices_entries self)) + 2.
Proof.
  intros self.
  apply (add_device_twice_appends_two "0123456789" self).
  reflexivity.
Defined.

(** ** Type inference *)

Lemma first_match_app (name : string) (l l' : list pyval) :
  first_match name (l ++ l')
  = match first_match name l with
    | Some type_key => Some type_key
    | None => first_match name l'
    end.
Proof.
  induction l as [|x l IH]; simpl; [reflexivity|].
  destruct (entry_type_tag name x); [reflexivity | exact IH].
Qed.

(** [first_match] returns the tag of the earliest entry that gives one. *)
Lemma first_match_earliest (name : string) (l : list pyval) (type_key : string) :
  first_match name l = Some type_key <->
  exists before x after,
    l = before ++ x :: after
    /\ Forall (fun y => entry_type_tag name y = None) before
    /\ entry_type_tag name x = Some type_key.
Proof.
  split.
  - induction l as [|x l IH]; simpl; [discriminate|].
    destruct (entry_type_tag name x) as [k|] eqn:Hx.
    + intros H. inversion H; subst. exists [], x, l. repeat split; auto.
    + intros H. destruct (IH H) as (b & y & a & -> & Hb & Hy).
      exists (x :: b), y, a. repeat split; auto.
  - intros (b & x & a & -> & Hb & Hx).
    rewrite first_match_app. simpl. rewrite Hx.
    induction Hb as [|y b Hy Hb IH]; simpl; [reflexivity|].
    now rewrite Hy.
Qed.

Lemma first_match_none (name : string) (l : list pyval) :
  first_match name l = None <-> Forall (fun y => entry_type_tag name y = None) l.
Proof.
  induction l as [|x l IH]; simpl.
  - split; auto.
  - destruct (entry_type_tag name x) eqn:Hx.
    + split; [discriminate|]. intros H. inversion H; congruence.
    + rewrite IH. split; [now constructor|]. intros H. now inversion H.
Qed.

Lemma first_type_tag_spec (name : string) (l : list pyval) :
  forallb is_dict l = true ->
  first_type_tag name l = Ok (first_match name l).
Proof.
  induction l as [|x l IH]; simpl; [reflexivity|].
  intros H. apply andb_prop in H as [Hx Hl].
  destruct x as [| | | | |d]; try discriminate. simpl.
  destruct (eq_str _ name); simpl; [|now apply IH].
  destruct (dict_get "type" d) as [[| | | | |[|[k v] ty]]|]; simpl; auto.
Qed.

Lemma first_device_type_tag_spec (name : string) (devs : list pyval) :
  forallb device_shape_ok devs = true ->
  first_device_type_tag name devs
  = Ok (first_match name (flat_map device_variable_entries devs)).
Proof.
  induction devs as [|dev devs IH]; simpl; [reflexivity|].
  intros H. apply andb_prop in H as [Hdev Hdevs].
  rewrite first_match_app. specialize (IH Hdevs).
  destruct dev as [| | | | |d]; simpl; try exact IH.
  simpl in Hdev.
  destruct (dict_get "variable" d) as [[| | | | |dev_var]|]; simpl; try exact IH.
  destruct (dict_get "entry" dev_var) as [[| | | |l|]|]; simpl in *;
    try discriminate; try exact IH.
  rewrite (first_type_tag_spec name l Hdev). simpl.
  destruct (first_match name l); [reflexivity | exact IH].
Qed.

Lemma infer_variable_type_spec (self : obj) (name : string) :
  variable_shape_ok self = true ->
  devices_shape_ok self = true ->
  _infer_variable_type self name = Ok (spec_infer_variable_type self name).
Proof.
  unfold variable_shape_ok, devices_shape_ok, _infer_variable_type,
    spec_infer_variable_type, stack_definitions, devices_entries.
  intros Hv Hd.
  assert (Hdev :
    match _devices self with
    | VDict dv =>
        if truthy (_devices self)
        then
          let? devs :=
            iter (match dict_get "entry" dv with Some x => x | None => VList [] end) in
          first_device_type_tag name devs
        else Ok None
    | _ => Ok None
    end
    = Ok (first_match name
            (flat_map device_variable_entries
               match _devices self with
               | VDict d => match dict_get "entry" d with Some (VList l) => l | _ => [] end
               | _ => []
               end))).
  { destruct (_devices self) as [| | | | |dv]; try reflexivity.
    destruct dv as [|kv dv]; [reflexivity|].
    cbn [truthy].
    destruct (dict_get "entry" (kv :: dv)) as [[| | | |devs|]|];
      try discriminate; simpl.
    - now apply first_device_type_tag_spec.
    - reflexivity. }
  destruct (_variable self) as [| | | | |var]; simpl; try exact Hdev.
  destruct var as [|kv var]; [exact Hdev|].
  unfold dict_mem.
  destruct (dict_get "entry" (kv :: var)) as [[| | | |l|]|];
    cbn -[first_type_tag first_match] in *; try discriminate; try exact Hdev.
  rewrite (first_type_tag_spec name l Hv). simpl.
  destruct (first_match name l); [reflexivity | exact Hdev].
Qed.

(** Where the stack-level and per-device variable entries are lists
    of dicts, [_infer_variable_type] returns, and what it returns is the
    tag of the first stack-level definition that matches; only when none
    does, the tag of the first match among the devices' variable entries,
    devices and entries in list order; and [None] when neither search
    matches. *)
Theorem infer_variable_type_searches_stack_then_devices :
  forall (self : obj) (name : string),
    variable_shape_ok self = true ->
    devices_shape_ok self = true ->
    _infer_variable_type self name = Ok (spec_infer_variable_type self name)
    /\ (forall type_key,
          first_match name (stack_definitions self) = Some type_key ->
          _infer_variable_type self name = Ok (Some type_key))
    /\ (first_match name (stack_definitions self) = None ->
        _infer_variable_type self name
        = Ok (first_match name
                (flat_map device_variable_entries (devices_entries self))))
    /\ (first_match name (stack_definitions self) = None ->
        first_match name (flat_map device_variable_entries (devices_entries self)) = None ->
        _infer_variable_type self name = Ok None).
Proof.
  intros self name Hv Hd.
  pose proof (infer_variable_type_spec self name Hv Hd) as H.
  unfold spec_infer_variable_type in H.
  split; [exact H|]. split; [|split].
  - intros k Hk. now rewrite Hk in H.
  - intros Hn. now rewrite Hn in H.
  - intros Hn Hn'. now rewrite Hn, Hn' in H.
Qed.

Lemma infer_variable_type_fallback_witness :
  let self :=
    mkObj (VDict [("member", VList [])])
      (VDict [("entry",
               VList [bare_device "0123456789";
                      VDict [("@name", VStr "9876543210");
                             ("variable",
                              VDict [("entry",
                                      VList [VDict [("@name", VStr "$hostname");
                                                    ("type", VDict [("hostname", VStr "fw2")])]])])]])])
      (VDict [("entry", VList [VDict [("@name", VStr "$mgmt_ip");
                                      ("type", VDict [("ip-netmask", VStr "0.0.0.0/0")])]])])
      [("templates", RefTemplates); ("devices", RefDevices); ("variable", RefVariable)] in
  _infer_variable_type self "$hostname" = Ok (Some "hostname").
Proof.
  intros self.
  exact (proj1 (infer_variable_type_searches_stack_then_devices
                  self "$hostname" eq_refl eq_refl)).
Defined.

(** ** Setting a device variable *)

Lemma validate_devices_items_dicts (l : list pyval) :
  validate_devices_items l = true -> forallb is_dict l = true.
Proof.
  induction l as [|x l IH]; [reflexivity|].
  cbn [validate_devices_items forallb].
  destruct (validate_devices_item x) eqn:Hx; [|discriminate].
  intros H. rewrite (IH H).
  destruct x; try discriminate Hx. reflexivity.
Qed.

(** The devices the property setter accepts have the shape the
    statements below ask for. *)
Lemma validate_devices_structure_list_of_dicts (self : obj) :
  validate_devices_structure (_devices self) = true ->
  devices_list_of_dicts self = true.
Proof.
  unfold validate_devices_structure, devices_list_of_dicts.
  destruct (_devices self) as [| | | | |d]; try discriminate.
  destruct (dict_get "entry" d) as [[| | | |l|]|]; try discriminate.
  apply validate_devices_items_dicts.
Qed.

Lemma find_named_none (name : string) (l : list pyval) (idx : nat) :
  forallb is_dict l = true ->
  existsb (named name) l = false ->
  find_named name l idx = Ok None.
Proof.
  revert idx. induction l as [|x l IH]; intros idx; simpl; [reflexivity|].
  intros Hd Hn. apply andb_prop in Hd as [Hx Hl].
  apply orb_false_elim in Hn as [Hnx Hnl].
  destruct x as [| | | | |d]; try discriminate.
  simpl in Hnx. rewrite Hnx. now apply IH.
Qed.

Lemma find_named_last (name : string) (l : list pyval) (d : list (string * pyval))
    (idx : nat) :
  forallb is_dict l = true ->
  existsb (named name) l = false ->
  named name (VDict d) = true ->
  find_named name (l ++ [VDict d]) idx = Ok (Some (idx + List.length l, d)).
Proof.
  revert idx. induction l as [|x l IH]; intros idx Hd Hn Hlast; simpl.
  - simpl in Hlast. rewrite Hlast. now rewrite Nat.add_0_r.
  - simpl in Hd, Hn. apply andb_prop in Hd as [Hx Hl].
    apply orb_false_elim in Hn as [Hnx Hnl].
    destruct x as [| | | | |dx]; try discriminate.
    simpl in Hnx. rewrite Hnx. rewrite (IH (S idx) Hl Hnl Hlast).
    now rewrite Nat.add_succ_r.
Qed.

Lemma set_nth_last {A} (l : list A) (x y : A) :
  set_nth (List.length l) x (l ++ [y]) = l ++ [x].
Proof. induction l as [|z l IH]; simpl; [reflexivity | now rewrite IH]. Qed.

(** The test [any(isinstance(d, dict) and d.get('@name') == serial ...)]. *)
Lemma device_exists_named (serial : string) (l : list pyval) :
  existsb
    (fun d => is_dict d
              && match get d "@name" with Ok n => eq_str n serial | Raise _ => false end)
    l
  = existsb (named serial) l.
Proof.
  induction l as [|x l IH]; simpl; [reflexivity|].
  rewrite IH. now destruct x.
Qed.




(** The loop body of [update_device_variable] on a device entry that was
    just created by [add_device(serial)]. *)
Lemma update_variable_in_bare_device
    (serial variable_name variable_type : string) (value : pyval) :
  exists r device_entry,
    update_variable_in_device variable_name variable_type value [("@name", VStr serial)]
    = (r, device_entry)
    /\ dict_get "@name" device_entry = Some (VStr serial)
    /\ (r = Ok tt
        \/ (r = Raise ValueError
            /\ variable_type = "pre-shared-key"
            /\ is_str value = false /\ is_dict value = false)).
Proof.
  unfold update_variable_in_device. simpl.
  destruct (String.eqb_spec variable_type "pre-shared-key") as [->|Hne]; simpl.
  - destruct value; simpl; eexists; eexists;
      (split; [reflexivity|]); (split; [reflexivity|]); auto.
  - eexists. eexists. split; [reflexivity|]. split; [reflexivity|]. auto.
Qed.

(** [update_device_variable] right after [add_device(serial)] appended the
    entry for a serial no earlier entry has. *)
Lemma update_device_variable_new_device
    (serial variable_name variable_type : string) (value : pyval) (self : obj)
    (d : list (string * pyval)) (l : list pyval) :
  _devices self = VDict d ->
  dict_get "entry" d = Some (VList (l ++ [bare_device serial])) ->
  forallb is_dict l = true ->
  existsb (named serial) l = false ->
  exists o self' device_entry,
    update_device_variable serial variable_name variable_type value self = (o, self')
    /\ devices_entries self' = l ++ [VDict device_entry]
    /\ dict_get "@name" device_entry = Some (VStr serial)
    /\ (o = Ok tt
        \/ (o = Raise ValueError
            /\ variable_type = "pre-shared-key"
            /\ is_str value = false /\ is_dict value = false)).
Proof.
  intros Hd He Hl Hn.
  unfold update_device_variable.
  destruct (in_variable_types variable_type); cbn [negb].
  - unfold bind at 1.
    rewrite (ensure_devices_container_kept self d Hd)
      by (unfold dict_mem; now rewrite He).
    unfold bind at 1, read. cbn [_devices].
    unfold bind at 1, lift. cbn [getitem]. rewrite He.
    unfold bind at 1. cbn [iter].
    unfold bind at 1. unfold bare_device.
    rewrite (find_named_last serial l [("@name", VStr serial)] 0 Hl Hn)
      by (simpl; apply String.eqb_refl).
    destruct (update_variable_in_bare_device serial variable_name variable_type value)
      as (r & dev & Hu & Hname & Hr).
    rewrite Hu. cbn [Nat.add]. rewrite set_nth_last.
    unfold bind, store_devices_entry, modify, lift, set_devices_obj, set_entry_key, ret.
    cbn [_devices _templates _variable entry].
    destruct Hr as [-> | (-> & Hr)].
    + eexists. eexists. exists dev. split; [reflexivity|].
      unfold devices_entries. cbn [_devices]. rewrite dict_get_set_same.
      repeat split; auto.
    + eexists. eexists. exists dev. split; [reflexivity|].
      unfold devices_entries. cbn [_devices]. rewrite dict_get_set_same.
      repeat split; auto.
  - exists (Ok tt), self, [("@name", VStr serial)]. split; [reflexivity|].
    unfold devices_entries. rewrite Hd, He. repeat split; auto.
Qed.

(** [set_device_variable_value] raises [ValueError], touching
    nothing, when [_infer_variable_type] returns [None]; and when it
    can, no device entry is named [device_serial] and
    [create_device_if_missing] is [True], the call leaves one more entry at
    the end of [devices['entry']], named [device_serial] (also when the
    value of a pre-shared key is then refused with [ValueError]). *)
Theorem set_device_variable_value_raises_or_creates :
  forall (self : obj) (device_serial variable_name : string) (value : pyval),
    (forall create_device_if_missing,
        _infer_variable_type self variable_name = Ok None ->
        set_device_variable_value
          device_serial variable_name value create_device_if_missing self
        = (Raise ValueError, self))
    /\ (forall type_key,
          devices_list_of_dicts self = true ->
          _infer_variable_type self variable_name = Ok (Some type_key) ->
          type_key <> "" ->
          existsb (named device_serial) (devices_entries self) = false ->
          exists o self' device_entry,
            set_device_variable_value device_serial variable_name value true self
            = (o, self')
            /\ devices_entries self' = devices_entries self ++ [VDict device_entry]
            /\ dict_get "@name" device_entry = Some (VStr device_serial)
            /\ (o = Ok tt
                \/ (o = Raise ValueError
                    /\ type_key = "pre-shared-key"
                    /\ is_str value = false /\ is_dict value = false))).
Proof.
  intros self serial vn value. split.
  - intros create Hinfer.
    unfold set_device_variable_value.
    unfold bind at 1, read. unfold bind at 1, lift. rewrite Hinfer. reflexivity.
  - intros tk Hs Hinfer Hne Hn.
    unfold set_device_variable_value.
    unfold bind at 1, read. unfold bind at 1, lift. rewrite Hinfer.
    cbn [truthy]. destruct (String.eqb_spec tk ""); [contradiction|]. cbn [negb].
    unfold bind at 1, read. unfold bind at 1, lift.
    assert (Hlist : devices_entry_listlike self = true
                    /\ forallb is_dict (devices_entries self) = true
                    /\ exists d, _devices self = VDict d
                         /\ iter (match dict_get "entry" d with
                                  | Some x => x | None => VList [] end)
                            = Ok (devices_entries self)).
    { unfold devices_list_of_dicts in Hs.
      unfold devices_entry_listlike, devices_entries.
      destruct (_devices self) as [| | | | |d]; try discriminate.
      destruct (dict_get "entry" d) as [[| | | |l|]|] eqn:He; try discriminate.
      - repeat split; auto. exists d. rewrite He. now split.
      - repeat split; auto. exists d. rewrite He. now split. }
    destruct Hlist as (Hlike & Hdicts & d & Hd & Hiter).
    rewrite Hd. cbn [get_default]. rewrite Hiter.
    unfold bind at 1, lift. rewrite device_exists_named, Hn. cbn [negb andb].
    destruct (add_device_appends serial self Hlike) as (self1 & d1 & Hadd & Hd1 & He1 & _).
    unfold bind at 1. unfold bind at 1. rewrite Hadd. unfold ret at 1.
    destruct (update_device_variable_new_device serial vn tk
                (if String.eqb tk "pre-shared-key" && is_str value
                 then VDict [("value", value)] else value)
                self1 d1 (devices_entries self) Hd1 He1 Hdicts Hn)
      as (o & self' & dev & Hcall & Hent & Hname & Ho).
    exists o, self', dev. split; [exact Hcall|]. split; [exact Hent|].
    split; [exact Hname|].
    destruct Ho as [Ho | (Ho & Htk & Hstr & Hdict)]; [now left|].
    right. subst tk. rewrite String.eqb_refl in Hstr, Hdict.
    cbn [andb] in Hstr, Hdict.
    destruct (is_str value) eqn:Hv; [discriminate Hdict|].
    repeat split; auto.
Qed.

Lemma set_device_variable_value_raises_or_creates_witness :
  let self :=
    mkObj (VDict [("member", VList [])])
      (VDict [("entry", VList [bare_device "0123456789"])])
      (VDict [("entry", VList [VDict [("@name", VStr "$mgmt_ip");
                                      ("type", VDict [("ip-netmask", VStr "0.0.0.0/0")])]])])
      [("templates", RefTemplates); ("devices", RefDevices); ("variable", RefVariable)] in
  set_device_variable_value "9876543210" "$hostname" (VStr "fw2") true self
  = (Raise ValueError, self)
  /\ exists o self' device_entry,
       set_device_variable_value "9876543210" "$mgmt_ip" (VStr "10.1.2.3/32") true self
       = (o, self')
       /\ devices_entries self' = devices_entries self ++ [VDict device_entry]
       /\ dict_get "@name" device_entry = Some (VStr "9876543210")
       /\ (o = Ok tt
           \/ (o = Raise ValueError
               /\ "ip-netmask" = "pre-shared-key"
               /\ is_str (VStr "10.1.2.3/32") = false
               /\ is_dict (VStr "10.1.2.3/32") = false)).
Proof.
  intros self. split.
  - apply (proj1 (set_device_variable_value_raises_or_creates
                    self "9876543210" "$hostname" (VStr "fw2")) true).
    reflexivity.
  - apply (proj2 (set_device_variable_value_raises_or_creates
                    self "9876543210" "$mgmt_ip" (VStr "10.1.2.3/32")) "ip-netmask").
    + reflexivity.
    + reflexivity.
    + discriminate.
    + reflexivity.
Defined.

(** ** Normalisation of the containers *)

Section Keeps.
Context {S : Type} (P : S -> Prop).

Lemma keeps_ret {A} (a : A) : keeps P (ret a).
Proof. intros self H. exact H. Qed.

Lemma keeps_raise {A} (e : exn) : keeps P (@raise S A e).
Proof. intros self H. exact H. Qed.

Lemma keeps_lift {A} (o : outcome A) : keeps P (lift o).
Proof. intros self H. exact H. Qed.

Lemma keeps_read {A} (f : S -> A) : keeps P (read f).
Proof. intros self H. exact H. Qed.

Lemma keeps_modify (f : S -> S) : (forall self, P self -> P (f self)) -> keeps P (modify f).
Proof. intros Hf self H. apply Hf, H. Qed.

Lemma keeps_bind {A B} (m : M S A) (k : A -> M S B) :
  keeps P m -> (forall a, keeps P (k a)) -> keeps P (bind m k).
Proof.
  intros Hm Hk self H. unfold bind.
  specialize (Hm self H). destruct (m self) as [[a|e] self']; simpl in *.
  - apply Hk, Hm.
  - exact Hm.
Qed.
End Keeps.

Lemma ensure_devices_container_ok (self : obj) :
  _ensure_devices_container self = (Ok tt, ensured self).
Proof.
  unfold ensured.
  destruct (match _devices self with VDict d => dict_mem "entry" d | _ => false end)
    eqn:Hm.
  - destruct (_devices self) as [| | | | |d] eqn:Hd; try discriminate.
    now rewrite (ensure_devices_container_kept self d Hd Hm).
  - now rewrite (ensure_devices_container_replaced self Hm).
Qed.

Lemma ensured_devices (self : obj) :
  _devices (ensured self)
  = if devices_has_entry self then _devices self else VDict [("entry", VList [])].
Proof.
  unfold ensured, devices_has_entry.
  destruct (match _devices self with VDict d => dict_mem "entry" d | _ => false end)
    eqn:Hm.
  - destruct (_devices self) as [| | | | |d] eqn:Hd; try discriminate.
    rewrite (ensure_devices_container_kept self d Hd Hm). reflexivity.
  - now rewrite (ensure_devices_container_replaced self Hm).
Qed.

Lemma ensured_has_entry (self : obj) : devices_has_entry (ensured self) = true.
Proof.
  unfold devices_has_entry at 1. rewrite ensured_devices.
  unfold devices_has_entry.
  destruct (_devices self) as [| | | | |d]; try reflexivity.
  destruct (dict_mem "entry" d) eqn:Hm; [exact Hm | reflexivity].
Qed.

Lemma ensured_idempotent (self : obj) : ensured (ensured self) = ensured self.
Proof.
  pose proof (ensured_has_entry self) as H. unfold devices_has_entry in H.
  destruct (_devices (ensured self)) as [| | | | |d] eqn:Hd; try discriminate.
  unfold ensured at 1.
  rewrite (ensure_devices_container_kept (ensured self) d Hd H). simpl.
  assert (Hmem : dict_mem "devices" (entry (ensured self)) = true).
  { unfold ensured.
    destruct (match _devices self with VDict d => dict_mem "entry" d | _ => false end)
      eqn:Hm.
    - destruct (_devices self) as [| | | | |d0] eqn:Hd0; try discriminate.
      rewrite (ensure_devices_container_kept self d0 Hd0 Hm). simpl.
      destruct (dict_mem "devices" (entry self)) eqn:He;
        [exact He | apply dict_mem_set_same].
    - rewrite (ensure_devices_container_replaced self Hm). simpl.
      apply dict_mem_set_same. }
  rewrite Hmem, <- Hd. now destruct (ensured self).
Qed.

Lemma keeps_store_devices_entry (v : pyval) :
  keeps (fun self => devices_has_entry self = true) (store_devices_entry v).
Proof.
  apply keeps_modify. intros self H. unfold devices_has_entry in *.
  destruct (_devices self) as [| | | | |d]; try discriminate.
  simpl. apply dict_mem_set_same.
Qed.

Lemma keeps_set_entry_key (k : string) (s : slot) :
  keeps (fun self => devices_has_entry self = true) (modify (set_entry_key k s)).
Proof. apply keeps_modify. intros self H. exact H. Qed.

Ltac keeps_steps :=
  repeat first
    [ apply keeps_ret | apply keeps_raise | apply keeps_lift | apply keeps_read
    | apply keeps_store_devices_entry | apply keeps_set_entry_key
    | apply keeps_bind; [|intro] ].

Ltac keeps_case :=
  match goal with
  | |- keeps _ (match ?x with _ => _ end) => destruct x
  | |- keeps _ (if ?b then _ else _) => destruct b
  | |- keeps _ (let '(_, _) := ?x in _) => destruct x
  end.

Ltac keeps_auto := repeat (keeps_steps; try keeps_case).

(** Every method that starts with [_ensure_devices_container()] and then
    only stores into ['entry'] leaves [self.devices] a dict with
    ['entry']. *)
Lemma after_ensure_has_entry {A} (rest : M obj A) (self : obj) :
  keeps (fun self => devices_has_entry self = true) rest ->
  devices_has_entry (snd ((_ensure_devices_container ;; rest) self)) = true.
Proof.
  intros Hrest. unfold bind. rewrite ensure_devices_container_ok.
  apply Hrest, ensured_has_entry.
Qed.

Lemma after_ensure_same {A} (rest : M obj A) (self : obj) :
  (_ensure_devices_container ;; rest) self
  = (_ensure_devices_container ;; rest) (ensured self).
Proof.
  unfold bind. rewrite !ensure_devices_container_ok. now rewrite ensured_idempotent.
Qed.

Lemma add_device_ensures_first (name : string) (variables : pyval) (self : obj) :
  add_device name variables self = add_device name variables (ensured self)
  /\ devices_has_entry (snd (add_device name variables self)) = true.
Proof.
  unfold add_device. split; [apply after_ensure_same|].
  apply after_ensure_has_entry. cbv zeta. keeps_auto.
Qed.

Lemma remove_device_ensures_first (name : string) (self : obj) :
  remove_device name self = remove_device name (ensured self)
  /\ devices_has_entry (snd (remove_device name self)) = true.
Proof.
  unfold remove_device. split; [apply after_ensure_same|].
  apply after_ensure_has_entry. keeps_auto.
Qed.

Lemma update_device_variable_ensures_first
    (device_name variable_name variable_type : string) (value : pyval) (self : obj) :
  in_variable_types variable_type = true ->
  update_device_variable device_name variable_name variable_type value self
  = update_device_variable device_name variable_name variable_type value (ensured self)
  /\ devices_has_entry
       (snd (update_device_variable device_name variable_name variable_type value self))
     = true.
Proof.
  intros Hallowed. unfold update_device_variable. rewrite Hallowed. cbn [negb].
  split; [apply after_ensure_same|].
  apply after_ensure_has_entry. keeps_auto.
Qed.

Lemma remove_device_variable_ensures_first
    (device_name variable_name : string) (self : obj) :
  remove_device_variable device_name variable_name self
  = remove_device_variable device_name variable_name (ensured self)
  /\ devices_has_entry (snd (remove_device_variable device_name variable_name self))
     = true.
Proof.
  unfold remove_device_variable. split; [apply after_ensure_same|].
  apply after_ensure_has_entry. keeps_auto.
Qed.

(** What [_ensure_device_variables_container] does to a device entry. *)
Lemma ensure_device_variables_container_spec (device_entry : list (string * pyval)) :
  variable_block_normalised (_ensure_device_variables_container device_entry) = true
  /\ (variable_block_normalised device_entry = true ->
      _ensure_device_variables_container device_entry = device_entry)
  /\ (match dict_get "variable" device_entry with
      | Some (VDict _) => False
      | _ => True
      end ->
      _ensure_device_variables_container device_entry
      = dict_set "variable" (VDict [("entry", VList [])]) device_entry)
  /\ (forall var_block,
        dict_get "variable" device_entry = Some (VDict var_block) ->
        match dict_get "entry" var_block with
        | Some (VList _) => False
        | _ => True
        end ->
        _ensure_device_variables_container device_entry
        = dict_set "variable" (VDict (dict_set "entry" (VList []) var_block)) device_entry).
Proof.
  unfold variable_block_normalised, _ensure_device_variables_container.
  repeat split.
  - destruct (dict_get "variable" device_entry) as [[| | | | |vb]|] eqn:Hv;
      try (rewrite dict_get_set_same; reflexivity).
    destruct (dict_get "entry" vb) as [[| | | |l|]|] eqn:He; simpl;
      try (rewrite dict_get_set_same, dict_get_set_same; reflexivity).
    now rewrite Hv, He.
  - destruct (dict_get "variable" device_entry) as [[| | | | |vb]|]; try discriminate.
    destruct (dict_get "entry" vb) as [[| | | |l|]|]; try discriminate. reflexivity.
  - destruct (dict_get "variable" device_entry) as [[| | | | |vb]|];
      try reflexivity. contradiction.
  - intros vb -> Hne.
    destruct (dict_get "entry" vb) as [[| | | |l|]|]; try reflexivity. contradiction.
Qed.

(** The loop body of [update_device_variable] leaves the variable block
    of the device normalised, also when it raises. *)
Lemma update_variable_in_device_normalised
    (variable_name variable_type : string) (value : pyval)
    (device_entry : list (string * pyval)) :
  variable_block_normalised
    (snd (update_variable_in_device variable_name variable_type value device_entry))
  = true.
Proof.
  pose proof (proj1 (ensure_device_variables_container_spec device_entry)) as Hn.
  unfold update_variable_in_device.
  set (dev := _ensure_device_variables_container device_entry) in *.
  unfold variable_block_normalised in Hn.
  destruct (dict_get "variable" dev) as [[| | | | |vb]|] eqn:Hv; try discriminate.
  destruct (dict_get "entry" vb) as [[| | | |items|]|] eqn:He; try discriminate.
  cbn [get_default]. rewrite He. cbn [iter obind].
  assert (Hdev : variable_block_normalised dev = true).
  { unfold variable_block_normalised. now rewrite Hv, He. }
  destruct (find_named variable_name items 0) as [[[idx var_entry]|]|e]; cbn [obind].
  - destruct (String.eqb variable_type "pre-shared-key" && negb (is_dict _));
      [exact Hdev|].
    cbn [snd set_item_key]. unfold variable_block_normalised.
    now rewrite !dict_get_set_same.
  - destruct (String.eqb variable_type "pre-shared-key" && negb (is_dict _));
      [exact Hdev|].
    cbn [snd]. unfold variable_block_normalised.
    now rewrite !dict_get_set_same.
  - exact Hdev.
Qed.

Lemma find_named_in_range (name : string) (l : list pyval) (start idx : nat)
    (d : list (string * pyval)) :
  find_named name l start = Ok (Some (idx, d)) ->
  start <= idx /\ nth_error l (idx - start) = Some (VDict d).
Proof.
  revert start. induction l as [|x l IH]; intros start; simpl; [discriminate|].
  destruct x as [| | | | |dx]; try discriminate.
  destruct (eq_str _ name).
  - intros H. inversion H; subst. rewrite Nat.sub_diag. split; [lia | reflexivity].
  - intros H. destruct (IH _ H) as [Hle Hnth]. split; [lia|].
    replace (idx - start) with (S (idx - S start)) by lia. exact Hnth.
Qed.

Lemma nth_error_set_nth {A} (l : list A) (idx : nat) (x y : A) :
  nth_error l idx = Some y -> nth_error (set_nth idx x l) idx = Some x.
Proof.
  revert idx. induction l as [|z l IH]; intros [|idx]; simpl; try discriminate.
  - reflexivity.
  - apply IH.
Qed.

(** [update_device_variable] with an allowed type, on a stack that has a
    device of that name: the entry of that device is stored back with a
    normalised variable block. *)
Lemma update_device_variable_normalises_block
    (device_name variable_name variable_type : string) (value : pyval) (self : obj)
    (d : list (string * pyval)) (l : list pyval)
    (idx : nat) (device_entry : list (string * pyval)) :
  in_variable_types variable_type = true ->
  _devices self = VDict d ->
  dict_get "entry" d = Some (VList l) ->
  find_named device_name l 0 = Ok (Some (idx, device_entry)) ->
  exists o self' device_entry',
    update_device_variable device_name variable_name variable_type value self
    = (o, self')
    /\ snd (update_variable_in_device variable_name variable_type value device_entry)
       = device_entry'
    /\ nth_error (devices_entries self') idx = Some (VDict device_entry')
    /\ variable_block_normalised device_entry' = true.
Proof.
  intros Hallowed Hd He Hfind.
  unfold update_device_variable. rewrite Hallowed. cbn [negb].
  unfold bind at 1.
  rewrite (ensure_devices_container_kept self d Hd)
    by (unfold dict_mem; now rewrite He).
  unfold bind at 1, read. cbn [_devices].
  unfold bind at 1, lift. cbn [getitem]. rewrite He.
  unfold bind at 1. cbn [iter].
  unfold bind at 1. rewrite Hfind.
  pose proof (update_variable_in_device_normalised
                variable_name variable_type value device_entry) as Hnorm.
  destruct (update_variable_in_device variable_name variable_type value device_entry)
    as [r dev'].
  cbn [snd] in Hnorm.
  destruct (find_named_in_range _ _ _ _ _ Hfind) as [_ Hnth].
  rewrite Nat.sub_0_r in Hnth.
  unfold bind, store_devices_entry, modify, lift, set_devices_obj, set_entry_key.
  cbn [_devices _templates _variable entry].
  destruct r as [[]|e].
  - eexists. eexists. exists dev'. split; [reflexivity|]. split; [reflexivity|].
    unfold devices_entries. cbn [_devices]. rewrite dict_get_set_same.
    split; [apply (nth_error_set_nth _ _ _ _ Hnth) | exact Hnorm].
  - eexists. eexists. exists dev'. split; [reflexivity|]. split; [reflexivity|].
    unfold devices_entries. cbn [_devices]. rewrite dict_get_set_same.
    split; [apply (nth_error_set_nth _ _ _ _ Hnth) | exact Hnorm].
Qed.

(** [remove_device_variable] on a device that has no ['variable'] block:
    the explicit guard returns [False] and the entry stays as it is. *)
Lemma remove_device_variable_without_block
    (device_name variable_name : string) (self : obj)
    (d : list (string * pyval)) (l : list pyval)
    (idx : nat) (device_entry : list (string * pyval)) :
  _devices self = VDict d ->
  dict_get "entry" d = Some (VList l) ->
  find_named device_name l 0 = Ok (Some (idx, device_entry)) ->
  dict_get "variable" device_entry = None ->
  remove_device_variable device_name variable_name self = (Ok false, ensured self)
  /\ _devices (ensured self) = _devices self.
Proof.
  intros Hd He Hfind Hvar.
  assert (Hmem : dict_mem "entry" d = true) by (unfold dict_mem; now rewrite He).
  assert (Hens : _devices (ensured self) = _devices self).
  { rewrite ensured_devices. unfold devices_has_entry. now rewrite Hd, Hmem. }
  split; [|exact Hens].
  unfold remove_device_variable.
  unfold bind at 1. rewrite ensure_devices_container_ok.
  unfold bind at 1, read. rewrite Hens, Hd.
  unfold bind at 1, lift. cbn [getitem]. rewrite He.
  unfold bind at 1. cbn [iter].
  unfold bind at 1. rewrite Hfind, Hvar. reflexivity.
Qed.

(** [remove_device_variable] has a guard of its own: on a device entry
    without a ['variable'] block it returns [False] and the block is
    still missing afterwards, not replaced by [{'entry': []}]. *)
Lemma remove_device_variable_leaves_block_missing :
  remove_device_variable "0123456789" "$mgmt_ip" stack_with_bare_device
  = (Ok false, stack_with_bare_device)
  /\ devices_entries stack_with_bare_device = [VDict [("@name", VStr "0123456789")]]
  /\ variable_block_normalised [("@name", VStr "0123456789")] = false.
Proof. repeat split. Qed.

(** [add_device], [remove_device], [remove_device_variable]
    and [update_device_variable] with an allowed type start with
    [_ensure_devices_container()]: a [self.devices] that is no dict or has
    no ['entry'] is replaced by [{'entry': []}] before [devices['entry']]
    is read or written, and after the call [self.devices] is a dict with
    ['entry'].  [update_device_variable] with an allowed type normalises
    the variable block of the device it updates before it reads or writes
    the entries of the block: a missing, [None] or other non-dict block
    becomes [{'entry': []}], a dict block whose ['entry'] is no list gets
    ['entry'] set to [[]]; the device entry is stored back with such a
    block also when the call raises.  [remove_device_variable] does not
    normalise the block: for a device without ['variable'] it returns
    [False] and leaves the device entries as they were. *)
Theorem containers_normalised_before_mutation :
  forall (self : obj) (name device_name variable_name variable_type : string)
         (variables value : pyval),
    in_variable_types variable_type = true ->
    (_ensure_devices_container self = (Ok tt, ensured self)
     /\ _devices (ensured self)
        = (if devices_has_entry self then _devices self
           else VDict [("entry", VList [])]))
    /\ (add_device name variables self = add_device name variables (ensured self)
        /\ devices_has_entry (snd (add_device name variables self)) = true)
    /\ (remove_device name self = remove_device name (ensured self)
        /\ devices_has_entry (snd (remove_device name self)) = true)
    /\ (remove_device_variable device_name variable_name self
        = remove_device_variable device_name variable_name (ensured self)
        /\ devices_has_entry (snd (remove_device_variable device_name variable_name self))
           = true)
    /\ (update_device_variable device_name variable_name variable_type value self
        = update_device_variable device_name variable_name variable_type value
            (ensured self)
        /\ devices_has_entry
             (snd (update_device_variable device_name variable_name variable_type
                     value self))
           = true)
    /\ (forall device_entry,
          variable_block_normalised (_ensure_device_variables_container device_entry)
          = true
          /\ (match dict_get "variable" device_entry with
              | Some (VDict _) => False
              | _ => True
              end ->
              _ensure_device_variables_container device_entry
              = dict_set "variable" (VDict [("entry", VList [])]) device_entry)
          /\ (forall var_block,
                dict_get "variable" device_entry = Some (VDict var_block) ->
                match dict_get "entry" var_block with
                | Some (VList _) => False
                | _ => True
                end ->
                _ensure_device_variables_container device_entry
                = dict_set "variable"
                    (VDict (dict_set "entry" (VList []) var_block)) device_entry))
    /\ (forall d l idx device_entry,
          _devices self = VDict d ->
          dict_get "entry" d = Some (VList l) ->
          find_named device_name l 0 = Ok (Some (idx, device_entry)) ->
          (exists o self' device_entry',
              update_device_variable device_name variable_name variable_type value self
              = (o, self')
              /\ snd (update_variable_in_device
                        variable_name variable_type value device_entry)
                 = device_entry'
              /\ nth_error (devices_entries self') idx = Some (VDict device_entry')
              /\ variable_block_normalised device_entry' = true)
          /\ (dict_get "variable" device_entry = None ->
              remove_device_variable device_name variable_name self
              = (Ok false, ensured self)
              /\ _devices (ensured self) = _devices self)).
Proof.
  intros self name dn vn vt variables value Hallowed.
  split; [split; [apply ensure_devices_container_ok | apply ensured_devices]|].
  split; [apply add_device_ensures_first|].
  split; [apply remove_device_ensures_first|].
  split; [apply remove_device_variable_ensures_first|].
  split; [apply update_device_variable_ensures_first, Hallowed|].
  split.
  - intros dev.
    destruct (ensure_device_variables_container_spec dev) as (H1 & _ & H3 & H4).
    auto.
  - intros d l idx dev Hd He Hfind. split.
    + apply (update_device_variable_normalises_block
               dn vn vt value self d l idx dev Hallowed Hd He Hfind).
    + intros Hvar.
      apply (remove_device_variable_without_block dn vn self d l idx dev Hd He Hfind Hvar).
Qed.

Lemma containers_normalised_before_mutation_witness :
  (exists o self' device_entry',
      update_device_variable "0123456789" "$mgmt_ip" "ip-netmask" (VStr "10.1.2.3/32")
        stack_with_bare_device
      = (o, self')
      /\ snd (update_variable_in_device "$mgmt_ip" "ip-netmask" (VStr "10.1.2.3/32")
                [("@name", VStr "0123456789")])
         = device_entry'
      /\ nth_error (devices_entries self') 0 = Some (VDict device_entry')
      /\ variable_block_normalised device_entry' = true)
  /\ (remove_device_variable "0123456789" "$mgmt_ip" stack_with_bare_device
      = (Ok false, ensured stack_with_bare_device)
      /\ _devices (ensured stack_with_bare_device) = _devices stack_with_bare_device)
  /\ _ensure_device_variables_container [("@name", VStr "0123456789")]
     = dict_set "variable" (VDict [("entry", VList [])]) [("@name", VStr "0123456789")]
  /\ _ensure_device_variables_container
       [("@name", VStr "0123456789"); ("variable", VDict [("entry", VNone)])]
     = dict_set "variable" (VDict (dict_set "entry" (VList []) [("entry", VNone)]))
         [("@name", VStr "0123456789"); ("variable", VDict [("entry", VNone)])].
Proof.
  destruct (containers_normalised_before_mutation
              stack_with_bare_device "0123456789" "0123456789" "$mgmt_ip" "ip-netmask"
              VNone (VStr "10.1.2.3/32") eq_refl)
    as (_ & _ & _ & _ & _ & Hblock & Hdevice).
  destruct (Hdevice [("entry", VList [bare_device "0123456789"])]
              [bare_device "0123456789"] 0 [("@name", VStr "0123456789")]
              eq_refl eq_refl eq_refl) as [Hupdate Hremove].
  split; [exact Hupdate|].
  split; [exact (Hremove eq_refl)|].
  split.
  - exact (proj1 (proj2 (Hblock [("@name", VStr "0123456789")])) I).
  - exact (proj2 (proj2 (Hblock [("@name", VStr "0123456789");
                                 ("variable", VDict [("entry", VNone)])]))
             [("entry", VNone)] eq_refl I).
Defined.

(** ** The shapes the statements ask for *)

(** Under the shape conditions, "no type can be inferred" means that no
    stack-level definition and no device-level entry gives a tag. *)
Lemma infer_variable_type_none_iff (self : obj) (name : string) :
  variable_shape_ok self = true ->
  devices_shape_ok self = true ->
  (_infer_variable_type self name = Ok None
   <-> Forall (fun x => entry_type_tag name x = None) (stack_definitions self)
       /\ Forall (fun x => entry_type_tag name x = None)
            (flat_map device_variable_entries (devices_entries self))).
Proof.
  intros Hv Hd. rewrite (infer_variable_type_spec self name Hv Hd).
  unfold spec_infer_variable_type. rewrite <- !first_match_none.
  destruct (first_match name (stack_definitions self)) as [k|].
  - split; [discriminate | intros [H _]; discriminate].
  - split.
    + intros H. split; [reflexivity | congruence].
    + intros [_ H]. now rewrite H.
Qed.

(** The shape conditions cannot be dropped: [validate_variable_structure]
    accepts an ['entry'] of [None] as an empty container, but the loops of
    [_infer_variable_type] iterate over it and raise [TypeError]. *)
Example infer_variable_type_entry_none :
  validate_variable_structure (VDict [("entry", VNone)]) = true
  /\ _infer_variable_type
       (mkObj (VDict [("member", VList [])])
          (VDict [("entry", VList [])])
          (VDict [("entry", VNone)])
          [("templates", RefTemplates); ("devices", RefDevices); ("variable", RefVariable)])
       "$mgmt_ip"
     = Raise TypeError.
Proof. split; reflexivity. Qed.

(** * Further properties *)

(** ** Removing a device *)

Lemma find_named_middle (name : string) (before after : list pyval)
    (d : list (string * pyval)) (idx : nat) :
  forallb is_dict before = true ->
  existsb (named name) before = false ->
  named name (VDict d) = true ->
  find_named name (before ++ VDict d :: after) idx
  = Ok (Some (idx + List.length before, d)).
Proof.
  revert idx. induction before as [|x l IH]; intros idx Hd Hn Hx; simpl.
  - simpl in Hx. rewrite Hx. now rewrite Nat.add_0_r.
  - simpl in Hd, Hn. apply andb_prop in Hd as [Hdx Hl].
    apply orb_false_elim in Hn as [Hnx Hnl].
    destruct x as [| | | | |dx]; try discriminate.
    simpl in Hnx. rewrite Hnx, (IH (S idx) Hl Hnl Hx).
    now rewrite Nat.add_succ_r.
Qed.

Lemma remove_nth_middle {A} (before after : list A) (x : A) :
  remove_nth (List.length before) (before ++ x :: after) = before ++ after.
Proof. induction before as [|y l IH]; simpl; [reflexivity | now rewrite IH]. Qed.

Lemma set_nth_middle {A} (before after : list A) (x y : A) :
  set_nth (List.length before) y (before ++ x :: after) = before ++ y :: after.
Proof. induction before as [|z l IH]; simpl; [reflexivity | now rewrite IH]. Qed.

(** A list of dicts with an entry named [name] splits at the first one. *)
Lemma split_at_first_named (name : string) (l : list pyval) :
  forallb is_dict l = true ->
  existsb (named name) l = true ->
  exists before d after,
    l = before ++ VDict d :: after
    /\ existsb (named name) before = false
    /\ named name (VDict d) = true.
Proof.
  induction l as [|x l IH]; [discriminate|].
  cbn [forallb existsb].
  intros Hd Hn. apply andb_prop in Hd as [Hx Hl].
  destruct x as [| | | | |d]; try discriminate.
  destruct (named name (VDict d)) eqn:Hnx.
  - exists [], d, l. repeat split; auto.
  - destruct (IH Hl Hn) as (b & d' & a & -> & Hb & Hd').
    exists (VDict d :: b), d', a. cbn [existsb app]. rewrite Hnx.
    repeat split; auto.
Qed.

Lemma remove_device_first_match (name : string) (self : obj)
    (dv : list (string * pyval)) (before after : list pyval)
    (d : list (string * pyval)) :
  _devices self = VDict dv ->
  dict_get "entry" dv = Some (VList (before ++ VDict d :: after)) ->
  forallb is_dict before = true ->
  existsb (named name) before = false ->
  named name (VDict d) = true ->
  remove_device name self
  = (Ok true,
     mkObj (_templates self)
       (VDict (dict_set "entry" (VList (before ++ after)) dv))
       (_variable self)
       (dict_set "devices" RefDevices (entry self))).
Proof.
  intros Hd He Hb Hn Hx.
  unfold remove_device. unfold bind at 1.
  rewrite (ensure_devices_container_kept self dv Hd)
    by (unfold dict_mem; now rewrite He).
  unfold bind at 1, read. cbn [_devices].
  unfold bind at 1, lift. cbn [getitem]. rewrite He.
  unfold bind at 1. cbn [iter].
  unfold bind at 1. rewrite (find_named_middle name before after d 0 Hb Hn Hx).
  cbn [Nat.add delitem]. rewrite remove_nth_middle.
  unfold bind, store_devices_entry, modify, ret, set_devices_obj, set_entry_key.
  cbn [_devices _templates _variable entry].
  destruct (dict_mem "devices" (entry self)); [reflexivity|].
  now rewrite dict_set_set.
Qed.

Lemma remove_device_no_match (name : string) (self : obj) :
  devices_list_of_dicts self = true ->
  existsb (named name) (devices_entries self) = false ->
  remove_device name self = (Ok false, ensured self)
  /\ devices_entries (ensured self) = devices_entries self.
Proof.
  unfold devices_list_of_dicts, devices_entries. intros Hs Hn.
  unfold remove_device. unfold bind at 1. rewrite ensure_devices_container_ok.
  rewrite ensured_devices. unfold devices_has_entry, dict_mem.
  destruct (_devices self) as [| | | | |dv] eqn:Hd; try discriminate.
  destruct (dict_get "entry" dv) as [[| | | |l|]|] eqn:He; try discriminate.
  - unfold bind at 1, read. rewrite ensured_devices.
    unfold devices_has_entry, dict_mem. rewrite Hd, He.
    unfold bind at 1, lift. cbn [getitem]. rewrite He.
    unfold bind at 1. cbn [iter].
    unfold bind at 1. rewrite (find_named_none name l 0 Hs Hn).
    split; reflexivity.
  - unfold bind at 1, read. rewrite ensured_devices.
    unfold devices_has_entry, dict_mem. rewrite Hd, He.
    split; reflexivity.
Qed.

(** X1: on a stack whose devices are a list of dicts, [remove_device]
    returns [False] and keeps the list when no entry has the name, and
    otherwise returns [True] and deletes the first entry with the name and
    no other. *)
Theorem remove_device_deletes_first_match :
  forall (name : string) (self : obj),
    devices_list_of_dicts self = true ->
    (existsb (named name) (devices_entries self) = false ->
     exists self',
       remove_device name self = (Ok false, self')
       /\ devices_entries self' = devices_entries self)
    /\ (existsb (named name) (devices_entries self) = true ->
        exists self' before x after,
          remove_device name self = (Ok true, self')
          /\ devices_entries self = before ++ x :: after
          /\ existsb (named name) before = false
          /\ named name x = true
          /\ devices_entries self' = before ++ after).
Proof.
  intros name self Hs. split.
  - intros Hn. exists (ensured self). now apply remove_device_no_match.
  - intros Hn. pose proof Hs as Hs'. pose proof Hn as Hn'.
    unfold devices_list_of_dicts in Hs'. unfold devices_entries in Hn' |- *.
    destruct (_devices self) as [| | | | |dv] eqn:Hd; try discriminate.
    destruct (dict_get "entry" dv) as [[| | | |l|]|] eqn:He; try discriminate.
    destruct (split_at_first_named name l Hs' Hn') as (b & d & a & -> & Hb & Hx).
    assert (Hbd : forallb is_dict b = true).
    { rewrite forallb_app in Hs'. now apply andb_prop in Hs' as [? _]. }
    eexists. exists b, (VDict d), a. split.
    + apply (remove_device_first_match name self dv b a d Hd He Hbd Hb Hx).
    + cbn [_devices]. rewrite dict_get_set_same. repeat split; auto.
Qed.

Lemma remove_device_deletes_first_match_witness :
  let self :=
    mkObj (VDict [("member", VList [])])
      (VDict [("entry", VList [bare_device "0001"; bare_device "0002"; bare_device "0001"])])
      (VDict [("entry", VList [])])
      [("templates", RefTemplates); ("devices", RefDevices); ("variable", RefVariable)] in
  (exists self',
      remove_device "0003" self = (Ok false, self')
      /\ devices_entries self' = devices_entries self)
  /\ (exists self' before x after,
        remove_device "0001" self = (Ok true, self')
        /\ devices_entries self = before ++ x :: after
        /\ existsb (named "0001") before = false
        /\ named "0001" x = true
        /\ devices_entries self' = before ++ after).
Proof.
  intros self. split.
  - apply (proj1 (remove_device_deletes_first_match "0003" self eq_refl)). reflexivity.
  - apply (proj2 (remove_device_deletes_first_match "0001" self eq_refl)). reflexivity.
Defined.

(** X2: [remove_device(name)] right after [add_device(name)] gives back
    the list of devices as it was, provided no entry had that name
    before. *)
Theorem add_then_remove_device_restores :
  forall (name : string) (self : obj),
    devices_list_of_dicts self = true ->
    existsb (named name) (devices_entries self) = false ->
    exists self1 self2,
      add_device name VNone self = (Ok true, self1)
      /\ remove_device name self1 = (Ok true, self2)
      /\ devices_entries self2 = devices_entries self.
Proof.
  intros name self Hs Hn.
  assert (Hlike : devices_entry_listlike self = true
                  /\ forallb is_dict (devices_entries self) = true).
  { unfold devices_list_of_dicts in Hs.
    unfold devices_entry_listlike, devices_entries.
    destruct (_devices self) as [| | | | |d]; try discriminate.
    destruct (dict_get "entry" d) as [[| | | |l|]|]; try discriminate; auto. }
  destruct Hlike as [Hlike Hdicts].
  destruct (add_device_appends name self Hlike) as (self1 & d1 & Hadd & Hd1 & He1 & _).
  exists self1. eexists. split; [exact Hadd|]. split.
  - apply (remove_device_first_match name self1 d1 (devices_entries self) []
             [("@name", VStr name)] Hd1 He1 Hdicts Hn).
    simpl. apply String.eqb_refl.
  - unfold devices_entries at 1. cbn [_devices]. rewrite dict_get_set_same.
    apply app_nil_r.
Qed.

Lemma add_then_remove_device_restores_witness :
  exists self1 self2,
    add_device "9876543210" VNone stack_with_bare_device = (Ok true, self1)
    /\ remove_device "9876543210" self1 = (Ok true, self2)
    /\ devices_entries self2 = devices_entries stack_with_bare_device.
Proof.
  apply (add_then_remove_device_restores "9876543210" stack_with_bare_device);
    reflexivity.
Defined.

(** ** The devices structure stays valid *)

Lemma validate_devices_items_app (l l' : list pyval) :
  validate_devices_items (l ++ l')
  = validate_devices_items l && validate_devices_items l'.
Proof.
  induction l as [|x l IH]; [reflexivity|].
  cbn [app validate_devices_items].
  destruct (validate_devices_item x); [exact IH | reflexivity].
Qed.

Lemma validate_devices_structure_inv (devices : pyval) :
  validate_devices_structure devices = true ->
  exists d l,
    devices = VDict d
    /\ dict_get "entry" d = Some (VList l)
    /\ validate_devices_items l = true.
Proof.
  unfold validate_devices_structure.
  destruct devices as [| | | | |d]; try discriminate.
  destruct (dict_get "entry" d) as [[| | | |l|]|] eqn:He; try discriminate.
  intros H. now exists d, l.
Qed.

Lemma validate_device_with_variables (name : string) (vars : list (string * pyval)) :
  validate_variable_structure (VDict vars) = true ->
  validate_devices_item (VDict [("@name", VStr name); ("variable", VDict vars)]) = true.
Proof.
  intros Hv. unfold validate_devices_item.
  cbn [dict_mem dict_get String.eqb Ascii.eqb Bool.eqb negb].
  rewrite Hv. now destruct (truthy _).
Qed.

Lemma add_device_with_variables (name : string) (vars : list (string * pyval))
    (self : obj) (d : list (string * pyval)) (l : list pyval) :
  _devices self = VDict d ->
  dict_get "entry" d = Some (VList l) ->
  validate_variable_structure (VDict vars) = true ->
  add_device name (VDict vars) self
  = (Ok true,
     mkObj (_templates self)
       (VDict (dict_set "entry"
                 (VList (l ++ [VDict [("@name", VStr name); ("variable", VDict vars)]])) d))
       (_variable self)
       (dict_set "devices" RefDevices (entry self))).
Proof.
  intros Hd He Hv.
  unfold add_device, bind at 1.
  rewrite (ensure_devices_container_kept self d Hd)
    by (unfold dict_mem; now rewrite He).
  rewrite Hv. cbn [negb].
  unfold bind, read, lift, ret, store_devices_entry, modify. simpl.
  rewrite He. simpl. unfold set_entry_key, set_devices_obj. simpl.
  destruct (dict_mem "devices" (entry self)) eqn:Hm.
  - reflexivity.
  - now rewrite dict_set_set.
Qed.

Lemma add_device_invalid_variables (name : string) (variables : pyval) (self : obj) :
  variables <> VNone ->
  validate_variable_structure variables = false ->
  add_device name variables self = (Ok false, ensured self).
Proof.
  intros Hne Hv. unfold add_device, bind at 1.
  rewrite ensure_devices_container_ok.
  destruct variables; try contradiction; rewrite ?Hv; reflexivity.
Qed.

(** X3: [add_device] keeps a devices structure that
    [validate_devices_structure] accepts acceptable.  Without variables,
    or with variables that [validate_variable_structure] accepts, it
    returns [True] and appends one entry with the name; with variables
    that are rejected it returns [False] and the devices stay as they
    were. *)
Theorem add_device_keeps_devices_valid :
  forall (name : string) (variables : pyval) (self : obj),
    validate_devices_structure (_devices self) = true ->
    (variables = VNone \/ validate_variable_structure variables = true ->
     exists self' new,
       add_device name variables self = (Ok true, self')
       /\ validate_devices_structure (_devices self') = true
       /\ devices_entries self' = devices_entries self ++ [new]
       /\ named name new = true)
    /\ (variables <> VNone ->
        validate_variable_structure variables = false ->
        exists self',
          add_device name variables self = (Ok false, self')
          /\ _devices self' = _devices self).
Proof.
  intros name variables self Hvalid.
  destruct (validate_devices_structure_inv _ Hvalid) as (d & l & Hd & He & Hl).
  split.
  - intros Hvars.
    assert (Hcase : variables = VNone
                    \/ exists vars, variables = VDict vars
                         /\ validate_variable_structure (VDict vars) = true).
    { destruct Hvars as [->|Hv]; [now left|].
      destruct variables; try discriminate Hv. right. now eexists. }
    destruct Hcase as [-> | (vars & -> & Hv)].
    + eexists. exists (bare_device name). split.
      * apply (add_device_to_list name self d l Hd He).
      * cbn [_devices]. unfold validate_devices_structure, devices_entries.
        cbn [_devices]. rewrite Hd, He, dict_get_set_same.
        rewrite validate_devices_items_app, Hl.
        repeat split. simpl. apply String.eqb_refl.
    + eexists. eexists. split.
      * apply (add_device_with_variables name vars self d l Hd He Hv).
      * cbn [_devices]. unfold validate_devices_structure, devices_entries.
        cbn [_devices]. rewrite Hd, He, dict_get_set_same.
        rewrite validate_devices_items_app, Hl.
        cbn [validate_devices_items andb].
        rewrite (validate_device_with_variables name vars Hv).
        repeat split. simpl. apply String.eqb_refl.
  - intros Hne Hv. exists (ensured self). split.
    + now apply add_device_invalid_variables.
    + rewrite ensured_devices. unfold devices_has_entry, dict_mem.
      now rewrite Hd, He.
Qed.

Lemma add_device_keeps_devices_valid_witness :
  (exists self' new,
      add_device "9876543210"
        (VDict [("entry", VList [VDict [("@name", VStr "$mgmt_ip");
                                        ("type", VDict [("ip-netmask", VStr "10.0.0.2/32")])]])])
        stack_with_bare_device
      = (Ok true, self')
      /\ validate_devices_structure (_devices self') = true
      /\ devices_entries self' = devices_entries stack_with_bare_device ++ [new]
      /\ named "9876543210" new = true)
  /\ (exists self',
        add_device "9876543210"
          (VDict [("entry", VList [VDict [("@name", VStr "$mgmt_ip")]])])
          stack_with_bare_device
        = (Ok false, self')
        /\ _devices self' = _devices stack_with_bare_device).
Proof.
  split.
  - apply (proj1 (add_device_keeps_devices_valid "9876543210" _
                    stack_with_bare_device eq_refl)).
    right. reflexivity.
  - apply (proj2 (add_device_keeps_devices_valid "9876543210" _
                    stack_with_bare_device eq_refl)).
    + discriminate.
    + reflexivity.
Defined.

(** X4: [remove_device] keeps a devices structure that
    [validate_devices_structure] accepts acceptable, whatever it
    returns. *)
Theorem remove_device_keeps_devices_valid :
  forall (name : string) (self : obj),
    validate_devices_structure (_devices self) = true ->
    exists r self',
      remove_device name self = (Ok r, self')
      /\ validate_devices_structure (_devices self') = true.
Proof.
  intros name self Hvalid.
  destruct (validate_devices_structure_inv _ Hvalid) as (d & l & Hd & He & Hl).
  pose proof (validate_devices_items_dicts l Hl) as Hdicts.
  destruct (existsb (named name) l) eqn:Hn.
  - destruct (split_at_first_named name l Hdicts Hn) as (b & x & a & -> & Hb & Hx).
    assert (Hbd : forallb is_dict b = true).
    { rewrite forallb_app in Hdicts. now apply andb_prop in Hdicts as [? _]. }
    exists true. eexists. split.
    + apply (remove_device_first_match name self d b a x Hd He Hbd Hb Hx).
    + cbn [_devices]. unfold validate_devices_structure.
      rewrite dict_get_set_same.
      rewrite validate_devices_items_app in Hl |- *.
      apply andb_prop in Hl as [Hlb Hla]. rewrite Hlb.
      cbn [validate_devices_items] in Hla.
      now destruct (validate_devices_item (VDict x)).
  - exists false, (ensured self).
    assert (Hs : devices_list_of_dicts self = true).
    { now apply validate_devices_structure_list_of_dicts. }
    assert (Hn' : existsb (named name) (devices_entries self) = false).
    { unfold devices_entries. now rewrite Hd, He. }
    split; [apply (remove_device_no_match name self Hs Hn')|].
    rewrite ensured_devices. unfold devices_has_entry, dict_mem.
    rewrite Hd, He. now rewrite <- Hd.
Qed.

Lemma remove_device_keeps_devices_valid_witness :
  exists r self',
    remove_device "0123456789" stack_with_bare_device = (Ok r, self')
    /\ validate_devices_structure (_devices self') = true.
Proof.
  apply (remove_device_keeps_devices_valid "0123456789" stack_with_bare_device).
  reflexivity.
Defined.

(** ** Stack-level definitions *)

Lemma update_variable_appends (name variable_type : string) (value : pyval)
    (self : obj) (var : list (string * pyval)) (l : list pyval) :
  in_variable_types variable_type = true ->
  _variable self = VDict var ->
  dict_get "entry" var = Some (VList l) ->
  update_variable name variable_type value self
  = (Ok tt,
     mkObj (_templates self) (_devices self)
       (VDict (dict_set "entry"
                 (VList (l ++ [VDict [("@name", VStr name);
                                      ("type", VDict [(variable_type, value)])]])) var))
       (dict_set "variable" RefVariable (entry self))).
Proof.
  intros Hallowed Hv He. unfold update_variable. rewrite Hallowed.
  unfold bind, read, lift, modify, set_variable_obj, set_entry_key.
  rewrite Hv. cbn [getitem]. rewrite He. cbn [append].
  cbn [_variable _templates _devices entry]. reflexivity.
Qed.

(** A definition appended for one name is invisible to the search for
    another name. *)
Lemma first_type_tag_app_other (name name' variable_type : string) (value : pyval)
    (l : list pyval) :
  name' <> name ->
  first_type_tag name'
    (l ++ [VDict [("@name", VStr name); ("type", VDict [(variable_type, value)])]])
  = first_type_tag name' l.
Proof.
  intros Hne. induction l as [|x l IH].
  - simpl. destruct (String.eqb_spec name name'); [congruence | reflexivity].
  - cbn [app first_type_tag]. destruct (get x "@name") as [n|e]; [|reflexivity].
    cbn [obind]. destruct (eq_str n name'); [|exact IH].
    destruct (get x "type") as [t|e]; [|reflexivity].
    cbn [obind]. destruct t as [| | | | |[|[k v] ty]]; try exact IH. reflexivity.
Qed.

Lemma first_type_tag_app_same (name variable_type : string) (value : pyval)
    (l : list pyval) :
  forallb is_dict l = true ->
  first_type_tag name
    (l ++ [VDict [("@name", VStr name); ("type", VDict [(variable_type, value)])]])
  = Ok (Some (match first_match name l with
              | Some type_key => type_key
              | None => variable_type
              end)).
Proof.
  intros Hl.
  rewrite first_type_tag_spec.
  - rewrite first_match_app. destruct (first_match name l); [reflexivity|].
    simpl. now rewrite String.eqb_refl.
  - rewrite forallb_app, Hl. reflexivity.
Qed.

(** X5: [update_variable] with an allowed type appends a definition and
    replaces none: afterwards [_infer_variable_type] gives, for that name,
    the tag of the older definition when there was one and the new type
    only when there was none; for every other name it gives what it gave
    before. *)
Theorem update_variable_appends_definition :
  forall (name variable_type : string) (value : pyval) (self : obj),
    In variable_type variable_types ->
    variable_shape_ok self = true ->
    (exists var l, _variable self = VDict var /\ dict_get "entry" var = Some (VList l)) ->
    exists self',
      update_variable name variable_type value self = (Ok tt, self')
      /\ stack_definitions self'
         = stack_definitions self
           ++ [VDict [("@name", VStr name); ("type", VDict [(variable_type, value)])]]
      /\ _infer_variable_type self' name
         = Ok (Some (match first_match name (stack_definitions self) with
                     | Some type_key => type_key
                     | None => variable_type
                     end))
      /\ (forall name', name' <> name ->
            _infer_variable_type self' name' = _infer_variable_type self name').
Proof.
  intros name vt value self Hallowed Hshape (var & l & Hv & He).
  apply in_variable_types_In in Hallowed.
  assert (Hl : forallb is_dict l = true).
  { unfold variable_shape_ok in Hshape. now rewrite Hv, He in Hshape. }
  eexists. split; [apply (update_variable_appends name vt value self var l Hallowed Hv He)|].
  unfold stack_definitions. cbn [_variable _devices].
  rewrite dict_get_set_same, Hv, He.
  split; [reflexivity|].
  assert (Hnonempty :
    forall x, truthy (VDict (dict_set "entry" x var)) = true).
  { intros x. destruct var as [|[k v] var]; [discriminate He|].
    simpl. now destruct (String.eqb k "entry"). }
  assert (Hvar : truthy (VDict var) = true).
  { destruct var; [discriminate He | reflexivity]. }
  split.
  - unfold _infer_variable_type. cbn [_variable].
    rewrite Hnonempty, dict_mem_set_same, dict_get_set_same. cbn [andb iter obind].
    rewrite (first_type_tag_app_same name vt value l Hl). reflexivity.
  - intros name' Hne. unfold _infer_variable_type. cbn [_variable _devices].
    rewrite Hv, Hnonempty, Hvar, dict_mem_set_same, dict_get_set_same.
    unfold dict_mem. rewrite He. cbn [andb iter obind].
    now rewrite (first_type_tag_app_other name name' vt value l Hne).
Qed.

Lemma update_variable_appends_definition_witness :
  exists self',
    update_variable "$mgmt_ip" "fqdn" (VStr "fw.example.com") stack_with_bare_device
    = (Ok tt, self')
    /\ stack_definitions self'
       = stack_definitions stack_with_bare_device
         ++ [VDict [("@name", VStr "$mgmt_ip");
                    ("type", VDict [("fqdn", VStr "fw.example.com")])]]
    /\ _infer_variable_type self' "$mgmt_ip"
       = Ok (Some (match first_match "$mgmt_ip" (stack_definitions stack_with_bare_device) with
                   | Some type_key => type_key
                   | None => "fqdn"
                   end))
    /\ (forall name', name' <> "$mgmt_ip" ->
          _infer_variable_type self' name'
          = _infer_variable_type stack_with_bare_device name').
Proof.
  apply (update_variable_appends_definition
           "$mgmt_ip" "fqdn" (VStr "fw.example.com") stack_with_bare_device).
  - simpl. tauto.
  - reflexivity.
  - eexists. eexists. split; reflexivity.
Defined.

Lemma validate_variable_items_app (l l' : list pyval) :
  validate_variable_items (l ++ l')
  = validate_variable_items l && validate_variable_items l'.
Proof.
  induction l as [|x l IH]; [reflexivity|].
  cbn [app validate_variable_items].
  destruct (validate_variable_item x); [exact IH | reflexivity].
Qed.

Lemma validate_new_variable_entry (name variable_type : string) (value : pyval) :
  in_variable_types variable_type = true ->
  validate_variable_item
    (VDict [("@name", VStr name); ("type", VDict [(variable_type, value)])])
  = value_fits variable_type value.
Proof.
  intros Hallowed. unfold validate_variable_item, value_fits.
  cbn [dict_mem dict_get String.eqb Ascii.eqb Bool.eqb negb orb List.length Nat.eqb].
  now rewrite Hallowed.
Qed.

(** X6: after [update_variable] with an allowed type, the stack-level
    variables pass [validate_variable_structure] exactly when they passed
    before and the new value fits the type: a string, or for
    ['pre-shared-key'] a dict with ['key'] or ['value'].  A plain string
    given for a pre-shared key is stored unwrapped and makes the block
    invalid. *)
Theorem update_variable_validity :
  forall (name variable_type : string) (value : pyval) (self : obj)
         (var : list (string * pyval)) (l : list pyval),
    In variable_type variable_types ->
    _variable self = VDict var ->
    dict_get "entry" var = Some (VList l) ->
    exists self',
      update_variable name variable_type value self = (Ok tt, self')
      /\ validate_variable_structure (_variable self')
         = validate_variable_structure (_variable self)
           && value_fits variable_type value.
Proof.
  intros name vt value self var l Hallowed Hv He.
  apply in_variable_types_In in Hallowed.
  eexists. split; [apply (update_variable_appends name vt value self var l Hallowed Hv He)|].
  cbn [_variable]. rewrite Hv.
  rewrite (validate_variable_structure_list var l He).
  rewrite (validate_variable_structure_list _ _ (dict_get_set_same "entry" _ var)).
  rewrite validate_variable_items_app. cbn [validate_variable_items].
  rewrite (validate_new_variable_entry name vt value Hallowed).
  now destruct (value_fits vt value).
Qed.

Lemma update_variable_validity_witness :
  exists self',
    update_variable "$psk" "pre-shared-key" (VStr "s3cret") stack_with_bare_device
    = (Ok tt, self')
    /\ validate_variable_structure (_variable self')
       = validate_variable_structure (_variable stack_with_bare_device)
         && value_fits "pre-shared-key" (VStr "s3cret").
Proof.
  apply (update_variable_validity "$psk" "pre-shared-key" (VStr "s3cret")
           stack_with_bare_device
           [("entry", VList [VDict [("@name", VStr "$mgmt_ip");
                                    ("type", VDict [("ip-netmask", VStr "0.0.0.0/0")])]])]
           [VDict [("@name", VStr "$mgmt_ip");
                   ("type", VDict [("ip-netmask", VStr "0.0.0.0/0")])]]).
  - simpl. tauto.
  - reflexivity.
  - reflexivity.
Defined.

(** ** Per-device variables *)

Lemma ensure_device_variables_entries (dev : list (string * pyval)) :
  device_variable_entries (VDict (_ensure_device_variables_container dev))
  = device_variable_entries (VDict dev).
Proof.
  unfold device_variable_entries, _ensure_device_variables_container.
  destruct (dict_get "variable" dev) as [[| | | | |vb]|] eqn:Hv;
    try (rewrite dict_get_set_same; reflexivity).
  destruct (dict_get "entry" vb) as [[| | | |l|]|] eqn:He; cbn [is_list negb];
    try (rewrite !dict_get_set_same; reflexivity).
  now rewrite Hv, He.
Qed.

Lemma ensure_device_variables_other_keys (dev : list (string * pyval)) (k : string) :
  k <> "variable" ->
  dict_get k (_ensure_device_variables_container dev) = dict_get k dev.
Proof.
  intros Hk. unfold _ensure_device_variables_container.
  destruct (dict_get "variable" dev) as [[| | | | |vb]|];
    try (apply dict_get_set_other; exact Hk).
  destruct (negb (is_list _)); [apply dict_get_set_other; exact Hk | reflexivity].
Qed.

(** On a list of dicts [find_named] never raises: it finds nothing, or
    the first entry with the name. *)
Lemma find_named_cases (name : string) (l : list pyval) (idx : nat) :
  forallb is_dict l = true ->
  (existsb (named name) l = false /\ find_named name l idx = Ok None)
  \/ (exists before d after,
        l = before ++ VDict d :: after
        /\ forallb is_dict before = true
        /\ existsb (named name) before = false
        /\ named name (VDict d) = true
        /\ find_named name l idx = Ok (Some (idx + List.length before, d))).
Proof.
  intros Hl. destruct (existsb (named name) l) eqn:Hn.
  - right. destruct (split_at_first_named name l Hl Hn) as (b & d & a & -> & Hb & Hd).
    assert (Hbd : forallb is_dict b = true).
    { rewrite forallb_app in Hl. now apply andb_prop in Hl as [? _]. }
    exists b, d, a. repeat split; auto. now apply find_named_middle.
  - left. split; [reflexivity | now apply find_named_none].
Qed.

Lemma upsert_type_skip (name : string) (payload : pyval) (before rest : list pyval) :
  existsb (named name) before = false ->
  upsert_type name payload (before ++ rest) = before ++ upsert_type name payload rest.
Proof.
  induction before as [|x l IH]; [reflexivity|].
  cbn [existsb app]. intros H. apply orb_false_elim in H as [Hx Hl].
  cbn [upsert_type]. rewrite Hx, (IH Hl). now destruct x.
Qed.

Lemma named_set_other (name k : string) (v : pyval) (d : list (string * pyval)) :
  k <> "@name" ->
  named name (VDict (dict_set k v d)) = named name (VDict d).
Proof.
  intros Hk. unfold named. rewrite dict_get_set_other; [reflexivity|].
  intros E. apply Hk. now symmetry.
Qed.

Lemma first_named_upsert (name : string) (payload : pyval) (l : list pyval) :
  exists var_entry,
    first_named name (upsert_type name payload l) = Some var_entry
    /\ dict_get "type" var_entry = Some payload.
Proof.
  induction l as [|x l IH].
  - eexists. simpl. rewrite String.eqb_refl. split; reflexivity.
  - cbn [upsert_type]. destruct x as [| | | | |d]; try exact IH.
    destruct (named name (VDict d)) eqn:Hn.
    + exists (dict_set "type" payload d). cbn [first_named].
      rewrite named_set_other by discriminate. rewrite Hn.
      split; [reflexivity | apply dict_get_set_same].
    + cbn [first_named]. rewrite Hn. exact IH.
Qed.

Lemma upsert_type_length (name : string) (payload : pyval) (l : list pyval) :
  List.length (upsert_type name payload l)
  = List.length l + (if existsb (named name) l then 0 else 1).
Proof.
  induction l as [|x l IH]; [reflexivity|].
  cbn [upsert_type existsb].
  destruct x as [| | | | |d]; cbn [List.length named orb];
    try (rewrite IH; reflexivity).
  fold (named name (VDict d)).
  destruct (named name (VDict d)); cbn [List.length orb].
  - now rewrite Nat.add_0_r.
  - now rewrite IH.
Qed.

Lemma upsert_type_dicts (name : string) (payload : pyval) (l : list pyval) :
  forallb is_dict l = true ->
  forallb is_dict (upsert_type name payload l) = true.
Proof.
  induction l as [|x l IH]; [reflexivity|].
  cbn [forallb upsert_type]. intros H. apply andb_prop in H as [Hx Hl].
  destruct x as [| | | | |d]; try discriminate.
  destruct (named name (VDict d)); cbn [forallb is_dict andb]; auto.
Qed.

(** The loop body of [update_device_variable] on a device whose variable
    entries are dicts, with a value the type accepts: it returns, and the
    device holds the entries with the variable set. *)
Lemma update_variable_in_device_upsert
    (variable_name variable_type : string) (value : pyval)
    (dev : list (string * pyval)) :
  forallb is_dict (device_variable_entries (VDict dev)) = true ->
  String.eqb variable_type "pre-shared-key"
  && negb (is_dict (normalized_value variable_type value)) = false ->
  exists var_block,
    update_variable_in_device variable_name variable_type value dev
    = (Ok tt,
       dict_set "variable" (VDict var_block) (_ensure_device_variables_container dev))
    /\ dict_get "entry" var_block
       = Some (VList (upsert_type variable_name
                        (VDict [(variable_type, normalized_value variable_type value)])
                        (device_variable_entries (VDict dev)))).
Proof.
  intros Hdicts Hpsk.
  rewrite <- ensure_device_variables_entries in Hdicts |- *.
  pose proof (proj1 (ensure_device_variables_container_spec dev)) as Hn.
  unfold update_variable_in_device. fold (normalized_value variable_type value).
  set (dev0 := _ensure_device_variables_container dev) in *.
  unfold variable_block_normalised in Hn. unfold device_variable_entries in Hdicts |- *.
  destruct (dict_get "variable" dev0) as [[| | | | |vb]|] eqn:Hv; try discriminate.
  destruct (dict_get "entry" vb) as [[| | | |items|]|] eqn:He; try discriminate.
  cbn [get_default]. rewrite He. cbn [iter obind].
  destruct (find_named_cases variable_name items 0 Hdicts)
    as [[Hnone Hfind] | (b & d & a & -> & Hb & Hnb & Hd & Hfind)];
    rewrite Hfind; cbn [obind].
  - rewrite Hpsk.
    eexists. split; [reflexivity|]. rewrite dict_get_set_same.
    rewrite <- (app_nil_r items) at 2.
    now rewrite (upsert_type_skip _ _ items [] Hnone).
  - rewrite Hpsk. cbn [set_item_key Nat.add].
    eexists. split; [reflexivity|]. rewrite dict_get_set_same.
    rewrite set_nth_middle, (upsert_type_skip _ _ b _ Hnb).
    cbn [upsert_type]. now rewrite Hd.
Qed.

Lemma first_named_split (name : string) (l : list pyval) (d : list (string * pyval)) :
  forallb is_dict l = true ->
  first_named name l = Some d ->
  exists before after,
    l = before ++ VDict d :: after
    /\ forallb is_dict before = true
    /\ existsb (named name) before = false
    /\ named name (VDict d) = true.
Proof.
  induction l as [|x l IH]; [discriminate|].
  cbn [forallb first_named]. intros Hl Hf. apply andb_prop in Hl as [Hx Hl].
  destruct x as [| | | | |dx]; try discriminate.
  destruct (named name (VDict dx)) eqn:Hn.
  - inversion Hf; subst. exists [], l. repeat split; auto.
  - destruct (IH Hl Hf) as (b & a & -> & Hb & Hnb & Hd).
    exists (VDict dx :: b), a. cbn [forallb existsb is_dict andb app].
    rewrite Hn. repeat split; auto.
Qed.

Lemma first_named_middle (name : string) (before after : list pyval)
    (d : list (string * pyval)) :
  existsb (named name) before = false ->
  named name (VDict d) = true ->
  first_named name (before ++ VDict d :: after) = Some d.
Proof.
  induction before as [|x l IH]; cbn [existsb app first_named]; intros Hb Hd.
  - now rewrite Hd.
  - apply orb_false_elim in Hb as [Hx Hl]. rewrite Hx.
    destruct x; now apply IH.
Qed.

Lemma first_named_other (name : string) (before after : list pyval)
    (d d' : list (string * pyval)) :
  named name (VDict d) = false ->
  named name (VDict d') = false ->
  first_named name (before ++ VDict d' :: after)
  = first_named name (before ++ VDict d :: after).
Proof.
  intros Hd Hd'. induction before as [|x l IH]; cbn [app first_named].
  - now rewrite Hd, Hd'.
  - destruct x; try exact IH. destruct (named name (VDict d0)); [reflexivity | exact IH].
Qed.

(** [update_device_variable] on a stack where the first device of that
    name is [dev]: the device entry is replaced in place by the entry with
    the variable set. *)
Lemma update_device_variable_at
    (serial variable_name variable_type : string) (value : pyval) (self : obj)
    (dv : list (string * pyval)) (before after : list pyval)
    (dev : list (string * pyval)) :
  in_variable_types variable_type = true ->
  _devices self = VDict dv ->
  dict_get "entry" dv = Some (VList (before ++ VDict dev :: after)) ->
  forallb is_dict before = true ->
  existsb (named serial) before = false ->
  named serial (VDict dev) = true ->
  forallb is_dict (device_variable_entries (VDict dev)) = true ->
  String.eqb variable_type "pre-shared-key"
  && negb (is_dict (normalized_value variable_type value)) = false ->
  exists dev',
    update_device_variable serial variable_name variable_type value self
    = (Ok tt,
       mkObj (_templates self)
         (VDict (dict_set "entry" (VList (before ++ VDict dev' :: after)) dv))
         (_variable self)
         (dict_set "devices" RefDevices (entry self)))
    /\ named serial (VDict dev') = true
    /\ dict_mem "@name" dev' = dict_mem "@name" dev
    /\ device_variable_entries (VDict dev')
       = upsert_type variable_name
           (VDict [(variable_type, normalized_value variable_type value)])
           (device_variable_entries (VDict dev))
    /\ variable_block_normalised dev' = true.
Proof.
  intros Hallowed Hd He Hb Hnb Hdev Hdicts Hpsk.
  destruct (update_variable_in_device_upsert variable_name variable_type value dev
              Hdicts Hpsk) as (vb & Hu & Hvb).
  eexists. split; [|split; [|split; [|split]]].
  - unfold update_device_variable. rewrite Hallowed. cbn [negb].
    unfold bind at 1.
    rewrite (ensure_devices_container_kept self dv Hd)
      by (unfold dict_mem; now rewrite He).
    unfold bind at 1, read. cbn [_devices].
    unfold bind at 1, lift. cbn [getitem]. rewrite He.
    unfold bind at 1. cbn [iter].
    unfold bind at 1. rewrite (find_named_middle serial before after dev 0 Hb Hnb Hdev).
    rewrite Hu. cbn [Nat.add]. rewrite set_nth_middle.
    unfold bind, store_devices_entry, modify, lift, set_devices_obj, set_entry_key.
    cbn [_devices _templates _variable entry].
    destruct (dict_mem "devices" (entry self)); [reflexivity|].
    now rewrite dict_set_set.
  - rewrite named_set_other by discriminate.
    unfold named. rewrite ensure_device_variables_other_keys by discriminate.
    exact Hdev.
  - unfold dict_mem. rewrite dict_get_set_other by discriminate.
    now rewrite ensure_device_variables_other_keys by discriminate.
  - unfold device_variable_entries at 1. now rewrite dict_get_set_same, Hvb.
  - unfold variable_block_normalised. now rewrite dict_get_set_same, Hvb.
Qed.

Lemma value_accepted_no_raise (variable_type : string) (value : pyval) :
  value_accepted variable_type value = true ->
  String.eqb variable_type "pre-shared-key"
  && negb (is_dict (normalized_value variable_type value)) = false.
Proof.
  unfold value_accepted, normalized_value.
  destruct (String.eqb variable_type "pre-shared-key"); [|reflexivity].
  cbn [negb orb andb]. destruct (is_str value); [reflexivity|].
  cbn [orb]. now intros ->.
Qed.

Lemma named_other_name (name name' : string) (x : pyval) :
  named name x = true -> name' <> name -> named name' x = false.
Proof.
  unfold named. destruct x as [| | | | |d]; try discriminate.
  destruct (match dict_get "@name" d with Some n => n | None => VNone end);
    try discriminate.
  cbn [eq_str]. intros H Hne. apply String.eqb_eq in H. subst.
  now apply String.eqb_neq.
Qed.

Lemma named_upsert (name : string) (payload : pyval) (l : list pyval) :
  existsb (named name) (upsert_type name payload l) = true.
Proof.
  induction l as [|x l IH].
  - simpl. now rewrite String.eqb_refl.
  - cbn [upsert_type]. destruct x as [| | | | |d];
      try (cbn [existsb named orb]; exact IH).
    destruct (named name (VDict d)) eqn:Hn; cbn [existsb].
    + rewrite named_set_other by discriminate. now rewrite Hn.
    + now rewrite Hn, IH.
Qed.

(** [update_device_variable] on a stack that has a device of that name,
    in full. *)
Lemma update_device_variable_found
    (serial variable_name variable_type : string) (value : pyval) (self : obj)
    (dev : list (string * pyval)) :
  in_variable_types variable_type = true ->
  value_accepted variable_type value = true ->
  devices_list_of_dicts self = true ->
  first_named serial (devices_entries self) = Some dev ->
  forallb is_dict (device_variable_entries (VDict dev)) = true ->
  exists self' before after dev',
    update_device_variable serial variable_name variable_type value self = (Ok tt, self')
    /\ devices_entries self = before ++ VDict dev :: after
    /\ devices_entries self' = before ++ VDict dev' :: after
    /\ existsb (named serial) before = false
    /\ named serial (VDict dev') = true
    /\ dict_mem "@name" dev' = dict_mem "@name" dev
    /\ device_variable_entries (VDict dev')
       = upsert_type variable_name
           (VDict [(variable_type, normalized_value variable_type value)])
           (device_variable_entries (VDict dev))
    /\ variable_block_normalised dev' = true
    /\ devices_list_of_dicts self' = true
    /\ _variable self' = _variable self
    /\ _templates self' = _templates self.
Proof.
  intros Hallowed Hacc Hs Hfirst Hdicts.
  pose proof Hs as Hs'. unfold devices_list_of_dicts in Hs'.
  unfold devices_entries in Hfirst |- *.
  destruct (_devices self) as [| | | | |dv] eqn:Hd; try discriminate.
  destruct (dict_get "entry" dv) as [[| | | |l|]|] eqn:He; try discriminate.
  destruct (first_named_split serial l dev Hs' Hfirst) as (b & a & -> & Hb & Hnb & Hdev).
  destruct (update_device_variable_at serial variable_name variable_type value self
              dv b a dev Hallowed Hd He Hb Hnb Hdev Hdicts
              (value_accepted_no_raise _ _ Hacc))
    as (dev' & Hcall & Hnamed & Hmem & Hent & Hnorm).
  eexists. exists b, a, dev'. split; [exact Hcall|].
  cbn [_devices _variable _templates]. rewrite dict_get_set_same.
  repeat split; auto.
  unfold devices_list_of_dicts. cbn [_devices]. rewrite dict_get_set_same.
  rewrite forallb_app in Hs' |- *. apply andb_prop in Hs' as [H1 H2].
  rewrite H1. exact H2.
Qed.

Lemma update_device_variable_reads_back
    (serial variable_name variable_type : string) (value : pyval) (self : obj)
    (dev : list (string * pyval)) :
  in_variable_types variable_type = true ->
  value_accepted variable_type value = true ->
  devices_list_of_dicts self = true ->
  first_named serial (devices_entries self) = Some dev ->
  forallb is_dict (device_variable_entries (VDict dev)) = true ->
  exists self',
    update_device_variable serial variable_name variable_type value self = (Ok tt, self')
    /\ device_variable self' serial variable_name
       = Some (VDict [(variable_type, normalized_value variable_type value)])
    /\ List.length (device_variables self' serial)
       = List.length (device_variables self serial)
         + (if existsb (named variable_name) (device_variables self serial)
            then 0 else 1)
    /\ List.length (devices_entries self') = List.length (devices_entries self)
    /\ _variable self' = _variable self.
Proof.
  intros Hallowed Hacc Hs Hfirst Hdicts.
  destruct (update_device_variable_found serial variable_name variable_type value self dev
              Hallowed Hacc Hs Hfirst Hdicts)
    as (self' & b & a & dev' & Hcall & Hl & Hl' & Hnb & Hnamed & _ & Hent & _ & _ & Hv & _).
  exists self'. split; [exact Hcall|].
  assert (Hfirst' : first_named serial (devices_entries self') = Some dev').
  { rewrite Hl'. now apply first_named_middle. }
  unfold device_variable, device_variables. rewrite Hfirst, Hfirst', Hent.
  destruct (first_named_upsert variable_name
              (VDict [(variable_type, normalized_value variable_type value)])
              (device_variable_entries (VDict dev))) as (ve & Hve & Hty).
  rewrite Hve. split; [exact Hty|]. split; [apply upsert_type_length|].
  split; [|exact Hv].
  rewrite Hl, Hl', !length_app. reflexivity.
Qed.

(** X7: [update_device_variable] with an allowed type, on a stack that
    has a device of that name, returns and sets the variable: reading it
    back gives [{variable_type: value}] (a plain string for a pre-shared
    key wrapped as [{'value': str}]).  An entry of that name is
    overwritten, otherwise one entry is appended; the number of devices
    does not change. *)
Theorem update_device_variable_sets_value :
  forall (serial variable_name variable_type : string) (value : pyval) (self : obj)
         (dev : list (string * pyval)),
    In variable_type variable_types ->
    value_accepted variable_type value = true ->
    devices_list_of_dicts self = true ->
    first_named serial (devices_entries self) = Some dev ->
    forallb is_dict (device_variable_entries (VDict dev)) = true ->
    exists self',
      update_device_variable serial variable_name variable_type value self = (Ok tt, self')
      /\ device_variable self' serial variable_name
         = Some (VDict [(variable_type, normalized_value variable_type value)])
      /\ List.length (device_variables self' serial)
         = List.length (device_variables self serial)
           + (if existsb (named variable_name) (device_variables self serial)
              then 0 else 1)
      /\ List.length (devices_entries self') = List.length (devices_entries self).
Proof.
  intros serial vn vt value self dev Hallowed Hacc Hs Hfirst Hdicts.
  apply in_variable_types_In in Hallowed.
  destruct (update_device_variable_reads_back serial vn vt value self dev
              Hallowed Hacc Hs Hfirst Hdicts)
    as (self' & Hcall & Hval & Hlen & Hdevs & _).
  exists self'. repeat split; assumption.
Qed.

Lemma update_device_variable_sets_value_witness :
  exists self',
    update_device_variable "0123456789" "$psk" "pre-shared-key" (VStr "s3cret")
      stack_with_bare_device
    = (Ok tt, self')
    /\ device_variable self' "0123456789" "$psk"
       = Some (VDict [("pre-shared-key", normalized_value "pre-shared-key" (VStr "s3cret"))])
    /\ List.length (device_variables self' "0123456789")
       = List.length (device_variables stack_with_bare_device "0123456789")
         + (if existsb (named "$psk") (device_variables stack_with_bare_device "0123456789")
            then 0 else 1)
    /\ List.length (devices_entries self')
       = List.length (devices_entries stack_with_bare_device).
Proof.
  apply (update_device_variable_sets_value "0123456789" "$psk" "pre-shared-key"
           (VStr "s3cret") stack_with_bare_device [("@name", VStr "0123456789")]).
  - simpl. tauto.
  - reflexivity.
  - reflexivity.
  - reflexivity.
  - reflexivity.
Defined.

(** X8: a second [update_device_variable] for the same device and
    variable overwrites the first: the value read back is the second one
    and the device has as many variable entries as after the first
    call. *)
Theorem update_device_variable_overwrites :
  forall (serial variable_name type1 type2 : string) (value1 value2 : pyval)
         (self : obj) (dev : list (string * pyval)),
    In type1 variable_types ->
    In type2 variable_types ->
    value_accepted type1 value1 = true ->
    value_accepted type2 value2 = true ->
    devices_list_of_dicts self = true ->
    first_named serial (devices_entries self) = Some dev ->
    forallb is_dict (device_variable_entries (VDict dev)) = true ->
    exists self1 self2,
      update_device_variable serial variable_name type1 value1 self = (Ok tt, self1)
      /\ update_device_variable serial variable_name type2 value2 self1 = (Ok tt, self2)
      /\ device_variable self2 serial variable_name
         = Some (VDict [(type2, normalized_value type2 value2)])
      /\ List.length (device_variables self2 serial)
         = List.length (device_variables self1 serial).
Proof.
  intros serial vn t1 t2 v1 v2 self dev Ht1 Ht2 Hv1 Hv2 Hs Hfirst Hdicts.
  apply in_variable_types_In in Ht1.
  destruct (update_device_variable_found serial vn t1 v1 self dev
              Ht1 Hv1 Hs Hfirst Hdicts)
    as (self1 & b & a & dev1 & Hcall1 & _ & Hl1 & Hnb & Hnamed1 & _ & Hent1 & _ & Hs1 & _).
  assert (Hfirst1 : first_named serial (devices_entries self1) = Some dev1).
  { rewrite Hl1. now apply first_named_middle. }
  assert (Hdicts1 : forallb is_dict (device_variable_entries (VDict dev1)) = true).
  { rewrite Hent1. now apply upsert_type_dicts. }
  apply in_variable_types_In in Ht2.
  destruct (update_device_variable_reads_back serial vn t2 v2 self1 dev1
              Ht2 Hv2 Hs1 Hfirst1 Hdicts1)
    as (self2 & Hcall2 & Hval & Hlen & _).
  exists self1, self2. repeat split; auto.
  rewrite Hlen. unfold device_variables at 2. rewrite Hfirst1, Hent1, named_upsert.
  apply Nat.add_0_r.
Qed.

Lemma update_device_variable_overwrites_witness :
  exists self1 self2,
    update_device_variable "0123456789" "$mgmt_ip" "ip-netmask" (VStr "10.1.2.3/32")
      stack_with_bare_device
    = (Ok tt, self1)
    /\ update_device_variable "0123456789" "$mgmt_ip" "ip-range" (VStr "10.1.2.3-10.1.2.9")
         self1
       = (Ok tt, self2)
    /\ device_variable self2 "0123456789" "$mgmt_ip"
       = Some (VDict [("ip-range", normalized_value "ip-range" (VStr "10.1.2.3-10.1.2.9"))])
    /\ List.length (device_variables self2 "0123456789")
       = List.length (device_variables self1 "0123456789").
Proof.
  apply (update_device_variable_overwrites "0123456789" "$mgmt_ip" "ip-netmask" "ip-range"
           (VStr "10.1.2.3/32") (VStr "10.1.2.3-10.1.2.9")
           stack_with_bare_device [("@name", VStr "0123456789")]).
  - simpl. tauto.
  - simpl. tauto.
  - reflexivity.
  - reflexivity.
  - reflexivity.
  - reflexivity.
  - reflexivity.
Defined.

Lemma first_named_named (name : string) (l : list pyval) (d : list (string * pyval)) :
  first_named name l = Some d -> named name (VDict d) = true.
Proof.
  induction l as [|x l IH]; [discriminate|].
  cbn [first_named]. destruct x as [| | | | |dx]; try exact IH.
  destruct (named name (VDict dx)) eqn:Hn; [|exact IH].
  intros H. now inversion H; subst.
Qed.

(** ** Removing a device variable *)

Lemma remove_device_variable_at
    (serial variable_name : string) (self : obj)
    (dv : list (string * pyval)) (before after : list pyval)
    (dev var_block : list (string * pyval)) (items : list pyval) :
  _devices self = VDict dv ->
  dict_get "entry" dv = Some (VList (before ++ VDict dev :: after)) ->
  forallb is_dict before = true ->
  existsb (named serial) before = false ->
  named serial (VDict dev) = true ->
  dict_get "variable" dev = Some (VDict var_block) ->
  dict_get "entry" var_block = Some (VList items) ->
  forallb is_dict items = true ->
  (existsb (named variable_name) items = false ->
   remove_device_variable serial variable_name self = (Ok false, ensured self)
   /\ _devices (ensured self) = _devices self)
  /\ (forall b ve a,
        items = b ++ VDict ve :: a ->
        existsb (named variable_name) b = false ->
        named variable_name (VDict ve) = true ->
        remove_device_variable serial variable_name self
        = (Ok true,
           mkObj (_templates self)
             (VDict
                (dict_set "entry"
                   (VList
                      (before
                       ++ VDict (dict_set "variable"
                                   (VDict (dict_set "entry" (VList (b ++ a)) var_block)) dev)
                       :: after))
                   dv))
             (_variable self)
             (dict_set "devices" RefDevices (entry self)))).
Proof.
  intros Hd He Hb Hnb Hdev Hv Hve Hitems.
  assert (Hmem : dict_mem "entry" dv = true) by (unfold dict_mem; now rewrite He).
  assert (Hens : _devices (ensured self) = _devices self).
  { rewrite ensured_devices. unfold devices_has_entry. now rewrite Hd, Hmem. }
  assert (Hstart :
      remove_device_variable serial variable_name self
      = (match dict_get "variable" dev with
         | None => ret false
         | Some var_block0 =>
             has_entry <- lift (contains_str "entry" var_block0) ;;
             if negb has_entry then ret false
             else
               e <- lift (getitem var_block0 "entry") ;;
               var_items <- lift (iter e) ;;
               var_found <- lift (find_named variable_name var_items 0) ;;
               match var_found with
               | Some (var_idx, _) =>
                   e' <- lift (delitem e var_idx) ;;
                   store_devices_entry
                     (VList (set_nth (0 + List.length before)
                               (VDict (dict_set "variable"
                                         (set_item_key var_block0 "entry" e') dev))
                               (before ++ VDict dev :: after))) ;;
                   modify (set_entry_key "devices" RefDevices) ;;
                   ret true
               | None => ret false
               end
         end (ensured self))).
  { unfold remove_device_variable.
    unfold bind at 1. rewrite ensure_devices_container_ok.
    unfold bind at 1, read. rewrite Hens, Hd.
    unfold bind at 1, lift. cbn [getitem]. rewrite He.
    unfold bind at 1. cbn [iter].
    unfold bind at 1. rewrite (find_named_middle serial before after dev 0 Hb Hnb Hdev).
    reflexivity. }
  rewrite Hstart, Hv. clear Hstart.
  unfold bind, lift, ret. cbn [contains_str].
  replace (dict_mem "entry" var_block) with true
    by (unfold dict_mem; now rewrite Hve).
  cbn [negb getitem]. rewrite Hve. cbn [iter].
  split.
  - intros Hnone.
    rewrite (find_named_none variable_name items 0 Hitems Hnone).
    split; [reflexivity | exact Hens].
  - intros b ve a Hsplit Hnb' Hve'. subst items.
    assert (Hbd : forallb is_dict b = true).
    { rewrite forallb_app in Hitems. now apply andb_prop in Hitems as [? _]. }
    rewrite (find_named_middle variable_name b a ve 0 Hbd Hnb' Hve').
    cbn [Nat.add delitem set_item_key]. rewrite remove_nth_middle, set_nth_middle.
    unfold store_devices_entry, modify, set_devices_obj, set_entry_key.
    rewrite Hens, Hd. cbn [_devices _templates _variable entry].
    unfold ensured.
    rewrite (ensure_devices_container_kept self dv Hd Hmem).
    cbn [snd _templates _variable entry].
    destruct (dict_mem "devices" (entry self)); [reflexivity|].
    now rewrite dict_set_set.
Qed.

Lemma remove_device_variable_found
    (serial variable_name : string) (self : obj) (dev : list (string * pyval)) :
  devices_list_of_dicts self = true ->
  first_named serial (devices_entries self) = Some dev ->
  variable_block_normalised dev = true ->
  forallb is_dict (device_variable_entries (VDict dev)) = true ->
  (existsb (named variable_name) (device_variable_entries (VDict dev)) = false ->
   exists self',
     remove_device_variable serial variable_name self = (Ok false, self')
     /\ _devices self' = _devices self)
  /\ (forall b ve a,
        device_variable_entries (VDict dev) = b ++ VDict ve :: a ->
        existsb (named variable_name) b = false ->
        named variable_name (VDict ve) = true ->
        exists self',
          remove_device_variable serial variable_name self = (Ok true, self')
          /\ device_variables self' serial = b ++ a
          /\ List.length (devices_entries self') = List.length (devices_entries self)
          /\ _variable self' = _variable self).
Proof.
  intros Hs Hfirst Hnorm Hdicts.
  pose proof Hs as Hs'. unfold devices_list_of_dicts in Hs'.
  unfold devices_entries in Hfirst.
  unfold device_variables, devices_entries.
  destruct (_devices self) as [| | | | |dv] eqn:Hd; try discriminate.
  destruct (dict_get "entry" dv) as [[| | | |l|]|] eqn:He; try discriminate.
  destruct (first_named_split serial l dev Hs' Hfirst) as (bf & af & -> & Hb & Hnb & Hdev).
  unfold variable_block_normalised in Hnorm.
  unfold device_variable_entries in Hdicts |- *.
  destruct (dict_get "variable" dev) as [[| | | | |vb]|] eqn:Hv; try discriminate.
  destruct (dict_get "entry" vb) as [[| | | |items|]|] eqn:Hve; try discriminate.
  destruct (remove_device_variable_at serial variable_name self dv bf af dev vb items
              Hd He Hb Hnb Hdev Hv Hve Hdicts) as [Hfalse Htrue].
  split.
  - intros Hnone. exists (ensured self). rewrite <- Hd. now apply Hfalse.
  - intros b ve a Hsplit Hnb' Hve'. eexists. split; [apply (Htrue b ve a Hsplit Hnb' Hve')|].
    cbn [_devices _variable]. rewrite dict_get_set_same.
    rewrite first_named_middle; [|exact Hnb|].
    + rewrite !dict_get_set_same. rewrite !length_app. repeat split.
    + rewrite named_set_other by discriminate. exact Hdev.
Qed.

(** X10: on a device whose variable block is [{'entry': [...]}] with dict
    entries, [remove_device_variable] returns [False] and keeps the
    devices when no entry has the variable name, and otherwise returns
    [True] and deletes the first entry with that name and no other. *)
Theorem remove_device_variable_deletes_first_match :
  forall (serial variable_name : string) (self : obj) (dev : list (string * pyval)),
    devices_list_of_dicts self = true ->
    first_named serial (devices_entries self) = Some dev ->
    variable_block_normalised dev = true ->
    forallb is_dict (device_variable_entries (VDict dev)) = true ->
    (existsb (named variable_name) (device_variables self serial) = false ->
     exists self',
       remove_device_variable serial variable_name self = (Ok false, self')
       /\ _devices self' = _devices self)
    /\ (existsb (named variable_name) (device_variables self serial) = true ->
        exists self' before x after,
          remove_device_variable serial variable_name self = (Ok true, self')
          /\ device_variables self serial = before ++ x :: after
          /\ existsb (named variable_name) before = false
          /\ named variable_name x = true
          /\ device_variables self' serial = before ++ after
          /\ List.length (devices_entries self') = List.length (devices_entries self)).
Proof.
  intros serial vn self dev Hs Hfirst Hnorm Hdicts.
  destruct (remove_device_variable_found serial vn self dev Hs Hfirst Hnorm Hdicts)
    as [Hfalse Htrue].
  unfold device_variables at 1 2 3. rewrite Hfirst.
  split; [exact Hfalse|].
  intros Hn.
  destruct (split_at_first_named vn _ Hdicts Hn) as (b & ve & a & Hsplit & Hnb & Hve).
  destruct (Htrue b ve a Hsplit Hnb Hve) as (self' & Hcall & Hvars & Hlen & _).
  exists self', b, (VDict ve), a. repeat split; auto.
Qed.

Lemma remove_device_variable_deletes_first_match_witness :
  let dev :=
    [("@name", VStr "0002");
     ("variable",
      VDict [("entry",
              VList [VDict [("@name", VStr "$hostname");
                            ("type", VDict [("hostname", VStr "fw2")])];
                     VDict [("@name", VStr "$mgmt_ip");
                            ("type", VDict [("ip-netmask", VStr "10.0.0.2/32")])]])])] in
  let self :=
    mkObj (VDict [("member", VList [])])
      (VDict [("entry", VList [bare_device "0001"; VDict dev])])
      (VDict [("entry", VList [])])
      [("templates", RefTemplates); ("devices", RefDevices); ("variable", RefVariable)] in
  (exists self',
      remove_device_variable "0002" "$dns" self = (Ok false, self')
      /\ _devices self' = _devices self)
  /\ (exists self' before x after,
        remove_device_variable "0002" "$mgmt_ip" self = (Ok true, self')
        /\ device_variables self "0002" = before ++ x :: after
        /\ existsb (named "$mgmt_ip") before = false
        /\ named "$mgmt_ip" x = true
        /\ device_variables self' "0002" = before ++ after
        /\ List.length (devices_entries self') = List.length (devices_entries self)).
Proof.
  intros dev self. split.
  - apply (proj1 (remove_device_variable_deletes_first_match "0002" "$dns" self dev
                    eq_refl eq_refl eq_refl eq_refl)).
    reflexivity.
  - apply (proj2 (remove_device_variable_deletes_first_match "0002" "$mgmt_ip" self dev
                    eq_refl eq_refl eq_refl eq_refl)).
    reflexivity.
Defined.

(** X11: setting a variable a device did not have and removing it again
    gives back the variable entries of the device. *)
Theorem update_then_remove_device_variable_restores :
  forall (serial variable_name variable_type : string) (value : pyval) (self : obj)
         (dev : list (string * pyval)),
    In variable_type variable_types ->
    value_accepted variable_type value = true ->
    devices_list_of_dicts self = true ->
    first_named serial (devices_entries self) = Some dev ->
    forallb is_dict (device_variable_entries (VDict dev)) = true ->
    existsb (named variable_name) (device_variables self serial) = false ->
    exists self1 self2,
      update_device_variable serial variable_name variable_type value self = (Ok tt, self1)
      /\ remove_device_variable serial variable_name self1 = (Ok true, self2)
      /\ device_variables self2 serial = device_variables self serial
      /\ device_variable self2 serial variable_name = None.
Proof.
  intros serial vn vt value self dev Hallowed Hacc Hs Hfirst Hdicts Habsent.
  apply in_variable_types_In in Hallowed.
  destruct (update_device_variable_found serial vn vt value self dev
              Hallowed Hacc Hs Hfirst Hdicts)
    as (self1 & b & a & dev1 & Hcall1 & _ & Hl1 & Hnb & Hnamed1 & _ & Hent1 & Hnorm1
        & Hs1 & _).
  unfold device_variables in Habsent |- *. rewrite Hfirst in Habsent |- *.
  assert (Hfirst1 : first_named serial (devices_entries self1) = Some dev1).
  { rewrite Hl1. now apply first_named_middle. }
  assert (Hent1' : device_variable_entries (VDict dev1)
                   = device_variable_entries (VDict dev)
                     ++ VDict [("@name", VStr vn);
                               ("type", VDict [(vt, normalized_value vt value)])] :: []).
  { rewrite Hent1. rewrite <- (app_nil_r (device_variable_entries (VDict dev))) at 1.
    now rewrite (upsert_type_skip _ _ _ [] Habsent). }
  assert (Hdicts1 : forallb is_dict (device_variable_entries (VDict dev1)) = true).
  { rewrite Hent1. now apply upsert_type_dicts. }
  destruct (proj2 (remove_device_variable_found serial vn self1 dev1
                     Hs1 Hfirst1 Hnorm1 Hdicts1) _ _ _ Hent1' Habsent)
    as (self2 & Hcall2 & Hvars2 & _).
  { simpl. apply String.eqb_refl. }
  exists self1, self2. split; [exact Hcall1|]. split; [exact Hcall2|].
  unfold device_variables in Hvars2. rewrite app_nil_r in Hvars2.
  split; [exact Hvars2|].
  unfold device_variable.
  destruct (first_named serial (devices_entries self2)) as [dev2|]; [|reflexivity].
  rewrite Hvars2.
  assert (Hnone : forall l, existsb (named vn) l = false -> first_named vn l = None).
  { induction l as [|x l IH]; [reflexivity|]. cbn [existsb first_named].
    intros H. apply orb_false_elim in H as [Hx Hl]. rewrite Hx.
    destruct x; now apply IH. }
  now rewrite (Hnone _ Habsent).
Qed.

Lemma update_then_remove_device_variable_restores_witness :
  exists self1 self2,
    update_device_variable "0123456789" "$mgmt_ip" "ip-netmask" (VStr "10.1.2.3/32")
      stack_with_bare_device
    = (Ok tt, self1)
    /\ remove_device_variable "0123456789" "$mgmt_ip" self1 = (Ok true, self2)
    /\ device_variables self2 "0123456789"
       = device_variables stack_with_bare_device "0123456789"
    /\ device_variable self2 "0123456789" "$mgmt_ip" = None.
Proof.
  apply (update_then_remove_device_variable_restores "0123456789" "$mgmt_ip" "ip-netmask"
           (VStr "10.1.2.3/32") stack_with_bare_device [("@name", VStr "0123456789")]).
  - simpl. tauto.
  - reflexivity.
  - reflexivity.
  - reflexivity.
  - reflexivity.
  - reflexivity.
Defined.

(** ** Values that fit keep the devices valid *)

Lemma validate_variable_items_dicts (l : list pyval) :
  validate_variable_items l = true -> forallb is_dict l = true.
Proof.
  induction l as [|x l IH]; [reflexivity|].
  cbn [validate_variable_items forallb].
  destruct (validate_variable_item x) eqn:Hx; [|discriminate].
  intros H. rewrite (IH H). destruct x; try discriminate Hx. reflexivity.
Qed.

Lemma validate_devices_item_entries (dev : list (string * pyval)) :
  validate_devices_item (VDict dev) = true ->
  dict_mem "@name" dev = true
  /\ validate_variable_items (device_variable_entries (VDict dev)) = true.
Proof.
  unfold validate_devices_item, device_variable_entries.
  destruct (dict_mem "@name" dev); cbn [negb]; [|discriminate].
  destruct (dict_get "variable" dev) as [[| | | | |vb]|]; try discriminate; auto.
  destruct (dict_get "entry" vb) as [[| | | |l|]|] eqn:He; auto.
  cbn [none_or_empty_as_list truthy].
  destruct l as [|x l]; [auto|].
  rewrite (validate_variable_structure_list vb (x :: l) He). auto.
Qed.

Lemma validate_devices_item_normalised
    (dev var_block : list (string * pyval)) (entries : list pyval) :
  dict_mem "@name" dev = true ->
  dict_get "variable" dev = Some (VDict var_block) ->
  dict_get "entry" var_block = Some (VList entries) ->
  validate_variable_items entries = true ->
  validate_devices_item (VDict dev) = true.
Proof.
  intros Hn Hv He Hvalid. unfold validate_devices_item.
  rewrite Hn, Hv, He. cbn [negb none_or_empty_as_list truthy].
  destruct entries as [|x l]; [reflexivity|].
  now rewrite (validate_variable_structure_list var_block (x :: l) He).
Qed.

Lemma validate_upsert_type (name variable_type : string) (value : pyval) (l : list pyval) :
  in_variable_types variable_type = true ->
  value_fits variable_type value = true ->
  validate_variable_items l = true ->
  validate_variable_items (upsert_type name (VDict [(variable_type, value)]) l) = true.
Proof.
  intros Hallowed Hfits. induction l as [|x l IH].
  - intros _. cbn [upsert_type validate_variable_items].
    now rewrite (validate_new_variable_entry name variable_type value Hallowed), Hfits.
  - cbn [validate_variable_items upsert_type].
    destruct (validate_variable_item x) eqn:Hx; [|discriminate].
    intros Hl. destruct x as [| | | | |d]; try discriminate Hx.
    destruct (named name (VDict d)).
    + cbn [validate_variable_items]. rewrite Hl.
      destruct (validate_variable_item_spec _ Hx) as (it & _ & _ & Hit & Hn & _).
      inversion Hit; subst it.
      unfold validate_variable_item, dict_mem.
      rewrite dict_get_set_same, dict_get_set_other by discriminate.
      unfold dict_mem in Hn.
      destruct (dict_get "@name" d); [|discriminate].
      cbn [negb orb List.length Nat.eqb]. rewrite Hallowed. cbn [negb].
      unfold value_fits in Hfits. now rewrite Hfits.
    + cbn [validate_variable_items]. rewrite Hx. now apply IH.
Qed.

Lemma normalized_value_idempotent (variable_type : string) (value : pyval) :
  normalized_value variable_type (normalized_value variable_type value)
  = normalized_value variable_type value.
Proof.
  unfold normalized_value.
  destruct (String.eqb variable_type "pre-shared-key"); [|reflexivity].
  cbn [andb]. now destruct (is_str value) eqn:Hs; cbn [is_str]; rewrite ?Hs.
Qed.

Lemma value_fits_accepted (variable_type : string) (value : pyval) :
  value_fits variable_type (normalized_value variable_type value) = true ->
  value_accepted variable_type value = true.
Proof.
  unfold value_fits, value_accepted, normalized_value.
  destruct (String.eqb variable_type "pre-shared-key"); [|reflexivity].
  cbn [negb orb andb]. destruct (is_str value); [reflexivity|].
  cbn [orb]. now destruct value.
Qed.

Lemma first_named_exists (name : string) (l : list pyval) :
  existsb (named name) l = true -> exists d, first_named name l = Some d.
Proof.
  induction l as [|x l IH]; [discriminate|].
  cbn [existsb first_named]. destruct x as [| | | | |d]; try exact IH.
  destruct (named name (VDict d)); [now eexists | exact IH].
Qed.

(** [update_device_variable], with a value that fits the type, on a valid
    devices structure. *)
Lemma update_device_variable_keeps_valid_aux
    (serial variable_name variable_type : string) (value : pyval) (self : obj)
    (dev : list (string * pyval)) :
  in_variable_types variable_type = true ->
  value_fits variable_type (normalized_value variable_type value) = true ->
  validate_devices_structure (_devices self) = true ->
  first_named serial (devices_entries self) = Some dev ->
  exists self',
    update_device_variable serial variable_name variable_type value self = (Ok tt, self')
    /\ validate_devices_structure (_devices self') = true
    /\ device_variable self' serial variable_name
       = Some (VDict [(variable_type, normalized_value variable_type value)])
    /\ _variable self' = _variable self.
Proof.
  intros Hallowed Hfits Hvalid Hfirst.
  pose proof (validate_devices_structure_list_of_dicts self Hvalid) as Hs.
  destruct (validate_devices_structure_inv _ Hvalid) as (dv & l & Hd & He & Hl).
  assert (Hentries : devices_entries self = l).
  { unfold devices_entries. now rewrite Hd, He. }
  assert (Hdev : validate_devices_item (VDict dev) = true).
  { rewrite Hentries in Hfirst.
    destruct (first_named_split serial l dev (validate_devices_items_dicts l Hl) Hfirst)
      as (b & a & -> & _).
    rewrite validate_devices_items_app in Hl. apply andb_prop in Hl as [_ Hl].
    cbn [validate_devices_items] in Hl.
    now destruct (validate_devices_item (VDict dev)). }
  destruct (validate_devices_item_entries dev Hdev) as [Hname Hitems].
  pose proof (validate_variable_items_dicts _ Hitems) as Hdicts.
  destruct (update_device_variable_found serial variable_name variable_type value self dev
              Hallowed (value_fits_accepted _ _ Hfits) Hs Hfirst Hdicts)
    as (self' & b & a & dev' & Hcall & Hl0 & Hl' & Hnb & Hnamed & Hmem & Hent & Hnorm
        & Hs' & Hv & _).
  exists self'. split; [exact Hcall|].
  pose proof (proj2 (update_device_variable_ensures_first
                       serial variable_name variable_type value self Hallowed)) as Hhas.
  rewrite Hcall in Hhas. cbn [snd] in Hhas.
  assert (Hvalid' : validate_devices_items (devices_entries self') = true).
  { rewrite Hl'. rewrite Hentries in Hl0. rewrite Hl0 in Hl.
    rewrite validate_devices_items_app in Hl |- *.
    apply andb_prop in Hl as [Hlb Hla]. rewrite Hlb.
    cbn [validate_devices_items andb] in Hla |- *.
    rewrite Hdev in Hla.
    unfold variable_block_normalised in Hnorm. unfold device_variable_entries in Hent.
    destruct (dict_get "variable" dev') as [[| | | | |vb']|] eqn:Hv'; try discriminate.
    destruct (dict_get "entry" vb') as [[| | | |es|]|] eqn:He'; try discriminate.
    rewrite (validate_devices_item_normalised dev' vb' es); auto.
    - now rewrite Hmem.
    - rewrite Hent. now apply validate_upsert_type. }
  split; [|split; [|exact Hv]].
  - unfold devices_has_entry, dict_mem in Hhas. unfold devices_entries in Hvalid'.
    unfold validate_devices_structure. unfold devices_list_of_dicts in Hs'.
    destruct (_devices self') as [| | | | |dv']; try discriminate.
    destruct (dict_get "entry" dv') as [[| | | |l'|]|]; try discriminate.
    exact Hvalid'.
  - unfold device_variable. rewrite Hl', (first_named_middle serial b a dev' Hnb Hnamed).
    rewrite Hent.
    destruct (first_named_upsert variable_name
                (VDict [(variable_type, normalized_value variable_type value)])
                (device_variable_entries (VDict dev))) as (ve & Hve & Hty).
    now rewrite Hve.
Qed.

(** X12: [update_device_variable] keeps a devices structure that
    [validate_devices_structure] accepts acceptable when the value fits
    the type (a string; for ['pre-shared-key'] a string or a dict with
    ['key'] or ['value'] strings), and the value can be read back. *)
Theorem update_device_variable_keeps_devices_valid :
  forall (serial variable_name variable_type : string) (value : pyval) (self : obj),
    In variable_type variable_types ->
    value_fits variable_type (normalized_value variable_type value) = true ->
    validate_devices_structure (_devices self) = true ->
    existsb (named serial) (devices_entries self) = true ->
    exists self',
      update_device_variable serial variable_name variable_type value self = (Ok tt, self')
      /\ validate_devices_structure (_devices self') = true
      /\ device_variable self' serial variable_name
         = Some (VDict [(variable_type, normalized_value variable_type value)]).
Proof.
  intros serial vn vt value self Hallowed Hfits Hvalid Hex.
  apply in_variable_types_In in Hallowed.
  destruct (first_named_exists serial _ Hex) as (dev & Hfirst).
  destruct (update_device_variable_keeps_valid_aux serial vn vt value self dev
              Hallowed Hfits Hvalid Hfirst)
    as (self' & Hcall & Hv' & Hval & _).
  exists self'. repeat split; assumption.
Qed.

Lemma update_device_variable_keeps_devices_valid_witness :
  exists self',
    update_device_variable "0123456789" "$psk" "pre-shared-key" (VStr "s3cret")
      stack_with_bare_device
    = (Ok tt, self')
    /\ validate_devices_structure (_devices self') = true
    /\ device_variable self' "0123456789" "$psk"
       = Some (VDict [("pre-shared-key", normalized_value "pre-shared-key" (VStr "s3cret"))]).
Proof.
  apply (update_device_variable_keeps_devices_valid "0123456789" "$psk" "pre-shared-key"
           (VStr "s3cret") stack_with_bare_device).
  - simpl. tauto.
  - reflexivity.
  - reflexivity.
  - reflexivity.
Defined.

Lemma value_fits_string (variable_type s : string) :
  value_fits variable_type (normalized_value variable_type (VStr s)) = true.
Proof.
  unfold value_fits, normalized_value.
  destruct (String.eqb variable_type "pre-shared-key"); reflexivity.
Qed.

Lemma in_variable_types_nonempty (t : string) :
  in_variable_types t = true -> t <> "".
Proof. intros H ->. discriminate H. Qed.

(** X13: [set_device_variable_value] with a string value, for a variable
    whose inferred type is one of [variable_types], on a valid devices
    structure: when the device exists or may be created the call returns,
    the devices structure is still one [validate_devices_structure]
    accepts, and the value can be read back under the inferred tag (for a
    pre-shared key as [{'value': str}]). *)
Theorem set_device_variable_value_string :
  forall (serial variable_name s type_key : string) (create : bool) (self : obj),
    validate_devices_structure (_devices self) = true ->
    _infer_variable_type self variable_name = Ok (Some type_key) ->
    In type_key variable_types ->
    create = true \/ existsb (named serial) (devices_entries self) = true ->
    exists self',
      set_device_variable_value serial variable_name (VStr s) create self = (Ok tt, self')
      /\ validate_devices_structure (_devices self') = true
      /\ device_variable self' serial variable_name
         = Some (VDict [(type_key, normalized_value type_key (VStr s))]).
Proof.
  intros serial vn s tk create self Hvalid Hinfer Hallowed Hcase.
  apply in_variable_types_In in Hallowed.
  pose proof (in_variable_types_nonempty tk Hallowed) as Hne.
  destruct (validate_devices_structure_inv _ Hvalid) as (dv & l & Hd & He & Hl).
  assert (Hentries : devices_entries self = l).
  { unfold devices_entries. now rewrite Hd, He. }
  unfold set_device_variable_value.
  unfold bind at 1, read. unfold bind at 1, lift. rewrite Hinfer.
  cbn [truthy]. destruct (String.eqb_spec tk ""); [contradiction|]. cbn [negb].
  unfold bind at 1, read. unfold bind at 1, lift.
  rewrite Hd. cbn [get_default]. rewrite He. cbn [iter].
  unfold bind at 1, lift. rewrite device_exists_named.
  fold (normalized_value tk (VStr s)).
  assert (Hfits : value_fits tk (normalized_value tk (normalized_value tk (VStr s))) = true).
  { rewrite normalized_value_idempotent. apply value_fits_string. }
  destruct (existsb (named serial) l) eqn:Hex.
  - cbn [negb andb]. unfold bind at 1, ret at 1.
    destruct (first_named_exists serial l Hex) as (dev & Hfirst).
    rewrite <- Hentries in Hfirst.
    destruct (update_device_variable_keeps_valid_aux serial vn tk
                (normalized_value tk (VStr s)) self dev Hallowed Hfits Hvalid Hfirst)
      as (self' & Hcall & Hv' & Hval & Hvar).
    exists self'. rewrite normalized_value_idempotent in Hval. auto.
  - destruct Hcase as [-> | Hex']; [|rewrite Hentries in Hex'; congruence].
    cbn [negb andb]. unfold bind at 1. unfold bind at 1.
    rewrite (add_device_to_list serial self dv l Hd He). unfold ret at 1.
    set (self1 := mkObj _ _ _ _).
    assert (Hvalid1 : validate_devices_structure (_devices self1) = true).
    { unfold self1. cbn [_devices]. unfold validate_devices_structure.
      rewrite dict_get_set_same, validate_devices_items_app, Hl. reflexivity. }
    assert (Hex1 : existsb (named serial) (devices_entries self1) = true).
    { unfold self1, devices_entries. cbn [_devices]. rewrite dict_get_set_same.
      rewrite existsb_app. simpl. rewrite String.eqb_refl. apply orb_true_r. }
    destruct (first_named_exists serial _ Hex1) as (dev & Hfirst).
    destruct (update_device_variable_keeps_valid_aux serial vn tk
                (normalized_value tk (VStr s)) self1 dev Hallowed Hfits Hvalid1 Hfirst)
      as (self' & Hcall & Hv' & Hval & Hvar).
    exists self'. rewrite normalized_value_idempotent in Hval. auto.
Qed.

Lemma set_device_variable_value_string_witness :
  exists self',
    set_device_variable_value "9876543210" "$mgmt_ip" (VStr "10.1.2.3/32") true
      stack_with_bare_device
    = (Ok tt, self')
    /\ validate_devices_structure (_devices self') = true
    /\ device_variable self' "9876543210" "$mgmt_ip"
       = Some (VDict [("ip-netmask", normalized_value "ip-netmask" (VStr "10.1.2.3/32"))]).
Proof.
  apply (set_device_variable_value_string "9876543210" "$mgmt_ip" "10.1.2.3/32"
           "ip-netmask" true stack_with_bare_device).
  - reflexivity.
  - reflexivity.
  - simpl. tauto.
  - left. reflexivity.
Defined.

(** ** What [self.entry] holds after a mutation *)

Section OnReturn.
Context {S : Type}.

Lemma on_return_bind {A B} (m : M S A) (k : A -> M S B) (R : B -> S -> Prop) :
  (forall a, on_return (k a) R) -> on_return (bind m k) R.
Proof.
  intros Hk self. unfold bind. destruct (m self) as [[a|e] self']; [|exact I].
  apply Hk.
Qed.

Lemma on_return_ret {A} (a : A) (R : A -> S -> Prop) :
  (forall self, R a self) -> on_return (ret a) R.
Proof. intros H self. apply H. Qed.

Lemma on_return_raise {A} (e : exn) (R : A -> S -> Prop) : on_return (raise e) R.
Proof. intros self. exact I. Qed.
End OnReturn.

Lemma entry_view_get (self : obj) (k : string) :
  dict_get k (entry_view self)
  = match dict_get k (entry self) with
    | Some s => Some (resolve self s)
    | None => None
    end.
Proof.
  unfold entry_view. induction (entry self) as [|[k' s] e IH]; [reflexivity|].
  cbn [map dict_get fst snd]. destruct (String.eqb k' k); [reflexivity | exact IH].
Qed.

Lemma entry_shares_after_set (k : string) (s : slot) (self : obj) :
  entry_shares k s (set_entry_key k s self).
Proof.
  unfold entry_shares. rewrite entry_view_get.
  unfold set_entry_key. cbn [entry]. rewrite dict_get_set_same.
  split; [reflexivity|]. now destruct s.
Qed.

(** A method that ends with [self.entry[k] = self.<attribute>] and
    [return r]. *)
Lemma on_return_sync {A} (k : string) (s : slot) (r : A) (R : A -> Prop) :
  on_return (modify (set_entry_key k s) ;; ret r)
    (fun a self => R a -> entry_shares k s self).
Proof. intros self. cbn. intros _. apply entry_shares_after_set. Qed.

Ltac on_return_steps :=
  repeat first
    [ apply on_return_sync
    | apply on_return_raise
    | apply on_return_ret; intros; discriminate
    | apply on_return_bind; intro
    | match goal with
      | |- on_return (match ?x with _ => _ end) _ => destruct x
      | |- on_return (if ?b then _ else _) _ => destruct b
      | |- on_return (let '(_, _) := ?x in _) _ => destruct x
      end ].

(** X14: whenever [add_device], [remove_device] or
    [remove_device_variable] returns [True], [self.entry['devices']] is
    the object [self.devices] itself, so the payload built from
    [self.entry] shows the mutation; this needs no assumption on the state
    before the call. *)
Theorem successful_mutation_shares_devices :
  forall (name variable_name : string) (variables : pyval),
    on_return (add_device name variables)
      (fun r self => r = true -> entry_shares "devices" RefDevices self)
    /\ on_return (remove_device name)
         (fun r self => r = true -> entry_shares "devices" RefDevices self)
    /\ on_return (remove_device_variable name variable_name)
         (fun r self => r = true -> entry_shares "devices" RefDevices self).
Proof.
  intros name vn variables. split; [|split].
  - unfold add_device. cbv zeta. on_return_steps.
  - unfold remove_device. on_return_steps.
  - unfold remove_device_variable. on_return_steps.
Qed.

Lemma successful_mutation_shares_devices_witness :
  entry_shares "devices" RefDevices
    (snd (add_device "9876543210" VNone
            (mkObj (VDict [("member", VList [])]) VNone (VDict [("entry", VList [])])
               [("devices", Own (VDict [("entry", VList [bare_device "0001"])]))]))).
Proof.
  exact (proj1 (successful_mutation_shares_devices "9876543210" "$mgmt_ip" VNone)
           (mkObj (VDict [("member", VList [])]) VNone (VDict [("entry", VList [])])
              [("devices", Own (VDict [("entry", VList [bare_device "0001"])]))])
           eq_refl).
Defined.

(** ** Template members *)

Import TemplateStacksMore.

(** X15: [add_template_member] on templates that
    [validate_templates_structure] accepts returns, puts the member last
    in [templates['member']] whether or not it is there already, keeps
    the templates acceptable and leaves [self.entry['templates']] sharing
    them; devices and variables are untouched. *)
Theorem add_template_member_appends :
  forall (member : pyval) (self : obj),
    validate_templates_structure (_templates self) = true ->
    exists self',
      add_template_member member self = (Ok tt, self')
      /\ template_members self' = template_members self ++ [member]
      /\ validate_templates_structure (_templates self') = true
      /\ entry_shares "templates" RefTemplates self'
      /\ _devices self' = _devices self
      /\ _variable self' = _variable self.
Proof.
  intros member self Hvalid.
  unfold validate_templates_structure in Hvalid. unfold template_members.
  destruct (_templates self) as [| | | | |d] eqn:Ht; try discriminate.
  destruct (dict_get "member" d) as [[| | | |l|]|] eqn:Hm; try discriminate.
  eexists. split.
  - unfold add_template_member, bind, read, lift, modify.
    rewrite Ht. cbn [getitem]. rewrite Hm. cbn [append]. reflexivity.
  - unfold set_templates_obj, set_entry_key.
    cbn [_templates _devices _variable entry].
    unfold validate_templates_structure. rewrite dict_get_set_same.
    repeat split.
    + cbn [entry]. apply dict_get_set_same.
    + rewrite entry_view_get. cbn [entry]. now rewrite dict_get_set_same.
Qed.

Lemma add_template_member_appends_witness :
  let self :=
    mkObj (VDict [("member", VList [VStr "Base-Template"])])
      (VDict [("entry", VList [])]) (VDict [("entry", VList [])])
      [("templates", RefTemplates); ("devices", RefDevices); ("variable", RefVariable)] in
  exists self',
    add_template_member (VStr "Base-Template") self = (Ok tt, self')
    /\ template_members self' = template_members self ++ [VStr "Base-Template"]
    /\ validate_templates_structure (_templates self') = true
    /\ entry_shares "templates" RefTemplates self'
    /\ _devices self' = _devices self
    /\ _variable self' = _variable self.
Proof.
  intros self.
  apply (add_template_member_appends (VStr "Base-Template") self). reflexivity.
Defined.

(** ** Settings of a template *)

(** X16: whatever is assigned to [Templates.settings], the object is
    left unchanged or ends with [_settings] a dict that has
    ['default-vsys'] and with the same dict under [entry['settings']];
    when the assignment raises, the object is unchanged. *)
Theorem settings_setter_postcondition :
  forall (value : pyval) (self : Templates.obj),
    let '(r, self') := Templates.settings_setter value self in
    (self' = self
     \/ exists d,
          Templates._settings self' = Some (VDict d)
          /\ dict_mem "default-vsys" d = true
          /\ dict_get "settings" (Templates.entry self') = Some (VDict d))
    /\ (forall e, r = Raise e -> self' = self).
Proof.
  intros value self. unfold Templates.settings_setter.
  destruct value as [| | |s| |d]; cbn; try (split; [now left | reflexivity]).
  - destruct (String.prefix "vsys" s); cbn.
    + split; [|discriminate]. right. eexists. split; [reflexivity|].
      split; [reflexivity | apply dict_get_set_same].
    + split; [now left | reflexivity].
  - destruct (dict_mem "default-vsys" d) eqn:Hm; cbn.
    + split; [|discriminate]. right. exists d. split; [reflexivity|].
      split; [exact Hm | apply dict_get_set_same].
    + split; [now left | reflexivity].
Qed.

(** X17: a string that starts with ['vsys'] assigned to
    [Templates.settings] is stored as [{'default-vsys': value}], in
    [_settings] and under [entry['settings']]; assigning the stored dict
    again changes nothing. *)
Theorem settings_setter_vsys_round_trip :
  forall (s : string) (self : Templates.obj),
    String.prefix "vsys" s = true ->
    exists self',
      Templates.settings_setter (VStr s) self = (Ok tt, self')
      /\ Templates._settings self' = Some (VDict [("default-vsys", VStr s)])
      /\ dict_get "settings" (Templates.entry self')
         = Some (VDict [("default-vsys", VStr s)])
      /\ Templates.settings_setter (VDict [("default-vsys", VStr s)]) self'
         = (Ok tt, self').
Proof.
  intros s self Hp. eexists. split.
  - unfold Templates.settings_setter. rewrite Hp. reflexivity.
  - unfold Templates.settings_setter, Templates.assign, modify.
    cbn [Templates._settings Templates.entry dict_mem dict_get String.eqb
         Ascii.eqb Bool.eqb].
    rewrite dict_get_set_same, dict_set_set. repeat split.
Qed.

Lemma settings_setter_vsys_round_trip_witness :
  exists self',
    Templates.settings_setter (VStr "vsys2") (Templates.mkObj None []) = (Ok tt, self')
    /\ Templates._settings self' = Some (VDict [("default-vsys", VStr "vsys2")])
    /\ dict_get "settings" (Templates.entry self')
       = Some (VDict [("default-vsys", VStr "vsys2")])
    /\ Templates.settings_setter (VDict [("default-vsys", VStr "vsys2")]) self'
       = (Ok tt, self').
Proof.
  apply (settings_setter_vsys_round_trip "vsys2" (Templates.mkObj None [])).
  reflexivity.
Defined.

(** ** Devices of a device group *)

(** X18: [DeviceGroups.add_device] with a non-empty serial, on an entry
    whose ['devices'] is [{'entry': [...]}], returns and appends
    [{'@name': serial}] without looking for the serial in the list: two
    calls leave two entries.  Nothing is logged. *)
Theorem group_add_device_appends :
  forall (serial : pyval) (self : DeviceGroups.obj),
    truthy serial = true ->
    group_devices_ready self = true ->
    exists self1 self2,
      DeviceGroupsMore.add_device serial self = (Ok tt, self1)
      /\ DeviceGroupsMore.add_device serial self1 = (Ok tt, self2)
      /\ group_devices self1 = group_devices self ++ [VDict [("@name", serial)]]
      /\ group_devices self2
         = group_devices self ++ [VDict [("@name", serial)]; VDict [("@name", serial)]]
      /\ DeviceGroups.log self2 = DeviceGroups.log self.
Proof.
  assert (Hone : forall serial self,
            truthy serial = true ->
            group_devices_ready self = true ->
            exists self1,
              DeviceGroupsMore.add_device serial self = (Ok tt, self1)
              /\ group_devices self1 = group_devices self ++ [VDict [("@name", serial)]]
              /\ group_devices_ready self1 = true
              /\ DeviceGroups.log self1 = DeviceGroups.log self).
  { intros serial self Hs Hr. unfold group_devices_ready in Hr. unfold group_devices.
    unfold DeviceGroupsMore.add_device. rewrite Hs. cbn [negb].
    unfold bind at 1, read.
    destruct (dict_get "devices" (DeviceGroups.entry self)) as [[| | | | |d]|] eqn:Hd;
      try discriminate.
    destruct (dict_get "entry" d) as [[| | | |l|]|] eqn:He; try discriminate.
    unfold bind, lift, DeviceGroups.set_entry_key, modify. cbn [contains_str].
    unfold dict_mem. rewrite He. cbn [negb getitem]. rewrite He.
    cbn [is_list negb append set_item_key].
    eexists. split; [reflexivity|].
    unfold group_devices_ready. cbn [DeviceGroups.entry DeviceGroups.log].
    rewrite !dict_get_set_same. repeat split. }
  intros serial self Hs Hr.
  destruct (Hone serial self Hs Hr) as (self1 & H1 & Hg1 & Hr1 & Hl1).
  destruct (Hone serial self1 Hs Hr1) as (self2 & H2 & Hg2 & _ & Hl2).
  exists self1, self2. repeat split; auto.
  - now rewrite Hg2, Hg1, <- app_assoc.
  - now rewrite Hl2.
Qed.

Lemma group_add_device_appends_witness :
  let self := DeviceGroups.mkObj [("devices", VDict [("entry", VList [])])] [] in
  exists self1 self2,
    DeviceGroupsMore.add_device (VStr "0123456789") self = (Ok tt, self1)
    /\ DeviceGroupsMore.add_device (VStr "0123456789") self1 = (Ok tt, self2)
    /\ group_devices self1 = group_devices self ++ [VDict [("@name", VStr "0123456789")]]
    /\ group_devices self2
       = group_devices self
         ++ [VDict [("@name", VStr "0123456789")]; VDict [("@name", VStr "0123456789")]]
    /\ DeviceGroups.log self2 = DeviceGroups.log self.
Proof.
  intros self.
  apply (group_add_device_appends (VStr "0123456789") self); reflexivity.
Defined.

(** X19: [DeviceGroups.add_device] does not raise the [AttributeError]
    its docstring announces.  With a non-empty serial, when
    [entry['devices']] is missing, or is a dict without ['entry'] or with
    an ['entry'] that is no list, the call returns, leaves [entry] as it
    was and logs one error record. *)
Theorem group_add_device_swallows_attribute_error :
  forall (serial : pyval) (self : DeviceGroups.obj),
    truthy serial = true ->
    group_devices_ready self = false ->
    match dict_get "devices" (DeviceGroups.entry self) with
    | None | Some (VDict _) => True
    | Some _ => False
    end ->
    DeviceGroupsMore.add_device serial self
    = (Ok tt,
       DeviceGroups.mkObj (DeviceGroups.entry self)
         (DeviceGroups.log self
          ++ [(DeviceGroups.Error, DeviceGroupsMore.add_device_failure)])).
Proof.
  intros serial self Hs Hr Hshape. unfold group_devices_ready in Hr.
  unfold DeviceGroupsMore.add_device. rewrite Hs. cbn [negb].
  unfold bind at 1, read.
  destruct (dict_get "devices" (DeviceGroups.entry self)) as [[| | | | |d]|] eqn:Hd;
    try contradiction; [|reflexivity].
  unfold bind, lift, DeviceGroupsMore.logger_error, modify. cbn [contains_str].
  unfold dict_mem.
  destruct (dict_get "entry" d) as [[| | | |l|]|] eqn:He; try discriminate;
    cbn [negb getitem]; rewrite ?He; reflexivity.
Qed.

Lemma group_add_device_swallows_attribute_error_witness :
  DeviceGroupsMore.add_device (VStr "0123456789")
    (DeviceGroups.mkObj [("devices", VDict [("entry", VNone)])] [])
  = (Ok tt,
     DeviceGroups.mkObj [("devices", VDict [("entry", VNone)])]
       [(DeviceGroups.Error, DeviceGroupsMore.add_device_failure)]).
Proof.
  apply (group_add_device_swallows_attribute_error (VStr "0123456789")
           (DeviceGroups.mkObj [("devices", VDict [("entry", VNone)])] [])).
  - reflexivity.
  - reflexivity.
  - exact I.
Defined.

(** ** Target software version of a device group *)

(** X20: assigning a version string to [to_sw_version] stores it in the
    attribute and under [entry['to-sw-version']]; assigning a falsy value
    afterwards resets the attribute to the string ['None'] but leaves the
    old version in [entry]. *)
Theorem to_sw_version_reset_keeps_entry :
  forall (s : string) (val : pyval) (self : DeviceGroupsMore.versioned),
    s <> "" ->
    truthy val = false ->
    exists self1 self2,
      DeviceGroupsMore.to_sw_version_setter (VStr s) self = (Ok tt, self1)
      /\ DeviceGroupsMore._to_sw_version self1 = VStr s
      /\ dict_get "to-sw-version" (DeviceGroupsMore.v_entry self1) = Some (VStr s)
      /\ DeviceGroupsMore.to_sw_version_setter val self1 = (Ok tt, self2)
      /\ DeviceGroupsMore._to_sw_version self2 = VStr "None"
      /\ dict_get "to-sw-version" (DeviceGroupsMore.v_entry self2) = Some (VStr s).
Proof.
  intros s val self Hne Hval.
  unfold DeviceGroupsMore.to_sw_version_setter. rewrite Hval. cbn [truthy is_str negb].
  destruct (String.eqb_spec s ""); [contradiction|]. cbn [negb].
  eexists. eexists. unfold modify.
  split; [reflexivity|]. split; [reflexivity|].
  cbn [DeviceGroupsMore._to_sw_version DeviceGroupsMore.v_entry snd].
  split; [apply dict_get_set_same|]. split; [reflexivity|].
  split; [reflexivity | apply dict_get_set_same].
Qed.

Lemma to_sw_version_reset_keeps_entry_witness :
  let self := DeviceGroupsMore.mkVersioned (VStr "None") [] in
  exists self1 self2,
    DeviceGroupsMore.to_sw_version_setter (VStr "10.2.4") self = (Ok tt, self1)
    /\ DeviceGroupsMore._to_sw_version self1 = VStr "10.2.4"
    /\ dict_get "to-sw-version" (DeviceGroupsMore.v_entry self1) = Some (VStr "10.2.4")
    /\ DeviceGroupsMore.to_sw_version_setter VNone self1 = (Ok tt, self2)
    /\ DeviceGroupsMore._to_sw_version self2 = VStr "None"
    /\ dict_get "to-sw-version" (DeviceGroupsMore.v_entry self2) = Some (VStr "10.2.4").
Proof.
  intros self.
  apply (to_sw_version_reset_keeps_entry "10.2.4" VNone self).
  - discriminate.
  - reflexivity.
Defined.

(** ** Calls that raise *)

Lemma update_variable_in_device_refused
    (variable_name : string) (value : pyval) (dev : list (string * pyval)) :
  forallb is_dict (device_variable_entries (VDict dev)) = true ->
  is_str value = false ->
  is_dict value = false ->
  update_variable_in_device variable_name "pre-shared-key" value dev
  = (Raise ValueError, _ensure_device_variables_container dev).
Proof.
  intros Hdicts Hs Hd.
  rewrite <- ensure_device_variables_entries in Hdicts.
  pose proof (proj1 (ensure_device_variables_container_spec dev)) as Hn.
  unfold update_variable_in_device.
  set (dev0 := _ensure_device_variables_container dev) in *.
  unfold variable_block_normalised in Hn. unfold device_variable_entries in Hdicts.
  destruct (dict_get "variable" dev0) as [[| | | | |vb]|] eqn:Hv; try discriminate.
  destruct (dict_get "entry" vb) as [[| | | |items|]|] eqn:He; try discriminate.
  cbn [get_default]. rewrite He, Hs. cbn [iter obind String.eqb Ascii.eqb Bool.eqb andb].
  rewrite Hd. cbn [negb].
  destruct (find_named_cases variable_name items 0 Hdicts)
    as [[_ Hfind] | (b & d & a & _ & _ & _ & _ & Hfind)];
    rewrite Hfind; reflexivity.
Qed.

(** X21: [update_device_variable] for a pre-shared key with a value that
    is neither a string nor a dict raises [ValueError], but not before the
    variable block of the device was normalised: the device entry found
    afterwards has a block [{'entry': [...]}] (a new, empty one when it
    had none) with the variable entries it had, so the call can change
    the devices although it fails. *)
Theorem update_device_variable_refused_after_normalising :
  forall (serial variable_name : string) (value : pyval) (self : obj)
         (dev : list (string * pyval)),
    is_str value = false ->
    is_dict value = false ->
    devices_list_of_dicts self = true ->
    first_named serial (devices_entries self) = Some dev ->
    forallb is_dict (device_variable_entries (VDict dev)) = true ->
    exists self',
      update_device_variable serial variable_name "pre-shared-key" value self
      = (Raise ValueError, self')
      /\ first_named serial (devices_entries self')
         = Some (_ensure_device_variables_container dev)
      /\ variable_block_normalised (_ensure_device_variables_container dev) = true
      /\ device_variables self' serial = device_variables self serial
      /\ List.length (devices_entries self') = List.length (devices_entries self).
Proof.
  intros serial vn value self dev Hstr Hdict Hs Hfirst Hdicts.
  pose proof Hs as Hs'. unfold devices_list_of_dicts in Hs'.
  unfold device_variables. rewrite Hfirst.
  unfold devices_entries in Hfirst |- *.
  destruct (_devices self) as [| | | | |dv] eqn:Hd; try discriminate.
  destruct (dict_get "entry" dv) as [[| | | |l|]|] eqn:He; try discriminate.
  destruct (first_named_split serial l dev Hs' Hfirst) as (b & a & -> & Hb & Hnb & Hdev).
  assert (Hnamed : named serial (VDict (_ensure_device_variables_container dev)) = true).
  { unfold named. rewrite ensure_device_variables_other_keys by discriminate.
    exact Hdev. }
  eexists. split.
  - unfold update_device_variable.
    cbn [in_variable_types variable_types existsb String.eqb Ascii.eqb Bool.eqb orb negb].
    unfold bind at 1.
    rewrite (ensure_devices_container_kept self dv Hd)
      by (unfold dict_mem; now rewrite He).
    unfold bind at 1, read. cbn [_devices].
    unfold bind at 1, lift. cbn [getitem]. rewrite He.
    unfold bind at 1. cbn [iter].
    unfold bind at 1. rewrite (find_named_middle serial b a dev 0 Hb Hnb Hdev).
    rewrite (update_variable_in_device_refused vn value dev Hdicts Hstr Hdict).
    cbn [Nat.add]. rewrite set_nth_middle.
    unfold bind, store_devices_entry, modify, lift, set_devices_obj.
    cbn [_devices _templates _variable entry]. reflexivity.
  - cbn [_devices]. rewrite dict_get_set_same.
    rewrite (first_named_middle serial b a _ Hnb Hnamed).
    split; [reflexivity|].
    split; [apply ensure_device_variables_container_spec|].
    split; [apply ensure_device_variables_entries|].
    now rewrite !length_app.
Qed.

Lemma update_device_variable_refused_after_normalising_witness :
  exists self',
    update_device_variable "0123456789" "$psk" "pre-shared-key" (VInt 42)
      stack_with_bare_device
    = (Raise ValueError, self')
    /\ first_named "0123456789" (devices_entries self')
       = Some (_ensure_device_variables_container [("@name", VStr "0123456789")])
    /\ variable_block_normalised
         (_ensure_device_variables_container [("@name", VStr "0123456789")]) = true
    /\ device_variables self' "0123456789"
       = device_variables stack_with_bare_device "0123456789"
    /\ List.length (devices_entries self')
       = List.length (devices_entries stack_with_bare_device).
Proof.
  apply (update_device_variable_refused_after_normalising "0123456789" "$psk" (VInt 42)
           stack_with_bare_device [("@name", VStr "0123456789")]);
    reflexivity.
Defined.

(** X22: an ['entry'] of [None] in the stack-level variables is accepted
    by [validate_variable_structure] as an empty container, yet
    [_infer_variable_type] raises [TypeError] on it for every name, and
    so does [set_device_variable_value], leaving the object untouched. *)
Theorem entry_none_accepted_but_not_searched :
  forall (self : obj) (var : list (string * pyval)),
    _variable self = VDict var ->
    dict_get "entry" var = Some VNone ->
    validate_variable_structure (_variable self) = true
    /\ (forall name, _infer_variable_type self name = Raise TypeError)
    /\ (forall serial name value create,
          set_device_variable_value serial name value create self
          = (Raise TypeError, self)).
Proof.
  intros self var Hv He.
  assert (Hinfer : forall name, _infer_variable_type self name = Raise TypeError).
  { intros name. unfold _infer_variable_type. rewrite Hv.
    unfold dict_mem. rewrite He.
    destruct var as [|kv var]; [discriminate He | reflexivity]. }
  split; [|split].
  - rewrite Hv. unfold validate_variable_structure. now rewrite He.
  - exact Hinfer.
  - intros serial name value create. unfold set_device_variable_value.
    unfold bind at 1, read. unfold bind at 1, lift. now rewrite Hinfer.
Qed.

Lemma entry_none_accepted_but_not_searched_witness :
  let self :=
    mkObj (VDict [("member", VList [])]) (VDict [("entry", VList [])])
      (VDict [("entry", VNone)])
      [("templates", RefTemplates); ("devices", RefDevices); ("variable", RefVariable)] in
  validate_variable_structure (_variable self) = true
  /\ (forall name, _infer_variable_type self name = Raise TypeError)
  /\ (forall serial name value create,
        set_device_variable_value serial name value create self
        = (Raise TypeError, self)).
Proof.
  intros self.
  apply (entry_none_accepted_but_not_searched self [("entry", VNone)]); reflexivity.
Defined.

Lemma settings_setter_postcondition_witness :
  let '(r, self') :=
    Templates.settings_setter (VDict [("default-vsys", VStr "vsys3")])
      (Templates.mkObj None []) in
  (self' = Templates.mkObj None []
   \/ exists d,
        Templates._settings self' = Some (VDict d)
        /\ dict_mem "default-vsys" d = true
        /\ dict_get "settings" (Templates.entry self') = Some (VDict d))
  /\ (forall e, r = Raise e -> self' = Templates.mkObj None []).
Proof.
  exact (settings_setter_postcondition (VDict [("default-vsys", VStr "vsys3")])
           (Templates.mkObj None [])).
Defined.

(** * Entries that are no lists *)

(** On list-shaped containers the call raises [ValueError] exactly as the
    search finds nothing. *)
Lemma set_device_variable_value_not_found
    (serial name : string) (value : pyval) (create : bool) (self : obj) :
  variable_shape_ok self = true ->
  devices_shape_ok self = true ->
  Forall (fun x => entry_type_tag name x = None) (stack_definitions self) ->
  Forall (fun x => entry_type_tag name x = None)
    (flat_map device_variable_entries (devices_entries self)) ->
  set_device_variable_value serial name value create self = (Raise ValueError, self).
Proof.
  intros Hv Hd Hs Hdev.
  apply (proj1 (set_device_variable_value_raises_or_creates self serial name value)).
  apply (infer_variable_type_none_iff self name Hv Hd). now split.
Qed.

(** C1: [set_device_variable_value] on stacks that both validators
    accept.  With stack-level variables [{'entry': None}] and no devices,
    the variable is found nowhere, yet the call raises [TypeError], not
    [ValueError].  With a first device whose block is [{'entry': None}]
    and a second device that defines the variable, the type is found
    among the device entries, no device has the serial and
    [create_device_if_missing] is [True], yet the call raises [TypeError]
    and no device is added. *)
Theorem set_device_variable_value_type_error_on_none_entry :
  validate_variable_structure (_variable stack_with_none_entry) = true
  /\ validate_devices_structure (_devices stack_with_none_entry) = true
  /\ spec_infer_variable_type stack_with_none_entry "$mgmt_ip" = None
  /\ set_device_variable_value "0123456789" "$mgmt_ip" (VStr "10.1.2.3/32") true
       stack_with_none_entry
     = (Raise TypeError, stack_with_none_entry)
  /\ validate_variable_structure (_variable stack_with_none_block) = true
  /\ validate_devices_structure (_devices stack_with_none_block) = true
  /\ spec_infer_variable_type stack_with_none_block "$hostname" = Some "hostname"
  /\ existsb (named "0003") (devices_entries stack_with_none_block) = false
  /\ set_device_variable_value "0003" "$hostname" (VStr "fw3") true
       stack_with_none_block
     = (Raise TypeError, stack_with_none_block).
Proof. repeat split. Qed.

(** C2: [_infer_variable_type] on stacks that both validators accept.
    With stack-level variables [{'entry': None}] neither search matches,
    yet the call raises [TypeError] instead of returning [None].  With a
    first device whose block is [{'entry': None}], no stack-level
    definition matches and the second device holds a matching entry, yet
    the call raises [TypeError] instead of returning its tag. *)
Theorem infer_variable_type_type_error_on_none_entry :
  validate_variable_structure (_variable stack_with_none_entry) = true
  /\ validate_devices_structure (_devices stack_with_none_entry) = true
  /\ spec_infer_variable_type stack_with_none_entry "$mgmt_ip" = None
  /\ _infer_variable_type stack_with_none_entry "$mgmt_ip" = Raise TypeError
  /\ validate_variable_structure (_variable stack_with_none_block) = true
  /\ validate_devices_structure (_devices stack_with_none_block) = true
  /\ first_match "$hostname" (stack_definitions stack_with_none_block) = None
  /\ spec_infer_variable_type stack_with_none_block "$hostname" = Some "hostname"
  /\ _infer_variable_type stack_with_none_block "$hostname" = Raise TypeError.
Proof. repeat split. Qed.

(** * Which calls normalise which container *)




